(** * claude-ai-deployer: a shallow embedding of the classification-and-manifest
      pipeline ([claude_ai_deployer.py]) and of the verification pass
      ([deployment_verifier.py]), with the properties of its specification.

    Layout: the Python run-time notions the two scripts rely on (strings as
    code points, dynamically typed values, exceptions), the library functions
    they call ([re.match], UTF-8, base64, SHA-256, [pathlib]), the two classes,
    and then the theorems. The methods that act on the outside world are
    given twice: by the values they compute ([Deployer], [Verifier]), and
    with what they print, write and ask recorded ([Console], [Queries]). *)

From Stdlib Require Import String Ascii.
From Stdlib Require Import List NArith ZArith QArith Bool Lia.
From Stdlib Require Strings.Byte.
From Stdlib Require Import DecimalString.
From Equations Require Import Equations.
Import ListNotations.
Close Scope Q_scope.
Open Scope N_scope.

Set Implicit Arguments.

(* ===================================================================== *)
(** * Python run-time model *)
(* ===================================================================== *)

Module Py.

(** A Python [str] is a sequence of Unicode code points. *)
Definition pystr := list N.

(** A [bytes] object. *)
Definition pybytes := list Byte.byte.

(** The code points of an ASCII literal of the scripts. *)
Definition u (s : string) : pystr :=
  map N_of_ascii (list_ascii_of_string s).

Definition LF : N := 10.      (* line feed *)
Definition CR : N := 13.      (* carriage return *)
Definition DQUOTE : N := 34.  (* double quote *)
Definition BSLASH : N := 92.  (* backslash *)

Fixpoint str_eqb (a b : pystr) : bool :=
  match a, b with
  | [], [] => true
  | x :: a', y :: b' => (x =? y) && str_eqb a' b'
  | _, _ => false
  end.

(** The exceptions that the modelled code paths can meet. *)
Inductive exn :=
| KeyError (key : pystr)
| TypeError
| AttributeError
| ZeroDivisionError
| UnicodeDecodeError
| UnicodeEncodeError
| PermissionError (path : pystr)
| FileNotFoundError (path : pystr)
| IsADirectoryError (path : pystr)
| TimeoutExpired
| OSError (msg : pystr).

(** [str(e)]: the text Python renders for the exception. The file name in
    an [OSError] family message is shown between single quotes, which is the
    [repr] of a name free of quotes, backslashes and non-printable
    characters; [Console.str_exc] has the [repr] of any name. *)
Definition str_of_exn (e : exn) : pystr :=
  match e with
  | KeyError k => u "'" ++ k ++ u "'"
  | TypeError => u "unsupported operand type(s)"
  | AttributeError => u "object has no attribute 'get'"
  | ZeroDivisionError => u "division by zero"
  | UnicodeDecodeError => u "'utf-8' codec can't decode bytes"
  | UnicodeEncodeError => u "'utf-8' codec can't encode character"
  | PermissionError p => u "[Errno 13] Permission denied: '" ++ p ++ u "'"
  | FileNotFoundError p => u "[Errno 2] No such file or directory: '" ++ p ++ u "'"
  | IsADirectoryError p => u "[Errno 21] Is a directory: '" ++ p ++ u "'"
  | TimeoutExpired => u "Command timed out after 10 seconds"
  | OSError m => m
  end.

(** A computation that returns or raises. *)
Inductive result (A : Type) :=
| Ok (a : A)
| Raise (e : exn).
Arguments Ok {A} a.
Arguments Raise {A} e.

Definition bind {A B} (m : result A) (k : A -> result B) : result B :=
  match m with
  | Ok a => k a
  | Raise e => Raise e
  end.

(** Dynamically typed values: what the scripts store in their dicts and what
    [json.dumps]/[json.loads] carry between the two passes. A dict is the
    list of its items in insertion order (keys pairwise distinct). *)
#[warnings="-register-all"]
Inductive value :=
| VNone
| VBool (b : bool)
| VInt (z : Z)
| VFloat (q : Q)
| VStr (s : pystr)
| VList (l : list value)
| VDict (items : list (pystr * value)).

Definition dict := list (pystr * value).

Fixpoint lookup (d : dict) (k : pystr) : option value :=
  match d with
  | [] => None
  | (k', v) :: d' => if str_eqb k' k then Some v else lookup d' k
  end.

(** [d[k]] *)
Definition getitem (d : dict) (k : pystr) : result value :=
  match lookup d k with
  | Some v => Ok v
  | None => Raise (KeyError k)
  end.

(** [x.get(k, default)] on an arbitrary value: only a dict has [get]. *)
Definition get (x : value) (k : pystr) (default : value) : result value :=
  match x with
  | VDict d => Ok (match lookup d k with Some v => v | None => default end)
  | _ => Raise AttributeError
  end.

(** [a + b] where the left operand is a [str]. *)
Definition add_str (a b : value) : result value :=
  match a, b with
  | VStr x, VStr y => Ok (VStr (x ++ y))
  | _, _ => Raise TypeError
  end.

(** [a / b] on ints: true division. The float Python returns is the double
    nearest to the rational recorded here. *)
Definition truediv (a b : Z) : result Q :=
  if (b =? 0)%Z then Raise ZeroDivisionError
  else Ok (Qred (Qmake a 1 / Qmake b 1)).

(** [str(v)], the text an f-string interpolates for [v]. A str is itself;
    None, bools and ints have their usual spelling. The scripts interpolate
    only fields that [route_file] and [create_deployment_manifest] fill with
    strings; the [repr] of floats and containers is not modelled and they
    are shown by their type name. *)
Definition str_of (v : value) : pystr :=
  match v with
  | VStr s => s
  | VNone => u "None"
  | VBool true => u "True"
  | VBool false => u "False"
  | VInt z => u (NilZero.string_of_int (Z.to_int z))
  | VFloat _ => u "<float>"
  | VList _ => u "<list>"
  | VDict _ => u "<dict>"
  end.

(** [v[k]] on an arbitrary value with a string key: only a dict accepts it. *)
Definition subscript (v : value) (k : pystr) : result value :=
  match v with
  | VDict d => getitem d k
  | _ => Raise TypeError
  end.

(** A value on which a [str] method or slice is applied. *)
Definition as_str (v : value) : result pystr :=
  match v with
  | VStr s => Ok s
  | _ => Raise TypeError
  end.

(** [str.strip()] removes leading and trailing white space; these are the
    code points for which [str.isspace] holds. *)
Definition isspace (c : N) : bool :=
  ((9 <=? c) && (c <=? 13)) || ((28 <=? c) && (c <=? 32)) ||
  (c =? 133) || (c =? 160) || (c =? 5760) ||
  ((8192 <=? c) && (c <=? 8202)) || (c =? 8232) || (c =? 8233) ||
  (c =? 8239) || (c =? 8287) || (c =? 12288).

Fixpoint lstrip (s : pystr) : pystr :=
  match s with
  | c :: s' => if isspace c then lstrip s' else s
  | [] => []
  end.

Definition strip (s : pystr) : pystr := rev (lstrip (rev (lstrip s))).

End Py.

Notation "x <- m ;; k" := (Py.bind m (fun x => k))
  (at level 61, m at next level, right associativity).

(* ===================================================================== *)
(** * [re.match(pattern, string, re.IGNORECASE)] *)
(* ===================================================================== *)

Module Re.
Import Py.

(** The pattern language used by [ROUTING_RULES]: a sequence of items, each
    one of [.*], a run of literal characters (an escaped dot is the literal
    dot), a group of literal alternatives, and the end anchor [$]. *)
Inductive item :=
| AnyStar                      (* .*        *)
| Lit (chars : pystr)          (* abc, \.   *)
| Alt (branches : list pystr)  (* (ab|cd)   *)
| Eol.                         (* $         *)

Definition regex := list item.

(** The simple lower-case mapping the matcher applies to a subject character
    under IGNORECASE, as far as the patterns can observe it: the code points
    whose lower case is an ASCII letter are the 26 capitals, U+0130 (capital
    I with dot, lower case i) and U+212A (Kelvin sign, lower case k). No
    other code point has a lower case that is an ASCII character, U+017F or
    U+0131, so leaving the others in place changes no comparison below. *)
Definition lower (c : N) : N :=
  if c =? 304 then 105
  else if c =? 8490 then 107
  else if (65 <=? c) && (c <=? 90) then c + 32
  else c.

(** Characters with the same upper case but another lower case, which the
    compiler adds to a case-insensitive literal: i and dotless i (U+0131),
    s and long s (U+017F). *)
Definition casefix (lo : N) : list N :=
  if lo =? 105 then [305]
  else if lo =? 115 then [383]
  else [].

(** A pattern character [p] against a subject character [c], ignoring case. *)
Definition char_ic (p c : N) : bool :=
  let lo := lower p in
  (lower c =? lo) || existsb (N.eqb (lower c)) (casefix lo).

(** [.] without DOTALL: any character but the line feed. *)
Definition dot (c : N) : bool := negb (c =? LF).

(** [$] without MULTILINE: at the end of the string, or just before a line
    feed that ends the string. *)
Definition at_eol (s : pystr) : bool :=
  match s with
  | [] => true
  | [c] => c =? LF
  | _ => false
  end.

(** Consume the literal [l] from the front of [s]. *)
Fixpoint eat (l s : pystr) : option pystr :=
  match l, s with
  | [], _ => Some s
  | p :: l', c :: s' => if char_ic p c then eat l' s' else None
  | _ :: _, [] => None
  end.

(** Backtracking match of [r] at the front of [s]; [.*] is greedy, so the
    longer repetition is tried first. The match may stop anywhere: what
    follows it in [s] is not looked at. *)
Fixpoint match_here (r : regex) (s : pystr) : bool :=
  match r with
  | [] => true
  | AnyStar :: r' =>
      (fix star (s : pystr) : bool :=
         match s with
         | c :: s' => (dot c && star s') || match_here r' s
         | [] => match_here r' s
         end) s
  | Lit l :: r' =>
      match eat l s with
      | Some s' => match_here r' s'
      | None => false
      end
  | Alt bs :: r' =>
      existsb (fun l => match eat l s with
                        | Some s' => match_here r' s'
                        | None => false
                        end) bs
  | Eol :: r' => at_eol s && match_here r' s
  end.

(** [re.match(r, s, re.IGNORECASE) is not None]. *)
Definition re_match (r : regex) (s : pystr) : bool := match_here r s.

(** The same language, as a relation: [sem r s rest] when [r] matches a
    prefix of [s] and [rest] is what follows the match. *)
Inductive item_sem : item -> pystr -> pystr -> Prop :=
| sem_star : forall pre rest,
    Forall (fun c => dot c = true) pre ->
    item_sem AnyStar (pre ++ rest) rest
| sem_lit : forall l pre rest,
    Forall2 (fun p c => char_ic p c = true) l pre ->
    item_sem (Lit l) (pre ++ rest) rest
| sem_alt : forall bs l pre rest,
    In l bs ->
    Forall2 (fun p c => char_ic p c = true) l pre ->
    item_sem (Alt bs) (pre ++ rest) rest
| sem_eol : forall s,
    s = [] \/ s = [LF] ->
    item_sem Eol s s.

Inductive sem : regex -> pystr -> pystr -> Prop :=
| sem_nil : forall s, sem [] s s
| sem_cons : forall i r s s1 s2,
    item_sem i s s1 -> sem r s1 s2 -> sem (i :: r) s s2.

End Re.

(* ===================================================================== *)
(** * Codecs: UTF-8 and base64 *)
(* ===================================================================== *)

Module Codec.
Import Py.

Definition byte_val (b : Byte.byte) : N := Byte.to_N b.

Definition byte_of (n : N) : Byte.byte :=
  match Byte.of_N n with
  | Some b => b
  | None => Byte.x00
  end.

(** ** UTF-8 *)

(** A continuation byte, 10xxxxxx. *)
Definition cont (b : N) : bool := (128 <=? b) && (b <=? 191).

(** The second byte allowed after the lead byte [b0] of a three-byte form:
    no overlong form after E0, no surrogate after ED. *)
Definition second3 (b0 b1 : N) : bool :=
  if b0 =? 224 then (160 <=? b1) && (b1 <=? 191)
  else if b0 =? 237 then (128 <=? b1) && (b1 <=? 159)
  else cont b1.

(** The second byte allowed after the lead byte [b0] of a four-byte form:
    no overlong form after F0, nothing above U+10FFFF after F4. *)
Definition second4 (b0 b1 : N) : bool :=
  if b0 =? 240 then (144 <=? b1) && (b1 <=? 191)
  else if b0 =? 244 then (128 <=? b1) && (b1 <=? 143)
  else cont b1.

(** Strict decoding of the byte values [bs]; [None] is UnicodeDecodeError. *)
Fixpoint utf8_decode_vals (bs : list N) : option pystr :=
  match bs with
  | [] => Some []
  | b0 :: t0 =>
      if b0 <? 128 then option_map (cons b0) (utf8_decode_vals t0)
      else if (194 <=? b0) && (b0 <=? 223) then
        match t0 with
        | b1 :: t1 =>
            if cont b1
            then option_map (cons ((b0 - 192) * 64 + (b1 - 128)))
                            (utf8_decode_vals t1)
            else None
        | _ => None
        end
      else if (224 <=? b0) && (b0 <=? 239) then
        match t0 with
        | b1 :: b2 :: t2 =>
            if second3 b0 b1 && cont b2
            then option_map
                   (cons ((b0 - 224) * 4096 + (b1 - 128) * 64 + (b2 - 128)))
                   (utf8_decode_vals t2)
            else None
        | _ => None
        end
      else if (240 <=? b0) && (b0 <=? 244) then
        match t0 with
        | b1 :: b2 :: b3 :: t3 =>
            if second4 b0 b1 && cont b2 && cont b3
            then option_map
                   (cons ((b0 - 240) * 262144 + (b1 - 128) * 4096
                          + (b2 - 128) * 64 + (b3 - 128)))
                   (utf8_decode_vals t3)
            else None
        | _ => None
        end
      else None
  end.

(** [bs.decode('utf-8')] *)
Definition utf8_decode (bs : pybytes) : option pystr :=
  utf8_decode_vals (map byte_val bs).

(** A code point that UTF-8 can carry: a Unicode scalar value. *)
Definition scalar (c : N) : bool :=
  (c <? 55296) || ((57344 <=? c) && (c <? 1114112)).

Definition utf8_encode_char (c : N) : list N :=
  if c <? 128 then [c]
  else if c <? 2048 then [192 + c / 64; 128 + c mod 64]
  else if c <? 65536 then
    [224 + c / 4096; 128 + (c / 64) mod 64; 128 + c mod 64]
  else
    [240 + c / 262144; 128 + (c / 4096) mod 64;
     128 + (c / 64) mod 64; 128 + c mod 64].

(** [s.encode()]: UnicodeEncodeError on a surrogate. *)
Fixpoint utf8_encode (s : pystr) : result pybytes :=
  match s with
  | [] => Ok []
  | c :: s' =>
      if scalar c
      then bs <- utf8_encode s' ;;
           Ok (map byte_of (utf8_encode_char c) ++ bs)
      else Raise UnicodeEncodeError
  end.

(** Universal newlines, as applied by a file opened in text mode with the
    default [newline=None]: on reading, CR LF and a lone CR become LF. *)
Fixpoint universal_newlines (s : pystr) : pystr :=
  match s with
  | [] => []
  | c :: s' =>
      if c =? CR then
        match s' with
        | d :: s'' => if d =? LF then LF :: universal_newlines s''
                      else LF :: universal_newlines s'
        | [] => [LF]
        end
      else c :: universal_newlines s'
  end.

(** ** base64, standard alphabet with padding (RFC 4648) *)

Definition PAD : N := 61.

Definition b64char (i : N) : N :=
  if i <? 26 then 65 + i
  else if i <? 52 then 97 + (i - 26)
  else if i <? 62 then 48 + (i - 52)
  else if i =? 62 then 43
  else 47.

Definition b64val (c : N) : option N :=
  if (65 <=? c) && (c <=? 90) then Some (c - 65)
  else if (97 <=? c) && (c <=? 122) then Some (c - 97 + 26)
  else if (48 <=? c) && (c <=? 57) then Some (c - 48 + 52)
  else if c =? 43 then Some 62
  else if c =? 47 then Some 63
  else None.

Fixpoint b64encode_vals (bs : list N) : pystr :=
  match bs with
  | [] => []
  | [a] => [b64char (a / 4); b64char ((a mod 4) * 16); PAD; PAD]
  | [a; b] =>
      [b64char (a / 4); b64char ((a mod 4) * 16 + b / 16);
       b64char ((b mod 16) * 4); PAD]
  | a :: b :: c :: t =>
      b64char (a / 4) :: b64char ((a mod 4) * 16 + b / 16)
      :: b64char ((b mod 16) * 4 + c / 64) :: b64char (c mod 64)
      :: b64encode_vals t
  end.

(** [base64.b64encode(bs).decode('utf-8')]: the output is ASCII, so the
    decoded string has the same code points. *)
Definition b64encode (bs : pybytes) : pystr :=
  b64encode_vals (map byte_val bs).

(** Decoding of canonical base64 text (groups of four characters, padding
    only in the last group); [base64.b64decode] agrees with it on every
    output of [b64encode]. *)
Fixpoint b64decode_vals (s : pystr) : option (list N) :=
  match s with
  | [] => Some []
  | c0 :: c1 :: c2 :: c3 :: t =>
      match b64val c0, b64val c1 with
      | Some v0, Some v1 =>
          if (c2 =? PAD) && (c3 =? PAD) then
            match t with
            | [] => Some [v0 * 4 + v1 / 16]
            | _ => None
            end
          else
            match b64val c2 with
            | Some v2 =>
                if c3 =? PAD then
                  match t with
                  | [] => Some [v0 * 4 + v1 / 16; (v1 mod 16) * 16 + v2 / 4]
                  | _ => None
                  end
                else
                  match b64val c3 with
                  | Some v3 =>
                      option_map
                        (fun r => (v0 * 4 + v1 / 16)
                                  :: ((v1 mod 16) * 16 + v2 / 4)
                                  :: ((v2 mod 4) * 64 + v3) :: r)
                        (b64decode_vals t)
                  | None => None
                  end
            | None => None
            end
      | _, _ => None
      end
  | _ => None
  end.

Definition b64decode (s : pystr) : option pybytes :=
  option_map (map byte_of) (b64decode_vals s).

End Codec.

(* ===================================================================== *)
(** * [hashlib.sha256] (FIPS 180-4), with its streaming interface *)
(* ===================================================================== *)

Module Hashlib.
Import Py.

Definition W32 : N := 4294967296.

Definition add32 (a b : N) : N := (a + b) mod W32.
Definition rotr (n x : N) : N :=
  N.lor (N.shiftr x n) (N.shiftl x (32 - n) mod W32).
Definition shr (n x : N) : N := N.shiftr x n.
Definition not32 (x : N) : N := W32 - 1 - x mod W32.

Definition Ch (x y z : N) : N := N.lxor (N.land x y) (N.land (not32 x) z).
Definition Maj (x y z : N) : N :=
  N.lxor (N.lxor (N.land x y) (N.land x z)) (N.land y z).
Definition Sigma0 (x : N) : N := N.lxor (N.lxor (rotr 2 x) (rotr 13 x)) (rotr 22 x).
Definition Sigma1 (x : N) : N := N.lxor (N.lxor (rotr 6 x) (rotr 11 x)) (rotr 25 x).
Definition sigma0 (x : N) : N := N.lxor (N.lxor (rotr 7 x) (rotr 18 x)) (shr 3 x).
Definition sigma1 (x : N) : N := N.lxor (N.lxor (rotr 17 x) (rotr 19 x)) (shr 10 x).

(** The constants of the standard are defined from the first prime numbers:
    the first 32 bits of the fractional part of the square root (initial
    hash value, first 8 primes) and of the cube root (round constants, first
    64 primes). *)
Definition is_prime (n : nat) : bool :=
  (1 <? n)%nat &&
  forallb (fun d => negb (n mod d =? 0)%nat) (seq 2 (n - 2)).

Definition primes : list N :=
  map N.of_nat (filter is_prime (seq 2 310)).

(** The integer cube root, one bit at a time from the top. *)
Fixpoint cbrt_bits (bits : nat) (n r : N) : N :=
  match bits with
  | O => r
  | S b =>
      let r' := r + 2 ^ N.of_nat b in
      cbrt_bits b n (if r' * r' * r' <=? n then r' else r)
  end.

Definition frac_sqrt (p : N) : N := N.sqrt (p * 2 ^ 64) mod W32.
Definition frac_cbrt (p : N) : N := cbrt_bits 36 (p * 2 ^ 96) 0 mod W32.

Definition H0 : list N := Eval vm_compute in map frac_sqrt (firstn 8 primes).

Definition K : list N := Eval vm_compute in map frac_cbrt (firstn 64 primes).

(** Big-endian words of a block. *)
Fixpoint words (bs : list N) : list N :=
  match bs with
  | a :: b :: c :: d :: t =>
      (a * 16777216 + b * 65536 + c * 256 + d) :: words t
  | _ => []
  end.

(** The message schedule: [n] more words after the ones in [w]. *)
Fixpoint schedule (n : nat) (w : list N) : list N :=
  match n with
  | O => w
  | S n' =>
      let t := length w in
      let x := add32 (add32 (sigma1 (nth (t - 2) w 0)) (nth (t - 7) w 0))
                     (add32 (sigma0 (nth (t - 15) w 0)) (nth (t - 16) w 0)) in
      schedule n' (w ++ [x])
  end.

Definition regs := (N * N * N * N * N * N * N * N)%type.

Definition round (v : regs) (kw : N * N) : regs :=
  let '(a, b, c, d, e, f, g, h) := v in
  let t1 := add32 (add32 (add32 h (Sigma1 e)) (add32 (Ch e f g) (fst kw)))
                  (snd kw) in
  let t2 := add32 (Sigma0 a) (Maj a b c) in
  (add32 t1 t2, a, b, c, add32 d t1, e, f, g).

(** One application of the compression function to a 64-byte block. *)
Definition compress (h : list N) (block : list N) : list N :=
  let r i := nth i h 0 in
  let v := (r 0, r 1, r 2, r 3, r 4, r 5, r 6, r 7)%nat in
  let '(a, b, c, d, e, f, g, hh) :=
    fold_left round (combine K (schedule 48 (words block))) v in
  [add32 (r 0%nat) a; add32 (r 1%nat) b; add32 (r 2%nat) c;
   add32 (r 3%nat) d; add32 (r 4%nat) e; add32 (r 5%nat) f;
   add32 (r 6%nat) g; add32 (r 7%nat) hh].

(** Compress the first [n] blocks of [buf]; what is left of [buf] comes back
    with the chaining value. *)
Fixpoint absorb_n (n : nat) (h : list N) (buf : list N) : list N * list N :=
  match n with
  | O => (h, buf)
  | S n' => absorb_n n' (compress h (firstn 64 buf)) (skipn 64 buf)
  end.

(** Compress every complete block of [buf]. *)
Definition absorb (h : list N) (buf : list N) : list N * list N :=
  absorb_n (length buf / 64) h buf.

(** The hash object: chaining value, bytes not yet forming a block, and the
    number of bytes fed so far. *)
Record sha256_obj := {
  chain : list N;
  pending : list N;
  fed : N
}.

(** [hashlib.sha256()] *)
Definition sha256 : sha256_obj :=
  {| chain := H0; pending := []; fed := 0 |}.

(** [h.update(data)] *)
Definition update (h : sha256_obj) (data : pybytes) : sha256_obj :=
  let vals := map Byte.to_N data in
  let '(c, rest) := absorb (chain h) (pending h ++ vals) in
  {| chain := c; pending := rest; fed := fed h + N.of_nat (length data) |}.

Definition be64 (n : N) : list N :=
  map (fun i => (n / 2 ^ (8 * i)) mod 256) [7; 6; 5; 4; 3; 2; 1; 0].

Definition be32 (n : N) : list N :=
  map (fun i => (n / 2 ^ (8 * i)) mod 256) [3; 2; 1; 0].

(** Padding of the last, incomplete part of the message. *)
Definition padding (npending : nat) (total : N) : list N :=
  128 :: repeat 0 ((119 - npending mod 64) mod 64)%nat ++ be64 (8 * total).

(** [h.digest()], as byte values. *)
Definition digest (h : sha256_obj) : list N :=
  let '(c, _) :=
    absorb (chain h) (pending h ++ padding (length (pending h)) (fed h)) in
  flat_map be32 c.

Definition hexchar (n : N) : N := if n <? 10 then 48 + n else 87 + n.

Definition hex (bs : list N) : pystr :=
  flat_map (fun b => [hexchar (b / 16); hexchar (b mod 16)]) bs.

(** [h.hexdigest()] *)
Definition hexdigest (h : sha256_obj) : pystr := hex (digest h).

End Hashlib.

(* ===================================================================== *)
(** * [pathlib] over a file-system tree *)
(* ===================================================================== *)

Module Pathlib.
Import Py.

(** An absolute path: its components below the root. *)
Definition Path := list pystr.

(** [p.name]: the final component. *)
Definition name (p : Path) : pystr := last p [].

Fixpoint join (sep : pystr) (l : list pystr) : pystr :=
  match l with
  | [] => []
  | [x] => x
  | x :: l' => x ++ sep ++ join sep l'
  end.

(** [str(p)] *)
Definition str (p : Path) : pystr := u "/" ++ join (u "/") p.

(** What a name in a directory denotes: a regular file (with the bytes it
    holds and whether this process may read them), a directory, or something
    else (socket, FIFO, device). *)
#[warnings="-register-all"]
Inductive node :=
| File (readable : bool) (data : pybytes)
| Dir (entries : list (pystr * node))
| Special.

Fixpoint entry (es : list (pystr * node)) (c : pystr) : option node :=
  match es with
  | [] => None
  | (c', n) :: es' => if str_eqb c' c then Some n else entry es' c
  end.

Fixpoint resolve (root : node) (p : Path) : option node :=
  match p with
  | [] => Some root
  | c :: p' =>
      match root with
      | Dir es =>
          match entry es c with
          | Some n => resolve n p'
          | None => None
          end
      | _ => None
      end
  end.

(** [p.exists()] *)
Definition exists_ (fs : node) (p : Path) : bool :=
  match resolve fs p with
  | Some _ => true
  | None => false
  end.

(** [p.is_file()] *)
Definition is_file (fs : node) (p : Path) : bool :=
  match resolve fs p with
  | Some (File _ _) => true
  | _ => false
  end.

(** [p.read_bytes()], and [open(p, 'rb')] followed by reading *)
Definition read_bytes (fs : node) (p : Path) : result pybytes :=
  match resolve fs p with
  | Some (File true data) => Ok data
  | Some (File false _) => Raise (PermissionError (str p))
  | Some (Dir _) => Raise (IsADirectoryError (str p))
  | Some Special => Raise (OSError (str p))
  | None => Raise (FileNotFoundError (str p))
  end.

(** [p.read_text(encoding='utf-8')]: text mode, universal newlines. *)
Definition read_text (fs : node) (p : Path) : result pystr :=
  bs <- read_bytes fs p ;;
  match Codec.utf8_decode bs with
  | Some text => Ok (Codec.universal_newlines text)
  | None => Raise UnicodeDecodeError
  end.

(** [p.stat().st_size]; only the size of a regular file is modelled. *)
Definition st_size (fs : node) (p : Path) : result Z :=
  match resolve fs p with
  | Some (File _ data) => Ok (Z.of_nat (length data))
  | Some _ => Ok 0%Z
  | None => Raise (FileNotFoundError (str p))
  end.

(** The paths [rglob('*')] yields below the directory [n] found at [base]:
    the entries of the directory, then the same for each sub-directory in
    turn. Hidden names are yielded like the others. *)
Fixpoint walk (base : Path) (n : node) : list Path :=
  match n with
  | Dir es =>
      map (fun e => base ++ [fst e]) es ++
      (fix subdirs (es : list (pystr * node)) : list Path :=
         match es with
         | [] => []
         | (c, child) :: es' => walk (base ++ [c]) child ++ subdirs es'
         end) es
  | _ => []
  end.

(** [p.rglob('*')] *)
Definition rglob (fs : node) (p : Path) : list Path :=
  match resolve fs p with
  | Some n => walk p n
  | None => []
  end.

(** [s.startswith(prefix)] *)
Fixpoint startswith (s prefix : pystr) : bool :=
  match prefix, s with
  | [], _ => true
  | p :: prefix', c :: s' => (c =? p) && startswith s' prefix'
  | _ :: _, [] => false
  end.

(** A file opened for reading in binary mode: the bytes not yet read. *)
Definition fileobj := pybytes.

(** [f.read(n)]: the chunk read and the file object after the read. *)
Definition read (n : nat) (f : fileobj) : pybytes * fileobj :=
  (firstn n f, skipn n f).

End Pathlib.

(* ===================================================================== *)
(** * [claude_ai_deployer.py] *)
(* ===================================================================== *)

Module Deployer.
Import Py Re Pathlib.

Definition GITHUB_API : pystr := u "https://api.github.com".
Definition GITHUB_USER : pystr := u "breverdbidder".
Definition OUTPUTS_DIR : Path := [u "mnt"; u "user-data"; u "outputs"].

Definition target (repo path description : string) : dict :=
  [(u "repo", VStr (u repo));
   (u "path", VStr (u path));
   (u "description", VStr (u description))].

(** The routing table, in the order of the dict literal (the order in which
    [ROUTING_RULES.items()] yields it). *)
Definition ROUTING_RULES : list (regex * dict) :=
  [ (* .*\.yml$ *)
    ([AnyStar; Lit (u ".yml"); Eol],
     target "life-os" ".github/workflows/" "GitHub Actions workflow");
    (* .*_node.*\.py$ *)
    ([AnyStar; Lit (u "_node"); AnyStar; Lit (u ".py"); Eol],
     target "life-os" "src/nodes/" "LangGraph node module");
    (* .*_agent.*\.py$ *)
    ([AnyStar; Lit (u "_agent"); AnyStar; Lit (u ".py"); Eol],
     target "life-os" "src/agents/" "Agent module");
    (* .*_scraper.*\.py$ *)
    ([AnyStar; Lit (u "_scraper"); AnyStar; Lit (u ".py"); Eol],
     target "brevard-bidder-scraper" "src/scrapers/" "Scraper module");
    (* .*\.py$ *)
    ([AnyStar; Lit (u ".py"); Eol],
     target "life-os" "src/" "Python module");
    (* .*\.(html|css|js)$ *)
    ([AnyStar; Lit (u "."); Alt [u "html"; u "css"; u "js"]; Eol],
     target "biddeed-conversational-ai" "public/" "Web artifact");
    (* .*\.md$ *)
    ([AnyStar; Lit (u ".md"); Eol],
     target "life-os" "docs/" "Documentation");
    (* .*\.docx$ *)
    ([AnyStar; Lit (u ".docx"); Eol],
     target "life-os" "reports/" "Document report");
    (* .*\.pdf$ *)
    ([AnyStar; Lit (u ".pdf"); Eol],
     target "life-os" "reports/" "PDF report");
    (* SKILL\.md$ *)
    ([Lit (u "SKILL.md"); Eol],
     target "life-os" "skills/" "Skill documentation") ].

(** The dict [route_file] returns for a matched rule. *)
Definition routed (tgt : dict) (filename : pystr) : result value :=
  repo <- getitem tgt (u "repo") ;;
  path <- getitem tgt (u "path") ;;
  description <- getitem tgt (u "description") ;;
  Ok (VDict [(u "repo", repo); (u "path", path);
             (u "description", description);
             (u "filename", VStr filename)]).

(** The default fallback of [route_file]. *)
Definition fallback (filename : pystr) : value :=
  VDict [(u "repo", VStr (u "life-os"));
         (u "path", VStr (u "artifacts/"));
         (u "description", VStr (u "Unclassified artifact"));
         (u "filename", VStr filename)].

(** The loop of [route_file] over the rules that remain. *)
Fixpoint route_rules (rules : list (regex * dict)) (filename : pystr)
  : result value :=
  match rules with
  | [] => Ok (fallback filename)
  | (pattern, tgt) :: rules' =>
      if re_match pattern filename then routed tgt filename
      else route_rules rules' filename
  end.

Definition route_file (filepath : Path) : result value :=
  route_rules ROUTING_RULES (name filepath).

(** The object state: the deployer's attributes, and the number of times the
    wall clock was read so far. *)
Record deployer := {
  outputs_dir : Path;
  github_token : pystr;
  github_api : pystr;
  github_user : pystr;
  deployment_log : list value;
  clock : nat
}.

(** A method that reads and updates the object and returns or raises. *)
Definition M (A : Type) := deployer -> result A * deployer.

Definition ret {A} (a : A) : M A := fun self => (Ok a, self).

Definition lift {A} (r : result A) : M A := fun self => (r, self).

Definition bindM {A B} (m : M A) (k : A -> M B) : M B :=
  fun self =>
    match m self with
    | (Ok a, self') => k a self'
    | (Raise e, self') => (Raise e, self')
    end.

(** [try: m  except Exception as e: h e] *)
Definition try_except {A} (m : M A) (h : exn -> M A) : M A :=
  fun self =>
    match m self with
    | (Ok a, self') => (Ok a, self')
    | (Raise e, self') => h e self'
    end.

Notation "x <~ m ;; k" := (bindM m (fun x => k))
  (at level 61, m at next level, right associativity).

Section World.

(** The file system the run sees, and the wall clock: [utcnow n] is the text
    of [datetime.utcnow().isoformat()] at the [n]-th reading. *)
Variable fs : node.
Variable utcnow : nat -> pystr.

(** [datetime.utcnow().isoformat() + 'Z'] *)
Definition timestamp : M pystr :=
  fun self =>
    (Ok (utcnow (clock self) ++ u "Z"),
     {| outputs_dir := outputs_dir self;
        github_token := github_token self;
        github_api := github_api self;
        github_user := github_user self;
        deployment_log := deployment_log self;
        clock := S (clock self) |}).

(** [self.deployment_log.append(entry)] *)
Definition log_append (e : value) : M unit :=
  fun self =>
    (Ok tt,
     {| outputs_dir := outputs_dir self;
        github_token := github_token self;
        github_api := github_api self;
        github_user := github_user self;
        deployment_log := deployment_log self ++ [e];
        clock := clock self |}).

Definition self_ : M deployer := fun self => (Ok self, self).

(** [ClaudeAIDeployer(outputs_dir)], with the token the environment gives. *)
Definition new_deployer (outputs : Path) (GITHUB_TOKEN : pystr) : deployer :=
  {| outputs_dir := outputs;
     github_token := GITHUB_TOKEN;
     github_api := GITHUB_API;
     github_user := GITHUB_USER;
     deployment_log := [];
     clock := 0 |}.

Definition scan_outputs (self : deployer) : list Path :=
  if negb (exists_ fs (outputs_dir self)) then []
  else
    filter (fun item => is_file fs item && negb (startswith (name item) (u ".")))
           (rglob fs (outputs_dir self)).

Definition encode_file (filepath : Path) : result (pystr * bool) :=
  match read_text fs filepath with
  | Ok content => Ok (content, false)
  | Raise UnicodeDecodeError =>
      content <- read_bytes fs filepath ;;
      Ok (Codec.b64encode content, true)
  | Raise e => Raise e
  end.

Definition inspect {A} (a : A) : {b | a = b} := exist _ a eq_refl.

(** The chunk size of [calculate_checksum]. *)
Definition CHUNK : nat := 4096.

Lemma CHUNK_pos : (0 < CHUNK)%nat.
Proof. unfold CHUNK. lia. Qed.

Opaque CHUNK.

(** [for chunk in iter(lambda: f.read(4096), b''): sha256.update(chunk)] *)
Equations? read_loop (h : Hashlib.sha256_obj) (f : fileobj)
  : Hashlib.sha256_obj by wf (length f) lt :=
  read_loop h f with inspect (read CHUNK f) => {
    | exist _ ([], _) _ := h;
    | exist _ (chunk, f') _ := read_loop (Hashlib.update h chunk) f' }.
Proof.
  pose proof CHUNK_pos.
  match goal with Hc : firstn _ _ = _ :: _ |- _ =>
    destruct f as [|x f]; [rewrite firstn_nil in Hc; discriminate|]
  end.
  rewrite length_skipn. change (length (x :: f)) with (S (length f)). lia.
Qed.

Transparent CHUNK.

Definition calculate_checksum (filepath : Path) : result pystr :=
  f <- read_bytes fs filepath ;;
  Ok (Hashlib.hexdigest (read_loop Hashlib.sha256 f)).

Definition create_deployment_manifest
    (filepath : Path) (route : value) (content : pystr) (is_binary : bool)
  : M value :=
  checksum <~ lift (calculate_checksum filepath) ;;
  target_repo <~ lift (subscript route (u "repo")) ;;
  path <~ lift (subscript route (u "path")) ;;
  target_path <~ lift (add_str path (VStr (name filepath))) ;;
  description <~ lift (subscript route (u "description")) ;;
  size_bytes <~ lift (st_size fs filepath) ;;
  created_at <~ timestamp ;;
  ret (VDict [(u "source_file", VStr (str filepath));
              (u "filename", VStr (name filepath));
              (u "target_repo", target_repo);
              (u "target_path", target_path);
              (u "description", description);
              (u "is_binary", VBool is_binary);
              (u "checksum", VStr checksum);
              (u "size_bytes", VInt size_bytes);
              (u "created_at", VStr created_at);
              (u "deployed_by", VStr (u "claude-ai-deployer"));
              (u "version", VStr (u "1.0.0"))]).

Definition generate_curl_command
    (self : deployer) (manifest : value) (content : pystr) : result pystr :=
  repo <- subscript manifest (u "target_repo") ;;
  path <- subscript manifest (u "target_path") ;;
  filename <- subscript manifest (u "filename") ;;
  description <- subscript manifest (u "description") ;;
  let message := u "Deploy: " ++ str_of filename ++ u " - " ++ str_of description in
  payload <- Codec.utf8_encode content ;;
  Ok (u "curl -X PUT " ++ [BSLASH; LF] ++
      u "  -H " ++ [DQUOTE] ++ u "Authorization: token " ++ github_token self
        ++ [DQUOTE] ++ u " " ++ [BSLASH; LF] ++
      u "  -H " ++ [DQUOTE] ++ u "Accept: application/vnd.github.v3+json"
        ++ [DQUOTE] ++ u " " ++ [BSLASH; LF] ++
      u "  " ++ [DQUOTE] ++ github_api self ++ u "/repos/" ++ github_user self
        ++ u "/" ++ str_of repo ++ u "/contents/" ++ str_of path
        ++ [DQUOTE] ++ u " " ++ [BSLASH; LF] ++
      u "  -d '{" ++ [DQUOTE] ++ u "message" ++ [DQUOTE] ++ u ": "
        ++ [DQUOTE] ++ message ++ [DQUOTE] ++ u ", "
        ++ [DQUOTE] ++ u "content" ++ [DQUOTE] ++ u ": "
        ++ [DQUOTE] ++ Codec.b64encode payload ++ [DQUOTE] ++ u ", "
        ++ [DQUOTE] ++ u "branch" ++ [DQUOTE] ++ u ": "
        ++ [DQUOTE] ++ u "main" ++ [DQUOTE] ++ u "}'" ++ [LF]).

Definition push_to_github (manifest : value) (content : pystr) : M value :=
  self <~ self_ ;;
  repo <~ lift (subscript manifest (u "target_repo")) ;;
  path <~ lift (subscript manifest (u "target_path")) ;;
  deployment_cmd <~ lift (generate_curl_command self manifest content) ;;
  ret (VDict [(u "status", VStr (u "prepared"));
              (u "repo", repo);
              (u "path", path);
              (u "command", VStr deployment_cmd);
              (u "manifest", manifest)]).

(** The pipeline of [deploy_file] with its [print] calls left out, each
    kept only for the sub-expressions it evaluates: what the method computes
    on a standard output that writes every line. [Console.deploy_file] has
    the calls themselves. *)
Definition deploy_file (filepath : Path) : M value :=
  route <~ lift (route_file filepath) ;;
  _ <~ lift (subscript route (u "repo")) ;;
  _ <~ lift (subscript route (u "path")) ;;
  enc <~ lift (encode_file filepath) ;;
  let '(content, is_binary) := enc in
  manifest <~ create_deployment_manifest filepath route content is_binary ;;
  checksum <~ lift (subscript manifest (u "checksum")) ;;
  _ <~ lift (as_str checksum) ;;
  result <~ push_to_github manifest content ;;
  status <~ lift (subscript result (u "status")) ;;
  _ <~ lift (as_str status) ;;
  now <~ timestamp ;;
  _ <~ log_append (VDict [(u "filepath", VStr (str filepath));
                          (u "manifest", manifest);
                          (u "result", result);
                          (u "timestamp", VStr now)]) ;;
  ret result.

(** The entry [deploy_all] adds to its results when a file's pipeline
    raises. *)
Definition failed_result (e : exn) (filepath : Path) : value :=
  VDict [(u "status", VStr (u "failed"));
         (u "error", VStr (str_of_exn e));
         (u "filepath", VStr (str filepath))].

(** The [for filepath in files] loop of [deploy_all], the [print] of the
    handler left out; [Console.deploy_each] has it. *)
Fixpoint deploy_each (files : list Path) (results : list value)
  : M (list value) :=
  match files with
  | [] => ret results
  | filepath :: files' =>
      result <~ try_except (deploy_file filepath)
                           (fun e => ret (failed_result e filepath)) ;;
      deploy_each files' (results ++ [result])
  end.

Definition deploy_all : M (list value) :=
  self <~ self_ ;;
  let files := scan_outputs self in
  match files with
  | [] => ret []
  | _ => deploy_each files []
  end.

(** [log['result']['status'] == s] *)
Definition log_status_is (s : pystr) (log : value) : result bool :=
  result <- subscript log (u "result") ;;
  status <- subscript result (u "status") ;;
  Ok (match status with VStr t => str_eqb t s | _ => false end).

Fixpoint count_status (s : pystr) (logs : list value) : result nat :=
  match logs with
  | [] => Ok O
  | log :: logs' =>
      b <- log_status_is s log ;;
      n <- count_status s logs' ;;
      Ok (if b then S n else n)
  end.

(** The three numbers in the header of [generate_deployment_report]:
    Total Files, Prepared, Failed. *)
Definition report_counts (self : deployer) : result (nat * nat * nat) :=
  let total := length (deployment_log self) in
  prepared <- count_status (u "prepared") (deployment_log self) ;;
  failed <- count_status (u "failed") (deployment_log self) ;;
  Ok (total, prepared, failed).

End World.

End Deployer.

(* ===================================================================== *)
(** * [deployment_verifier.py] *)
(* ===================================================================== *)

Module Verifier.
Import Py.

Record verifier := {
  log_data : value;
  github_token : pystr;
  github_api : pystr;
  github_user : pystr
}.

(** [DeploymentVerifier(log_path)] once [_load_log] has parsed the log. *)
Definition new_verifier (log : value) : verifier :=
  {| log_data := log;
     github_token := u "YOUR_GITHUB_TOKEN_HERE";
     github_api := u "https://api.github.com";
     github_user := u "breverdbidder" |}.

(** [len(x)] *)
Definition len (x : value) : result Z :=
  match x with
  | VList l => Ok (Z.of_nat (length l))
  | VStr s => Ok (Z.of_nat (length s))
  | VDict d => Ok (Z.of_nat (length d))
  | _ => Raise TypeError
  end.

(** The values [for d in x] goes through. *)
Definition iter (x : value) : result (list value) :=
  match x with
  | VList l => Ok l
  | VStr s => Ok (map (fun c => VStr [c]) s)
  | VDict d => Ok (map (fun kv => VStr (fst kv)) d)
  | _ => Raise TypeError
  end.

Section Transport.

(** The transport collaborator: [subprocess.run(cmd, capture_output=True,
    text=True, timeout=10)] returns the standard output of the command, or
    raises (time-out, curl missing, undecodable output). *)
Variable subprocess_run : list pystr -> result pystr.

Definition curl_cmd (self : verifier) (repo path : value) : list pystr :=
  let url := github_api self ++ u "/repos/" ++ github_user self ++ u "/"
             ++ str_of repo ++ u "/contents/" ++ str_of path in
  [u "curl"; u "-s"; u "-o"; u "/dev/null"; u "-w"; u "%{http_code}";
   u "-H"; u "Authorization: token " ++ github_token self;
   u "-H"; u "Accept: application/vnd.github.v3+json";
   url].

(** [verify_file_exists] by its verdict, the [print] of its handler left
    out; [Queries.verify_file_exists] has the call and the print. *)
Definition verify_file_exists (self : verifier) (repo path : value) : bool :=
  match subprocess_run (curl_cmd self repo path) with
  | Ok stdout => str_eqb (strip stdout) (u "200")
  | Raise _ => false
  end.

(** The loop state of [verify_all]: verified, failed, results. *)
Definition counters := (Z * Z * list value)%type.

(** One iteration of the [for deployment in deployments] loop; the pause
    between two checks has no effect on the values computed. *)
Definition verify_step (self : verifier) (acc : counters) (deployment : value)
  : result counters :=
  let '(verified, failed, results) := acc in
  manifest <- get deployment (u "manifest") (VDict []) ;;
  filename <- get manifest (u "filename") (VStr (u "unknown")) ;;
  repo <- get manifest (u "target_repo") (VStr []) ;;
  path <- get manifest (u "target_path") (VStr []) ;;
  let exists_ := verify_file_exists self repo path in
  let row := VDict [(u "filename", filename); (u "repo", repo);
                    (u "path", path); (u "verified", VBool exists_)] in
  Ok (if exists_ then (verified + 1, failed, results ++ [row])
      else (verified, failed + 1, results ++ [row]))%Z.

Fixpoint verify_loop (self : verifier) (ds : list value) (acc : counters)
  : result counters :=
  match ds with
  | [] => Ok acc
  | d :: ds' =>
      acc' <- verify_step self acc d ;;
      verify_loop self ds' acc'
  end.

(** The two percentages of the summary are computed (and printed) before the
    summary dict is built. The lines printed are left out;
    [Queries.verify_all] has them. *)
Definition verify_all (self : verifier) : result value :=
  deployments <- get (log_data self) (u "deployments") (VList []) ;;
  total <- len deployments ;;
  ds <- iter deployments ;;
  acc <- verify_loop self ds (0, 0, [])%Z ;;
  let '(verified, failed, results) := acc in
  _ <- truediv verified total ;;
  _ <- truediv failed total ;;
  success_rate <- (if (total >? 0)%Z
                   then q <- truediv verified total ;; Ok (VFloat q)
                   else Ok (VInt 0)) ;;
  Ok (VDict [(u "total", VInt total);
             (u "verified", VInt verified);
             (u "failed", VInt failed);
             (u "success_rate", success_rate);
             (u "details", VList results)]).

End Transport.

End Verifier.

(* ===================================================================== *)
(** * Vocabulary of the statements *)
(* ===================================================================== *)

Module Props.
Import Py Re Pathlib.

(** The repetition of [match_here], with the rest of the pattern as a
    continuation. *)
Fixpoint star (k : pystr -> bool) (s : pystr) : bool :=
  match s with
  | c :: s' => (dot c && star k s') || k s
  | [] => k s
  end.

(** Swap the case of the ASCII letters. *)
Definition swapcase_char (c : N) : N :=
  if (65 <=? c) && (c <=? 90) then c + 32
  else if (97 <=? c) && (c <=? 122) then c - 32
  else c.

Definition swapcase (s : pystr) : pystr := map swapcase_char s.

(** The name ends in [.md], in either case of the two letters. *)
Definition ends_with_md (s : pystr) : bool :=
  match rev s with
  | d :: m :: p :: _ =>
      (p =? 46) && ((m =? 109) || (m =? 77)) && ((d =? 100) || (d =? 68))
  | _ => false
  end.

Definition has_newline (s : pystr) : bool := existsb (N.eqb LF) s.

Definition has_cr (s : pystr) : bool := existsb (N.eqb CR) s.

(** No rule of the list matches the name. *)
Definition unmatched (rules : list (regex * dict)) (filename : pystr) : bool :=
  forallb (fun r => negb (re_match (fst r) filename)) rules.

(** Every target of the list has the three keys [route_file] reads. *)
Definition complete_target (tgt : dict) : bool :=
  match lookup tgt (u "repo"), lookup tgt (u "path"),
        lookup tgt (u "description") with
  | Some _, Some _, Some _ => true
  | _, _, _ => false
  end.

(** The destination dict with the given fields. *)
Definition destination (repo path description : string) (filename : pystr)
  : value :=
  VDict [(u "repo", VStr (u repo)); (u "path", VStr (u path));
         (u "description", VStr (u description));
         (u "filename", VStr filename)].

(** The hash objects that [sha256()] and [update] produce: eight chaining
    words, and less than a block of pending bytes. *)
Definition hash_inv (h : Hashlib.sha256_obj) : Prop :=
  length (Hashlib.chain h) = 8%nat /\
  (length (Hashlib.pending h) < 64)%nat.

(** The three digits curl writes for [%{http_code}]. *)
Definition http_code (status : N) : pystr :=
  [48 + status / 100; 48 + (status / 10) mod 10; 48 + status mod 10].

(** A row of the details of the verification summary. *)
Definition detail_row (filename repo path : value) (verified : bool) : value :=
  VDict [(u "filename", filename); (u "repo", repo); (u "path", path);
         (u "verified", VBool verified)].

(** A log entry written by [deploy_file] for the result [res]. *)
Definition logged (res entry : value) : Prop :=
  exists filepath manifest now,
    entry = VDict [(u "filepath", VStr (str filepath));
                   (u "manifest", manifest);
                   (u "result", res);
                   (u "timestamp", VStr now)].

(** The result has the status prepared. *)
Definition is_prepared (res : value) : bool :=
  match subscript res (u "status") with
  | Ok (VStr s) => str_eqb s (u "prepared")
  | _ => false
  end.

(** What [deploy_all] returns for one file: the failed entry of an
    exception raised for this file, or a prepared result. *)
Definition outcome (filepath : Path) (res : value) : Prop :=
  (exists e, res = Deployer.failed_result e filepath) \/
  subscript res (u "status") = Ok (VStr (u "prepared")).

End Props.

(* ===================================================================== *)
(** * The routing table as a decision list *)
(* ===================================================================== *)

Module Classifier.
Import Py Re Pathlib Props.

(** [s] ends with [suffix], characters compared as the matcher compares a
    pattern character with a subject character. *)
Definition ends_ic (suffix s : pystr) : bool :=
  match eat (rev suffix) (rev s) with
  | Some _ => true
  | None => false
  end.

(** [s] contains [a] somewhere, compared the same way. *)
Fixpoint contains_ic (a s : pystr) : bool :=
  match eat a s with
  | Some _ => true
  | None =>
      match s with
      | [] => false
      | _ :: s' => contains_ic a s'
      end
  end.

(** [s] without its last [n] characters. *)
Definition stem (n : nat) (s : pystr) : pystr := firstn (length s - n) s.

(** The destination of a name, read off its ending and, for Python
    modules, the marker found before the ending. *)
Definition classify (s : pystr) : value :=
  if ends_ic (u ".yml") s then
    destination "life-os" ".github/workflows/" "GitHub Actions workflow" s
  else if ends_ic (u ".py") s && contains_ic (u "_node") (stem 3 s) then
    destination "life-os" "src/nodes/" "LangGraph node module" s
  else if ends_ic (u ".py") s && contains_ic (u "_agent") (stem 3 s) then
    destination "life-os" "src/agents/" "Agent module" s
  else if ends_ic (u ".py") s && contains_ic (u "_scraper") (stem 3 s) then
    destination "brevard-bidder-scraper" "src/scrapers/" "Scraper module" s
  else if ends_ic (u ".py") s then
    destination "life-os" "src/" "Python module" s
  else if ends_ic (u ".html") s || ends_ic (u ".css") s || ends_ic (u ".js") s
  then destination "biddeed-conversational-ai" "public/" "Web artifact" s
  else if ends_ic (u ".md") s then
    destination "life-os" "docs/" "Documentation" s
  else if ends_ic (u ".docx") s then
    destination "life-os" "reports/" "Document report" s
  else if ends_ic (u ".pdf") s then
    destination "life-os" "reports/" "PDF report" s
  else
    destination "life-os" "artifacts/" "Unclassified artifact" s.

End Classifier.

(* ===================================================================== *)
(** * [claude_ai_deployer.py]: what [main] saves after the run *)
(* ===================================================================== *)

Module DeployerMain.
Import Py Pathlib Deployer.

Section World.

Variable utcnow : nat -> pystr.

(** [save_deployment_log]: the document [log_data] that is handed to
    [json.dumps]; writing the text to [output_path] is left out. *)
Definition save_deployment_log : M value :=
  now <~ timestamp utcnow ;;
  self <~ self_ ;;
  ret (VDict [(u "version", VStr (u "1.0.0"));
              (u "timestamp", VStr now);
              (u "total_deployments",
               VInt (Z.of_nat (length (deployment_log self))));
              (u "deployments", VList (deployment_log self))]).

End World.

End DeployerMain.

(* ===================================================================== *)
(** * [deployment_verifier.py]: the report and [main] *)
(* ===================================================================== *)

Module VerifierMain.
Import Py Verifier.

(** How the process ends: [sys.exit(code)], or an exception that nothing
    catches (the interpreter prints it and ends with status 1). *)
Inductive ending :=
| SysExit (code : Z)
| Uncaught (e : exn).

(** [v > 0] *)
Definition gt_zero (v : value) : result bool :=
  match v with
  | VInt z => Ok (0 <? z)%Z
  | VBool b => Ok b
  | VFloat q => Ok (0 <? Qnum q)%Z
  | _ => Raise TypeError
  end.

(** [save_verification_report]: the document [report_data] that is handed
    to [json.dumps]; writing the text to [output_path] is left out. *)
Definition save_verification_report (self : verifier) (results : value)
  : result value :=
  timestamp <- get (log_data self) (u "timestamp") VNone ;;
  Ok (VDict [(u "timestamp", timestamp);
             (u "verification_results", results)]).

Section Transport.

Variable subprocess_run : list pystr -> result pystr.

(** [main], for what is at the log path: nothing ([None]; [_load_log] then
    ends the process with status 1), or a file whose text [json.loads]
    turns into [log]. *)
Definition main (log_file : option value) : ending :=
  match log_file with
  | None => SysExit 1
  | Some log =>
      let verifier := new_verifier log in
      match verify_all subprocess_run verifier with
      | Raise e => Uncaught e
      | Ok results =>
          match save_verification_report verifier results with
          | Raise e => Uncaught e
          | Ok _ =>
              match bind (subscript results (u "failed")) gt_zero with
              | Raise e => Uncaught e
              | Ok true => SysExit 1
              | Ok false => SysExit 0
              end
          end
      end
  end.

End Transport.

End VerifierMain.

(* ===================================================================== *)
(** * Vocabulary of the statements about a whole run *)
(* ===================================================================== *)

Module RunProps.
Import Py Pathlib Props.

(** The manifest dict of [create_deployment_manifest]. *)
Definition manifest_dict (filepath : Path) (repo prefix description : pystr)
    (is_binary : bool) (checksum : pystr) (size : Z) (created_at : pystr)
  : value :=
  VDict [(u "source_file", VStr (str filepath));
         (u "filename", VStr (name filepath));
         (u "target_repo", VStr repo);
         (u "target_path", VStr (prefix ++ name filepath));
         (u "description", VStr description);
         (u "is_binary", VBool is_binary);
         (u "checksum", VStr checksum);
         (u "size_bytes", VInt size);
         (u "created_at", VStr created_at);
         (u "deployed_by", VStr (u "claude-ai-deployer"));
         (u "version", VStr (u "1.0.0"))].

(** The result dict of [push_to_github]. *)
Definition prepared_dict (repo path command : pystr) (manifest : value)
  : value :=
  VDict [(u "status", VStr (u "prepared"));
         (u "repo", VStr repo);
         (u "path", VStr path);
         (u "command", VStr command);
         (u "manifest", manifest)].

(** The entry [deploy_file] appends to the log. *)
Definition log_entry (filepath : Path) (manifest result : value)
    (now : pystr) : value :=
  VDict [(u "filepath", VStr (str filepath));
         (u "manifest", manifest);
         (u "result", result);
         (u "timestamp", VStr now)].

(** The deployer after [entries] were appended to its log and the clock
    was read [ticks] more times. *)
Definition advance (self : Deployer.deployer) (entries : list value)
    (ticks : nat) : Deployer.deployer :=
  {| Deployer.outputs_dir := Deployer.outputs_dir self;
     Deployer.github_token := Deployer.github_token self;
     Deployer.github_api := Deployer.github_api self;
     Deployer.github_user := Deployer.github_user self;
     Deployer.deployment_log := Deployer.deployment_log self ++ entries;
     Deployer.clock := (ticks + Deployer.clock self)%nat |}.

(** The content member of the JSON body of the curl command. *)
Definition content_field (b64 : pystr) : pystr :=
  [DQUOTE] ++ u "content" ++ [DQUOTE] ++ u ": " ++ [DQUOTE] ++ b64
  ++ [DQUOTE].

(** The message member of the JSON body of the curl command. *)
Definition message_field (message : pystr) : pystr :=
  [DQUOTE] ++ u "message" ++ [DQUOTE] ++ u ": " ++ [DQUOTE] ++ message
  ++ [DQUOTE].

(** The curl command up to the content member, and what follows it. *)
Definition curl_head (token api user repo path message : pystr) : pystr :=
  u "curl -X PUT " ++ [BSLASH; LF] ++
  u "  -H " ++ [DQUOTE] ++ u "Authorization: token " ++ token
    ++ [DQUOTE] ++ u " " ++ [BSLASH; LF] ++
  u "  -H " ++ [DQUOTE] ++ u "Accept: application/vnd.github.v3+json"
    ++ [DQUOTE] ++ u " " ++ [BSLASH; LF] ++
  u "  " ++ [DQUOTE] ++ api ++ u "/repos/" ++ user
    ++ u "/" ++ repo ++ u "/contents/" ++ path
    ++ [DQUOTE] ++ u " " ++ [BSLASH; LF] ++
  u "  -d '{" ++ message_field message ++ u ", ".

Definition curl_tail : pystr :=
  u ", " ++ [DQUOTE] ++ u "branch" ++ [DQUOTE] ++ u ": "
  ++ [DQUOTE] ++ u "main" ++ [DQUOTE] ++ u "}'" ++ [LF].

(** The commit message of a deployment. *)
Definition commit_message (filename description : pystr) : pystr :=
  u "Deploy: " ++ filename ++ u " - " ++ description.

(** The text of a str seen as bytes, for ASCII text. *)
Definition ascii_bytes (s : pystr) : pybytes := map Codec.byte_of s.

(** The deployer after one more reading of the clock. *)
Definition ticked (self : Deployer.deployer) : Deployer.deployer :=
  {| Deployer.outputs_dir := Deployer.outputs_dir self;
     Deployer.github_token := Deployer.github_token self;
     Deployer.github_api := Deployer.github_api self;
     Deployer.github_user := Deployer.github_user self;
     Deployer.deployment_log := Deployer.deployment_log self;
     Deployer.clock := S (Deployer.clock self) |}.

(** The process can read the file. *)
Definition readable (fs : node) (filepath : Path) : bool :=
  match read_bytes fs filepath with
  | Ok _ => true
  | Raise _ => false
  end.

(** The results and the log entries of a run of [deploy_all] over the
    scanned files: for a file that cannot be read, the failed entry of the
    error of the read and no log entry; for a readable file, the prepared
    result, with the manifest of the file as routed and encoded, and the log
    entry that holds both. *)
Inductive run_log (fs : node)
  : list Path -> list value -> list value -> Prop :=
| run_done : run_log fs [] [] []
| run_failed : forall filepath files e results entries,
    read_bytes fs filepath = Raise e ->
    run_log fs files results entries ->
    run_log fs (filepath :: files)
            (Deployer.failed_result e filepath :: results) entries
| run_prepared : forall filepath files bs repo prefix description content
                        is_binary command created_at now results entries,
    read_bytes fs filepath = Ok bs ->
    Deployer.route_file filepath
    = Ok (VDict [(u "repo", VStr repo); (u "path", VStr prefix);
                 (u "description", VStr description);
                 (u "filename", VStr (name filepath))]) ->
    Deployer.encode_file fs filepath = Ok (content, is_binary) ->
    run_log fs files results entries ->
    run_log
      fs (filepath :: files)
      (prepared_dict
         repo (prefix ++ name filepath) command
         (manifest_dict
            filepath repo prefix description is_binary
            (Hashlib.hexdigest (Hashlib.update Hashlib.sha256 bs))
            (Z.of_nat (length bs)) created_at)
       :: results)
      (log_entry
         filepath
         (manifest_dict
            filepath repo prefix description is_binary
            (Hashlib.hexdigest (Hashlib.update Hashlib.sha256 bs))
            (Z.of_nat (length bs)) created_at)
         (prepared_dict
            repo (prefix ++ name filepath) command
            (manifest_dict
               filepath repo prefix description is_binary
               (Hashlib.hexdigest (Hashlib.update Hashlib.sha256 bs))
               (Z.of_nat (length bs)) created_at))
         now
       :: entries).

(** The head of the commands script. *)
Definition script_head (now : pystr) : pystr :=
  u "#!/bin/bash" ++ [LF; LF] ++
  u "# Claude AI Auto-Deploy Commands" ++ [LF] ++
  u "# Generated: " ++ now ++ [LF; LF].

(** The document of [save_deployment_log]. *)
Definition log_document (now : pystr) (entries : list value) : value :=
  VDict [(u "version", VStr (u "1.0.0"));
         (u "timestamp", VStr now);
         (u "total_deployments", VInt (Z.of_nat (length entries)));
         (u "deployments", VList entries)].

End RunProps.

(* ===================================================================== *)
(** * Vocabulary of the statements about the verification pass *)
(* ===================================================================== *)

Module VerifyProps.
Import Py Props Verifier.

Section Transport.

Variable subprocess_run : list pystr -> result pystr.

(** What one iteration of the loop of [verify_all] finds for an entry of
    the log: the row it adds to the details, and the verdict. *)
Definition entry_row (self : verifier) (deployment : value)
  : result (value * bool) :=
  manifest <- get deployment (u "manifest") (VDict []) ;;
  filename <- get manifest (u "filename") (VStr (u "unknown")) ;;
  repo <- get manifest (u "target_repo") (VStr []) ;;
  path <- get manifest (u "target_path") (VStr []) ;;
  let verdict := verify_file_exists subprocess_run self repo path in
  Ok (detail_row filename repo path verdict, verdict).

(** The rows of the entries, in order, up to the first entry that raises. *)
Fixpoint entry_rows (self : verifier) (ds : list value)
  : result (list (value * bool)) :=
  match ds with
  | [] => Ok []
  | d :: ds' =>
      row <- entry_row self d ;;
      rows <- entry_rows self ds' ;;
      Ok (row :: rows)
  end.

End Transport.

(** The number of rows with the given verdict. *)
Definition count_verdict (b : bool) (rows : list (value * bool)) : Z :=
  Z.of_nat (length (filter (fun r => Bool.eqb (snd r) b) rows)).

(** The summary dict that [verify_all] returns. *)
Definition summary (total verified failed : Z) (success_rate : value)
    (details : list value) : value :=
  VDict [(u "total", VInt total);
         (u "verified", VInt verified);
         (u "failed", VInt failed);
         (u "success_rate", success_rate);
         (u "details", VList details)].

(** The row and the verdict of the verification pass for a deployed file:
    the file is looked for in the repository and under the path prefix that
    [route_file] gives it. *)
Definition verified_as (subprocess_run : list pystr -> result pystr)
    (self : verifier) (filepath : Pathlib.Path) (row : value * bool) : Prop :=
  exists repo prefix description,
    Deployer.route_file filepath
    = Ok (VDict [(u "repo", VStr repo); (u "path", VStr prefix);
                 (u "description", VStr description);
                 (u "filename", VStr (Pathlib.name filepath))]) /\
    snd row = verify_file_exists subprocess_run self (VStr repo)
                (VStr (prefix ++ Pathlib.name filepath)) /\
    fst row = detail_row (VStr (Pathlib.name filepath)) (VStr repo)
                         (VStr (prefix ++ Pathlib.name filepath)) (snd row).

End VerifyProps.

(* ===================================================================== *)
(** * Vocabulary of the statements about names with a line feed *)
(* ===================================================================== *)

Module Anchored.
Import Py Re.

(** An item that consumes characters, and never a line feed: [.*], and a
    literal or a group none of whose characters matches the line feed. *)
Definition plain (i : item) : bool :=
  match i with
  | AnyStar => true
  | Lit l => forallb (fun p => negb (char_ic p LF)) l
  | Alt bs => forallb (forallb (fun p => negb (char_ic p LF))) bs
  | Eol => false
  end.

(** A pattern made of such items and closed by one [$]. *)
Fixpoint anchored (r : regex) : bool :=
  match r with
  | [] => false
  | i :: r' =>
      match r' with
      | [] => match i with Eol => true | _ => false end
      | _ :: _ => plain i && anchored r'
      end
  end.

End Anchored.

(* ===================================================================== *)
(** * Vocabulary of the statements about what a run writes down *)
(* ===================================================================== *)

Module Disclosure.
Import Py.

(** The command of the log entry holds the authorization header with the
    token in clear. *)
Definition holds_token (token : pystr) (entry : value) : Prop :=
  exists pre post,
    (result <- subscript entry (u "result") ;;
     command <- subscript result (u "command") ;;
     as_str command)
    = Ok (pre ++ u "Authorization: token " ++ token ++ post).

End Disclosure.

(* ===================================================================== *)
(** * Vocabulary of the statements about the case of letters *)
(* ===================================================================== *)

Module CaseFold.
Import Py Re.

(** The lower case of an ASCII letter; any other code point is left. *)
Definition ascii_lower (c : N) : N :=
  if (65 <=? c) && (c <=? 90) then c + 32 else c.

(** The class of a subject character for a case-insensitive ASCII literal:
    its lower case, with dotless i (U+0131) counted as i and long s
    (U+017F) as s, the two characters the compiler adds to those letters;
    capital I with dot (U+0130) and the Kelvin sign (U+212A) already have
    i and k as their lower case. *)
Definition fold (c : N) : N :=
  let lo := lower c in
  if lo =? 305 then 105
  else if lo =? 383 then 115
  else lo.

(** A pattern character whose lower case is ASCII. *)
Definition ascii_char (p : N) : bool := lower p <? 128.

(** An item all of whose literal characters satisfy [sees]. *)
Definition seen_item (sees : N -> bool) (i : item) : bool :=
  match i with
  | AnyStar => true
  | Lit l => forallb sees l
  | Alt bs => forallb (forallb sees) bs
  | Eol => true
  end.

End CaseFold.

(* ===================================================================== *)
(** * [claude_ai_deployer.py], with what it prints and writes *)
(* ===================================================================== *)

Module Console.
Import Py Pathlib.

(** A call that returns, or raises [e] with [message] the text of
    [str(e)]. *)
Inductive outcome (A : Type) :=
| Returned (a : A)
| Raised (e : exn) (message : pystr).
Arguments Returned {A} a.
Arguments Raised {A} e message.

(** A method that reads and updates a state, prints or writes, and returns
    or raises. *)
Definition IO (S A : Type) := S -> outcome A * S.

Definition ret {S A} (a : A) : IO S A := fun s => (Returned a, s).

Definition bindIO {S A B} (m : IO S A) (k : A -> IO S B) : IO S B :=
  fun s =>
    match m s with
    | (Returned a, s') => k a s'
    | (Raised e message, s') => (Raised e message, s')
    end.

(** [try: m  except Exception as e: h e] *)
Definition try_except {S A} (m : IO S A) (h : exn -> pystr -> IO S A)
  : IO S A :=
  fun s =>
    match m s with
    | (Returned a, s') => (Returned a, s')
    | (Raised e message, s') => h e message s'
    end.

Notation "x <-- m ;; k" := (bindIO m (fun x => k))
  (at level 61, m at next level, right associativity).

Definition SQUOTE : N := 39.  (* single quote *)

(** [digits] lower-case hexadecimal digits of [c], the most significant
    first. *)
Definition hexn (digits : nat) (c : N) : pystr :=
  map (fun i => Hashlib.hexchar ((c / 16 ^ N.of_nat i) mod 16))
      (rev (seq 0 digits)).

(** [s.upper()] on ASCII text. The deployer applies it to the status of a
    result of [push_to_github], which is the literal prepared. *)
Definition ascii_upper (s : pystr) : pystr :=
  map (fun c => if (97 <=? c) && (c <=? 122) then c - 32 else c) s.

(** The symbols of the lines the deployer prints. *)
Definition WARNING : pystr := [9888; 65039].   (* U+26A0 U+FE0F *)
Definition PACKAGE : N := 128230.              (* U+1F4E6 *)
Definition ARROW : N := 8594.                  (* U+2192 *)
Definition CHECK_MARK : N := 9989.             (* U+2705 *)
Definition ROCKET : N := 128640.               (* U+1F680 *)
Definition FOLDER : N := 128193.               (* U+1F4C1 *)
Definition CROSS_MARK : N := 10060.            (* U+274C *)

Section World.

(** The file system and the wall clock, as for [Deployer]. *)
Variable fs : node.
Variable utcnow : nat -> pystr.

(** [str.isprintable] on one code point, as the Unicode database of the
    interpreter has it; [repr] consults it above the ASCII range only. *)
Variable isprintable : N -> bool.

(** Standard output: the code points its encoding and error handler can
    write, and the text of the UnicodeEncodeError it raises for a text it
    cannot write. Output that fails for another reason (a closed or broken
    stream) is not modelled. *)
Variable stdout_ok : N -> bool.
Variable stdout_error : pystr -> pystr.

(** The same for a file opened by [open(path, 'w')]: the code points the
    default encoding can write (the error handler of such a file is
    strict). *)
Variable file_ok : N -> bool.
Variable file_error : pystr -> pystr.

(** What [open(commands_path, 'w')] raises, when it does. *)
Variable open_script : option (exn * pystr).

(** One character of [repr(s)] for a [str], inside the quotes. *)
Definition repr_char (quote c : N) : pystr :=
  if (c =? quote) || (c =? BSLASH) then [BSLASH; c]
  else if c =? 9 then BSLASH :: u "t"
  else if c =? 10 then BSLASH :: u "n"
  else if c =? 13 then BSLASH :: u "r"
  else if (c <? 32) || (c =? 127) then BSLASH :: u "x" ++ hexn 2 c
  else if c <? 127 then [c]
  else if isprintable c then [c]
  else if c <=? 255 then BSLASH :: u "x" ++ hexn 2 c
  else if c <=? 65535 then BSLASH :: u "u" ++ hexn 4 c
  else BSLASH :: u "U" ++ hexn 8 c.

(** [repr(s)]: double quotes when [s] holds a single quote and no double
    quote, single quotes otherwise. *)
Definition repr (s : pystr) : pystr :=
  let quote :=
    if existsb (N.eqb SQUOTE) s && negb (existsb (N.eqb DQUOTE) s)
    then DQUOTE else SQUOTE in
  [quote] ++ flat_map (repr_char quote) s ++ [quote].

(** [str(e)] for an exception raised by the code of the deployer: an
    [OSError] with a file name shows the [repr] of the name, a [KeyError]
    the [repr] of the key. *)
Definition str_exc (e : exn) : pystr :=
  match e with
  | PermissionError p => u "[Errno 13] Permission denied: " ++ repr p
  | FileNotFoundError p => u "[Errno 2] No such file or directory: " ++ repr p
  | IsADirectoryError p => u "[Errno 21] Is a directory: " ++ repr p
  | KeyError k => repr k
  | _ => str_of_exn e
  end.

(** An expression of the deployer that returns or raises. *)
Definition eval {S A} (r : result A) : IO S A :=
  fun s =>
    match r with
    | Ok a => (Returned a, s)
    | Raise e => (Raised e (str_exc e), s)
    end.

(** A method of [Deployer] that prints nothing. *)
Definition method {A} (m : Deployer.M A) : IO Deployer.deployer A :=
  fun self =>
    match m self with
    | (Ok a, self') => (Returned a, self')
    | (Raise e, self') => (Raised e (str_exc e), self')
    end.

(** [print(text)]: the text, then a line feed. *)
Definition print {S} (text : pystr) : IO S unit :=
  fun s =>
    if forallb stdout_ok (text ++ [LF]) then (Returned tt, s)
    else (Raised UnicodeEncodeError (stdout_error text), s).

Definition scan_outputs : IO Deployer.deployer (list Path) :=
  self <-- method Deployer.self_ ;;
  if negb (exists_ fs (Deployer.outputs_dir self)) then
    _ <-- print (WARNING ++ u "  Outputs directory not found: "
                 ++ str (Deployer.outputs_dir self)) ;;
    ret []
  else
    ret (filter (fun item =>
                   is_file fs item && negb (startswith (name item) (u ".")))
                (rglob fs (Deployer.outputs_dir self))).

Definition deploy_file (filepath : Path) : IO Deployer.deployer value :=
  _ <-- print ([LF; PACKAGE] ++ u " Processing: " ++ name filepath) ;;
  route <-- eval (Deployer.route_file filepath) ;;
  repo <-- eval (subscript route (u "repo")) ;;
  path <-- eval (subscript route (u "path")) ;;
  _ <-- print (u "   " ++ [ARROW] ++ u " Target: "
               ++ str_of repo ++ u "/" ++ str_of path) ;;
  enc <-- eval (Deployer.encode_file fs filepath) ;;
  let '(content, is_binary) := enc in
  _ <-- print (u "   " ++ [ARROW] ++ u " Encoded: "
               ++ (if is_binary then u "Binary (Base64)"
                   else u "Text (UTF-8)")) ;;
  manifest <-- method (Deployer.create_deployment_manifest
                         fs utcnow filepath route content is_binary) ;;
  checksum <-- eval (bind (subscript manifest (u "checksum")) as_str) ;;
  _ <-- print (u "   " ++ [ARROW] ++ u " Checksum: "
               ++ firstn 8 checksum ++ u "...") ;;
  result <-- method (Deployer.push_to_github manifest content) ;;
  status <-- eval (bind (subscript result (u "status")) as_str) ;;
  _ <-- print (u "   " ++ [ARROW] ++ u " Status: " ++ ascii_upper status) ;;
  now <-- method (Deployer.timestamp utcnow) ;;
  _ <-- method (Deployer.log_append
                  (VDict [(u "filepath", VStr (str filepath));
                          (u "manifest", manifest);
                          (u "result", result);
                          (u "timestamp", VStr now)])) ;;
  ret result.

(** The entry [deploy_all] adds to its results when the pipeline of a
    file raised [e] with [str(e) = message]. *)
Definition failed_result (message : pystr) (filepath : Path) : value :=
  VDict [(u "status", VStr (u "failed"));
         (u "error", VStr message);
         (u "filepath", VStr (str filepath))].

(** The [for filepath in files] loop of [deploy_all]. *)
Fixpoint deploy_each (files : list Path) (results : list value)
  : IO Deployer.deployer (list value) :=
  match files with
  | [] => ret results
  | filepath :: files' =>
      result <-- try_except
                   (deploy_file filepath)
                   (fun e message =>
                      _ <-- print ([CROSS_MARK] ++ u " Failed to deploy "
                                   ++ name filepath ++ u ": " ++ message) ;;
                      ret (failed_result message filepath)) ;;
      deploy_each files' (results ++ [result])
  end.

Definition deploy_all : IO Deployer.deployer (list value) :=
  files <-- scan_outputs ;;
  match files with
  | [] =>
      _ <-- print ([CHECK_MARK] ++ u " No files to deploy") ;;
      ret []
  | _ :: _ =>
      _ <-- print ([LF; ROCKET] ++ u " Claude AI Auto-Deploy System v1.0.0") ;;
      _ <-- print ([FOLDER] ++ u " Found "
                   ++ str_of (VInt (Z.of_nat (length files)))
                   ++ u " file(s) to deploy" ++ [LF]) ;;
      deploy_each files []
  end.

(** The state of the block of [main] that writes the commands script: the
    deployer, and the text written to the script so far. *)
Definition script_state := (Deployer.deployer * pystr)%type.

(** A method of the deployer, run inside the block. *)
Definition on_deployer {A} (m : IO Deployer.deployer A)
  : IO script_state A :=
  fun s =>
    match m (fst s) with
    | (r, self') => (r, (self', snd s))
    end.

(** [f.write(text)] *)
Definition f_write (text : pystr) : IO script_state unit :=
  fun s =>
    if forallb file_ok text then (Returned tt, (fst s, snd s ++ text))
    else (Raised UnicodeEncodeError (file_error text), s).

(** The loop of the block over the log. *)
Fixpoint write_commands (logs : list value) : IO script_state unit :=
  match logs with
  | [] => ret tt
  | log :: logs' =>
      prepared <-- eval (Deployer.log_status_is (u "prepared") log) ;;
      if prepared then
        command <-- eval (result <- subscript log (u "result") ;;
                          command <- subscript result (u "command") ;;
                          as_str command) ;;
        _ <-- f_write command ;;
        _ <-- f_write [LF; LF] ;;
        write_commands logs'
      else write_commands logs'
  end.

(** The block [with open(commands_path, 'w') as f] of [main]: what it
    raises, if it does, and the text the script holds when the block is
    left. *)
Definition commands_script : IO script_state unit :=
  match open_script with
  | Some (e, message) => fun s => (Raised e message, s)
  | None =>
      _ <-- f_write (u "#!/bin/bash" ++ [LF; LF]) ;;
      _ <-- f_write (u "# Claude AI Auto-Deploy Commands" ++ [LF]) ;;
      now <-- on_deployer (method (Deployer.timestamp utcnow)) ;;
      _ <-- f_write (u "# Generated: " ++ now ++ [LF; LF]) ;;
      self <-- on_deployer (method Deployer.self_) ;;
      write_commands (Deployer.deployment_log self)
  end.

End World.

End Console.

(* ===================================================================== *)
(** * [deployment_verifier.py], with its transport calls and its prints *)
(* ===================================================================== *)

Module Queries.
Import Py Verifier Console.

(** The calls made to [subprocess.run] so far, oldest first: the argument
    list of each. A method of the verifier runs in [IO history]: it
    returns or raises, and it leaves the history of the calls made. *)
Definition history := list (list pystr).

(** The symbols of the lines the verifier prints. *)
Definition MAGNIFIER : N := 128269.   (* U+1F50D *)
Definition PAGE : N := 128196.        (* U+1F4C4 *)
Definition BAR_CHART : N := 128202.   (* U+1F4CA *)

(** ["=" * 60] *)
Definition RULE : pystr := repeat 61 60.

Section Transport.

(** What [subprocess.run(cmd, capture_output=True, text=True, timeout=10)]
    returns (the standard output of the command) or raises, with the text
    of [str(e)]. The answer belongs to the outside world and may depend on
    the calls made before (the remote side changes, time passes): the same
    command run twice need not be answered alike. *)
Variable subprocess_run : history -> list pystr -> outcome pystr.

(** Standard output and [str.isprintable], as for [Console]. *)
Variable isprintable : N -> bool.
Variable stdout_ok : N -> bool.
Variable stdout_error : pystr -> pystr.

(** The text of [f"{x*100:.1f}"] for the float [x] nearest to a quotient.
    Float arithmetic and formatting are not modelled: the text is what the
    interpreter gives. *)
Variable percent : Q -> pystr.

(** One call of [subprocess.run]. *)
Definition run (cmd : list pystr) : IO history pystr :=
  fun calls => (subprocess_run calls cmd, calls ++ [cmd]).

(** [verify_file_exists]: one call inside [try]; the handler of
    [except Exception] prints the text of the error and returns False. *)
Definition verify_file_exists (self : verifier) (repo path : value)
  : IO history bool :=
  try_except
    (stdout <-- run (curl_cmd self repo path) ;;
     ret (str_eqb (strip stdout) (u "200")))
    (fun e message =>
       _ <-- print stdout_ok stdout_error
               (WARNING ++ u "  Verification error: " ++ message) ;;
       ret false).

(** One iteration of the loop of [verify_all]; the pause before the check
    changes nothing that is computed, printed or asked. The three fields
    are printed by [str_of], which is their text when they are strings, as
    in a log the deployer wrote. *)
Definition verify_step (self : verifier) (acc : counters) (deployment : value)
  : IO history counters :=
  let '(verified, failed, results) := acc in
  manifest <-- eval isprintable (get deployment (u "manifest") (VDict [])) ;;
  filename <-- eval isprintable
                 (get manifest (u "filename") (VStr (u "unknown"))) ;;
  repo <-- eval isprintable (get manifest (u "target_repo") (VStr [])) ;;
  path <-- eval isprintable (get manifest (u "target_path") (VStr [])) ;;
  _ <-- print stdout_ok stdout_error ([LF; PAGE] ++ u " " ++ str_of filename) ;;
  _ <-- print stdout_ok stdout_error (u "   Repo: " ++ str_of repo) ;;
  _ <-- print stdout_ok stdout_error (u "   Path: " ++ str_of path) ;;
  exists_ <-- verify_file_exists self repo path ;;
  let row := VDict [(u "filename", filename); (u "repo", repo);
                    (u "path", path); (u "verified", VBool exists_)] in
  if exists_ then
    _ <-- print stdout_ok stdout_error
            (u "   Status: " ++ [CHECK_MARK] ++ u " VERIFIED") ;;
    ret (verified + 1, failed, results ++ [row])%Z
  else
    _ <-- print stdout_ok stdout_error
            (u "   Status: " ++ [CROSS_MARK] ++ u " NOT FOUND") ;;
    ret (verified, failed + 1, results ++ [row])%Z.

Fixpoint verify_loop (self : verifier) (ds : list value) (acc : counters)
  : IO history counters :=
  match ds with
  | [] => ret acc
  | d :: ds' =>
      acc' <-- verify_step self acc d ;;
      verify_loop self ds' acc'
  end.

Definition verify_all (self : verifier) : IO history value :=
  _ <-- print stdout_ok stdout_error
          ([LF; MAGNIFIER] ++ u " Verifying Deployments...") ;;
  _ <-- print stdout_ok stdout_error RULE ;;
  deployments <-- eval isprintable
                    (get (log_data self) (u "deployments") (VList [])) ;;
  total <-- eval isprintable (len deployments) ;;
  ds <-- eval isprintable (iter deployments) ;;
  acc <-- verify_loop self ds (0, 0, [])%Z ;;
  let '(verified, failed, results) := acc in
  _ <-- print stdout_ok stdout_error (LF :: RULE) ;;
  _ <-- print stdout_ok stdout_error
          ([LF; BAR_CHART] ++ u " Verification Summary") ;;
  _ <-- print stdout_ok stdout_error
          (u "   Total: " ++ str_of (VInt total)) ;;
  share <-- eval isprintable (truediv verified total) ;;
  _ <-- print stdout_ok stdout_error
          (u "   Verified: " ++ str_of (VInt verified)
           ++ u " (" ++ percent share ++ u "%)") ;;
  share <-- eval isprintable (truediv failed total) ;;
  _ <-- print stdout_ok stdout_error
          (u "   Failed: " ++ str_of (VInt failed)
           ++ u " (" ++ percent share ++ u "%)") ;;
  success_rate <-- eval isprintable
                     (if (total >? 0)%Z
                      then q <- truediv verified total ;; Ok (VFloat q)
                      else Ok (VInt 0)) ;;
  ret (VDict [(u "total", VInt total);
              (u "verified", VInt verified);
              (u "failed", VInt failed);
              (u "success_rate", success_rate);
              (u "details", VList results)]).

End Transport.

(** A transport that answers by the command alone, whatever was asked
    before. *)
Definition stateless (isprintable : N -> bool)
           (answer : list pystr -> result pystr)
  : history -> list pystr -> outcome pystr :=
  fun _ cmd =>
    match answer cmd with
    | Ok stdout => Returned stdout
    | Raise e => Raised e (str_exc isprintable e)
    end.

End Queries.

(* ===================================================================== *)
(** * Vocabulary of the statements about what is printed and written *)
(* ===================================================================== *)

Module ConsoleProps.
Import Py Pathlib Props RunProps.

(** The stream can write every code point of the text. *)
Definition writable (ok : N -> bool) (text : pystr) : bool := forallb ok text.

(** The file of the list that comes first among those whose name standard
    output cannot write, if there is one. *)
Definition first_unwritable (ok : N -> bool) (files : list Path)
  : option Path :=
  find (fun filepath => negb (writable ok (name filepath))) files.

(** The files of the list that come before it. *)
Fixpoint before_unwritable (ok : N -> bool) (files : list Path)
  : list Path :=
  match files with
  | [] => []
  | filepath :: files' =>
      if writable ok (name filepath)
      then filepath :: before_unwritable ok files'
      else []
  end.

(** The line [deploy_file] prints first. *)
Definition processing_line (filepath : Path) : pystr :=
  [LF; Console.PACKAGE] ++ u " Processing: " ++ name filepath.

(** The line the handler of [deploy_all] prints. *)
Definition failed_line (filepath : Path) (message : pystr) : pystr :=
  [Console.CROSS_MARK] ++ u " Failed to deploy " ++ name filepath
  ++ u ": " ++ message.

(** The results and the log entries of a run of [deploy_all] over regular
    files: for a file the process may not read, the failed entry with the
    text of the PermissionError and no log entry; for a readable file, the
    prepared result, with the manifest of the file as routed and encoded,
    and the log entry that holds both. *)
Inductive run_log (isprintable : N -> bool) (fs : node)
  : list Path -> list value -> list value -> Prop :=
| run_done : run_log isprintable fs [] [] []
| run_failed : forall filepath files results entries,
    read_bytes fs filepath = Raise (PermissionError (str filepath)) ->
    run_log isprintable fs files results entries ->
    run_log isprintable fs (filepath :: files)
            (Console.failed_result
               (u "[Errno 13] Permission denied: "
                ++ Console.repr isprintable (str filepath))
               filepath
             :: results)
            entries
| run_prepared : forall filepath files bs repo prefix description content
                        is_binary command created_at now results entries,
    read_bytes fs filepath = Ok bs ->
    Deployer.route_file filepath
    = Ok (VDict [(u "repo", VStr repo); (u "path", VStr prefix);
                 (u "description", VStr description);
                 (u "filename", VStr (name filepath))]) ->
    Deployer.encode_file fs filepath = Ok (content, is_binary) ->
    run_log isprintable fs files results entries ->
    run_log
      isprintable fs (filepath :: files)
      (prepared_dict
         repo (prefix ++ name filepath) command
         (manifest_dict
            filepath repo prefix description is_binary
            (Hashlib.hexdigest (Hashlib.update Hashlib.sha256 bs))
            (Z.of_nat (length bs)) created_at)
       :: results)
      (log_entry
         filepath
         (manifest_dict
            filepath repo prefix description is_binary
            (Hashlib.hexdigest (Hashlib.update Hashlib.sha256 bs))
            (Z.of_nat (length bs)) created_at)
         (prepared_dict
            repo (prefix ++ name filepath) command
            (manifest_dict
               filepath repo prefix description is_binary
               (Hashlib.hexdigest (Hashlib.update Hashlib.sha256 bs))
               (Z.of_nat (length bs)) created_at))
         now
       :: entries).

(** A character that [repr] shows as it is between single quotes:
    printable ASCII other than the single quote and the backslash. *)
Definition plain_char (c : N) : bool :=
  (32 <=? c) && (c <? 127) && negb (c =? Console.SQUOTE)
  && negb (c =? BSLASH).

(** The commands of the prepared results, in order. *)
Definition commands (results : list value) : list pystr :=
  flat_map (fun result =>
              match subscript result (u "command") with
              | Ok (VStr command) => [command]
              | _ => []
              end) results.

(** The commands of the list that come before the first one the file
    cannot write. *)
Fixpoint written_commands (ok : N -> bool) (cmds : list pystr)
  : list pystr :=
  match cmds with
  | [] => []
  | cmd :: cmds' =>
      if writable ok cmd then cmd :: written_commands ok cmds' else []
  end.

(** The text of the script that holds the given commands. *)
Definition script (now : pystr) (cmds : list pystr) : pystr :=
  script_head now ++ flat_map (fun cmd => cmd ++ [LF; LF]) cmds.

End ConsoleProps.

(* ===================================================================== *)
(** * Vocabulary of the statements about the verifier's calls and prints *)
(* ===================================================================== *)

Module QueryProps.
Import Py Verifier.

(** The line the handler of [verify_file_exists] prints for an error of
    text [message]. *)
Definition warning_line (message : pystr) : pystr :=
  Console.WARNING ++ u "  Verification error: " ++ message.

(** A value returned or an error raised by code that prints nothing, as
    an outcome. *)
Definition outcome_of {A} (isprintable : N -> bool) (r : result A)
  : Console.outcome A :=
  match r with
  | Ok a => Console.Returned a
  | Raise e => Console.Raised e (Console.str_exc isprintable e)
  end.

End QueryProps.

(* ===================================================================== *)
(** * Properties of the router *)
(* ===================================================================== *)

Import Py Re Codec Pathlib Props.

Section MatcherFacts.

Lemma match_here_star (r : regex) (s : pystr) :
  match_here (AnyStar :: r) s = star (match_here r) s.
Proof.
  induction s as [|c s IH]; [reflexivity|].
  change (match_here (AnyStar :: r) (c :: s))
    with ((dot c && match_here (AnyStar :: r) s) || match_here r (c :: s)).
  rewrite IH. reflexivity.
Qed.

Lemma eat_sound (l s s' : pystr) :
  eat l s = Some s' ->
  exists pre, s = pre ++ s' /\ Forall2 (fun p c => char_ic p c = true) l pre.
Proof.
  revert s. induction l as [|p l IH]; intros s H.
  - injection H as <-. exists []. split; [reflexivity|constructor].
  - destruct s as [|c s]; [discriminate|]. simpl in H.
    destruct (char_ic p c) eqn:E; [|discriminate].
    destruct (IH _ H) as (pre & -> & F).
    exists (c :: pre). split; [reflexivity|]. constructor; assumption.
Qed.

Lemma eat_complete (l pre rest : pystr) :
  Forall2 (fun p c => char_ic p c = true) l pre ->
  eat l (pre ++ rest) = Some rest.
Proof.
  induction 1 as [|p c l pre Hpc _ IH]; [reflexivity|].
  simpl. rewrite Hpc. exact IH.
Qed.

Lemma star_sound (k : pystr -> bool) (s : pystr) :
  star k s = true ->
  exists pre rest,
    s = pre ++ rest /\ Forall (fun c => dot c = true) pre /\ k rest = true.
Proof.
  induction s as [|c s IH]; simpl; intros H.
  - exists [], []. auto.
  - apply orb_true_iff in H. destruct H as [H|H].
    + apply andb_true_iff in H. destruct H as [Hc H].
      destruct (IH H) as (pre & rest & -> & F & K).
      exists (c :: pre), rest. auto.
    + exists [], (c :: s). auto.
Qed.

Lemma star_complete (k : pystr -> bool) (pre rest : pystr) :
  Forall (fun c => dot c = true) pre -> k rest = true ->
  star k (pre ++ rest) = true.
Proof.
  intros F K. induction F as [|c pre Hc _ IH]; simpl.
  - destruct rest; simpl; [assumption|]. rewrite K. apply orb_true_r.
  - rewrite Hc, IH. reflexivity.
Qed.

Lemma at_eol_spec (s : pystr) : at_eol s = true <-> s = [] \/ s = [LF].
Proof.
  destruct s as [|c [|d s]]; simpl; split; intros H; auto.
  - right. apply N.eqb_eq in H. subst. reflexivity.
  - destruct H as [H|H]; [discriminate|]. injection H as ->. reflexivity.
  - discriminate.
  - destruct H; discriminate.
Qed.

(** The backtracking matcher decides the pattern's language: it answers
    true exactly when the pattern matches some prefix of the subject. *)
Lemma match_here_sem (r : regex) (s : pystr) :
  match_here r s = true <-> exists rest, sem r s rest.
Proof.
  revert s. induction r as [|i r IH]; intros s.
  - split; [exists s; constructor | reflexivity].
  - destruct i as [|l|bs|].
    + rewrite match_here_star. split.
      * intros H. apply star_sound in H.
        destruct H as (pre & rest & -> & F & K).
        apply IH in K. destruct K as (rest' & K).
        exists rest'. econstructor; [constructor; exact F | exact K].
      * intros (rest' & H). inversion H as [|? ? ? s1 ? Hi Hr]; subst.
        inversion Hi; subst.
        apply star_complete; [assumption|]. apply IH. eauto.
    + simpl. split.
      * destruct (eat l s) as [s'|] eqn:E; [|discriminate].
        intros K. apply IH in K. destruct K as (rest' & K).
        destruct (eat_sound _ _ E) as (pre & -> & F).
        exists rest'. econstructor; [constructor; exact F | exact K].
      * intros (rest' & H). inversion H as [|? ? ? s1 ? Hi Hr]; subst.
        inversion Hi; subst.
        rewrite eat_complete by assumption. apply IH. eauto.
    + simpl. rewrite existsb_exists. split.
      * intros (l & Hin & H).
        destruct (eat l s) as [s'|] eqn:E; [|discriminate].
        apply IH in H. destruct H as (rest' & K).
        destruct (eat_sound _ _ E) as (pre & -> & F).
        exists rest'. econstructor; [econstructor; eassumption | exact K].
      * intros (rest' & H). inversion H as [|? ? ? s1 ? Hi Hr]; subst.
        inversion Hi; subst.
        eexists. split; [eassumption|].
        rewrite eat_complete by assumption. apply IH. eauto.
    + simpl. rewrite andb_true_iff, at_eol_spec, IH. split.
      * intros (E & rest' & K). exists rest'.
        econstructor; [constructor; exact E | exact K].
      * intros (rest' & H). inversion H as [|? ? ? s1 ? Hi Hr]; subst.
        inversion Hi; subst. eauto.
Qed.

End MatcherFacts.

Section MatcherStructure.

Lemma item_sem_prefix (i : item) (s rest : pystr) :
  item_sem i s rest -> exists pre, s = pre ++ rest.
Proof.
  intros H. inversion H; subst; eauto. exists []. reflexivity.
Qed.

Lemma sem_prefix (r : regex) (s rest : pystr) :
  sem r s rest -> exists pre, s = pre ++ rest.
Proof.
  induction 1 as [s|i r s s1 s2 Hi _ IH].
  - exists []. reflexivity.
  - destruct IH as (p2 & ->).
    destruct (item_sem_prefix Hi) as (p1 & ->).
    exists (p1 ++ p2). apply app_assoc.
Qed.

Lemma sem_app (r1 r2 : regex) (s rest : pystr) :
  sem (r1 ++ r2) s rest <-> exists mid, sem r1 s mid /\ sem r2 mid rest.
Proof.
  revert s. induction r1 as [|i r1 IH]; intros s; simpl.
  - split.
    + intros H. exists s. split; [constructor|assumption].
    + intros (mid & H1 & H2). inversion H1; subst. assumption.
  - split.
    + intros H. inversion H as [|? ? ? s1 ? Hi Hr]; subst.
      apply IH in Hr. destruct Hr as (mid & Ha & Hb).
      exists mid. split; [econstructor; eassumption | assumption].
    + intros (mid & H1 & H2). inversion H1 as [|? ? ? s1 ? Hi Hr]; subst.
      econstructor; [eassumption|]. apply IH. eauto.
Qed.

(** A match of a pattern that ends in a literal and [$] fixes the last
    character of a subject that does not end in a line feed. *)
Lemma lit_eol_last (r : regex) (l : pystr) (p : N) (s : pystr) (c : N)
      (rest : pystr) :
  sem (r ++ [Lit (l ++ [p]); Eol]) (s ++ [c]) rest ->
  c <> LF -> char_ic p c = true.
Proof.
  intros H Hc. apply sem_app in H. destruct H as (mid & H1 & H2).
  apply sem_prefix in H1. destruct H1 as (pre1 & E1).
  inversion H2 as [|? ? ? s1 ? Hi Hr]; subst.
  inversion Hr as [|? ? ? s2 ? He Hn]; subst.
  inversion Hn; subst. inversion He as [| | |? Hend]; subst.
  inversion Hi as [|? pre ? F| |]; subst.
  apply Forall2_app_inv_l in F.
  destruct F as (pa & pb & Fa & Fb & ->).
  inversion Fb as [|? c' ? ? Hpc Fn]; subst. inversion Fn; subst.
  destruct Hend as [->| ->].
  - rewrite app_nil_r, app_assoc in E1.
    apply app_inj_tail in E1. destruct E1 as [_ ->]. assumption.
  - rewrite !app_assoc in E1. apply app_inj_tail in E1.
    destruct E1 as [_ E]. contradiction.
Qed.

(** The same for a pattern that ends in a group of alternatives and [$]. *)
Lemma alt_eol_last (r : regex) (bs : list pystr) (s : pystr) (c : N)
      (rest : pystr) :
  sem (r ++ [Alt bs; Eol]) (s ++ [c]) rest ->
  c <> LF ->
  exists l, In l bs /\ (l = [] \/ char_ic (last l 0) c = true).
Proof.
  intros H Hc. apply sem_app in H. destruct H as (mid & H1 & H2).
  apply sem_prefix in H1. destruct H1 as (pre1 & E1).
  inversion H2 as [|? ? ? s1 ? Hi Hr]; subst.
  inversion Hr as [|? ? ? s2 ? He Hn]; subst.
  inversion Hn; subst. inversion He as [| | |? Hend]; subst.
  inversion Hi as [| |? l pre ? Hin F|]; subst.
  exists l. split; [assumption|].
  destruct l as [|x l']; [left; reflexivity|right].
  destruct (@exists_last _ (x :: l')) as (l0 & p & El); [discriminate|].
  rewrite El in *. clear El x l'.
  - rewrite last_last.
    apply Forall2_app_inv_l in F.
    destruct F as (pa & pb & Fa & Fb & ->).
    inversion Fb as [|? c' ? ? Hpc Fn]; subst. inversion Fn; subst.
    destruct Hend as [->| ->].
    + rewrite app_nil_r, app_assoc in E1.
      apply app_inj_tail in E1. destruct E1 as [_ ->]. assumption.
    + rewrite !app_assoc in E1. apply app_inj_tail in E1.
      destruct E1 as [_ E]. contradiction.
Qed.

End MatcherStructure.

Section CaseInsensitive.

Lemma lower_swapcase (c : N) : lower (swapcase_char c) = lower c.
Proof.
  unfold lower, swapcase_char.
  destruct (N.leb_spec 65 c), (N.leb_spec c 90), (N.leb_spec 97 c),
    (N.leb_spec c 122); simpl;
  repeat match goal with
         | |- context [N.eqb ?a ?b] => destruct (N.eqb_spec a b)
         | |- context [N.leb ?a ?b] => destruct (N.leb_spec a b)
         end; simpl; lia.
Qed.

Lemma dot_swapcase (c : N) : dot (swapcase_char c) = dot c.
Proof.
  unfold dot, swapcase_char, LF.
  destruct (N.leb_spec 65 c), (N.leb_spec c 90), (N.leb_spec 97 c),
    (N.leb_spec c 122); simpl;
  repeat match goal with
         | |- context [N.eqb ?a ?b] => destruct (N.eqb_spec a b)
         end; simpl; try reflexivity; lia.
Qed.

Lemma char_ic_swapcase (p c : N) : char_ic p (swapcase_char c) = char_ic p c.
Proof. unfold char_ic. rewrite lower_swapcase. reflexivity. Qed.

Lemma eat_swapcase (l s : pystr) :
  eat l (swapcase s) = option_map swapcase (eat l s).
Proof.
  revert s. induction l as [|p l IH]; intros s; [reflexivity|].
  destruct s as [|c s]; [reflexivity|]. simpl.
  rewrite char_ic_swapcase. destruct (char_ic p c); [apply IH|reflexivity].
Qed.

Lemma at_eol_swapcase (s : pystr) : at_eol (swapcase s) = at_eol s.
Proof.
  destruct s as [|c [|d s]]; try reflexivity. simpl.
  pose proof (dot_swapcase c) as H. unfold dot in H.
  apply (f_equal negb) in H. rewrite !negb_involutive in H. exact H.
Qed.

Lemma star_swapcase (k : pystr -> bool) (s : pystr) :
  (forall t, k (swapcase t) = k t) ->
  star k (swapcase s) = star k s.
Proof.
  intros Hk. induction s as [|c s IH]; simpl.
  - apply (Hk []).
  - rewrite dot_swapcase. fold (swapcase s). rewrite IH.
    rewrite <- (Hk (c :: s)). reflexivity.
Qed.

(** Changing the case of ASCII letters in the subject changes no match. *)
Lemma match_here_swapcase (r : regex) (s : pystr) :
  match_here r (swapcase s) = match_here r s.
Proof.
  revert s. induction r as [|i r IH]; intros s; [reflexivity|].
  destruct i as [|l|bs|].
  - rewrite !match_here_star. apply star_swapcase. exact IH.
  - simpl. rewrite eat_swapcase.
    destruct (eat l s); simpl; [apply IH|reflexivity].
  - simpl. induction bs as [|b bs IHb]; [reflexivity|]. simpl.
    rewrite IHb, eat_swapcase.
    destruct (eat b s); simpl; [rewrite IH|]; reflexivity.
  - simpl. rewrite at_eol_swapcase, IH. reflexivity.
Qed.

End CaseInsensitive.

(* ===================================================================== *)
(** * Matching under a change of the subject that the patterns do not see *)
(* ===================================================================== *)

Section SubjectMap.
Import CaseFold.

(** A map [f] on subject characters, and the pattern characters [sees]
    that compare [c] and [f c] alike. *)
Variable f : N -> N.
Variable sees : N -> bool.
Hypothesis char_ic_f :
  forall p c, sees p = true -> char_ic p (f c) = char_ic p c.
Hypothesis lf_f : forall c, (f c =? LF) = (c =? LF).

Lemma dot_map (c : N) : dot (f c) = dot c.
Proof. unfold dot. rewrite lf_f. reflexivity. Qed.

Lemma eat_map (l s : pystr) :
  forallb sees l = true ->
  eat l (map f s) = option_map (map f) (eat l s).
Proof.
  revert s. induction l as [|p l IH]; intros s Hl; [reflexivity|].
  cbn [forallb] in Hl. apply andb_true_iff in Hl. destruct Hl as [Hp Hl].
  destruct s as [|c s]; [reflexivity|]. cbn [map eat].
  rewrite (@char_ic_f p c Hp). destruct (char_ic p c); [apply IH, Hl|].
  reflexivity.
Qed.

Lemma at_eol_map (s : pystr) : at_eol (map f s) = at_eol s.
Proof.
  destruct s as [|c [|d s]]; try reflexivity. cbn [map at_eol]. apply lf_f.
Qed.

Lemma star_map (k : pystr -> bool) (s : pystr) :
  (forall t, k (map f t) = k t) ->
  star k (map f s) = star k s.
Proof.
  intros Hk. induction s as [|c s IH]; cbn [map star].
  - apply (Hk []).
  - rewrite dot_map, IH. rewrite <- (Hk (c :: s)). reflexivity.
Qed.

Lemma match_here_map (r : regex) (s : pystr) :
  forallb (seen_item sees) r = true ->
  match_here r (map f s) = match_here r s.
Proof.
  revert s. induction r as [|i r IH]; intros s Hr; [reflexivity|].
  cbn [forallb] in Hr. apply andb_true_iff in Hr. destruct Hr as [Hi Hr].
  destruct i as [|l|bs|].
  - rewrite !match_here_star. apply star_map. intros t. apply IH, Hr.
  - cbn [match_here]. rewrite (@eat_map l s Hi).
    destruct (eat l s); cbn [option_map]; [apply IH, Hr|reflexivity].
  - cbn [match_here]. cbn [seen_item] in Hi.
    induction bs as [|b bs IHb]; [reflexivity|]. cbn [existsb].
    cbn [forallb] in Hi. apply andb_true_iff in Hi. destruct Hi as [Hb Hbs].
    rewrite (IHb Hbs), (@eat_map b s Hb).
    destruct (eat b s); cbn [option_map]; [rewrite (IH _ Hr)|]; reflexivity.
  - cbn [match_here]. rewrite at_eol_map, (IH _ Hr). reflexivity.
Qed.

(** Two names with the same image are matched by the same rules, and the
    loop of [route_file] builds their dicts from the same rule. *)
Lemma route_rules_map (rules : list (regex * dict)) (a b k : pystr) :
  forallb (fun rule => forallb (seen_item sees) (fst rule)) rules = true ->
  map f a = map f b ->
  str_eqb (u "filename") k = false ->
  bind (Deployer.route_rules rules a) (fun d => subscript d k)
  = bind (Deployer.route_rules rules b) (fun d => subscript d k).
Proof.
  intros Hr E Hk. induction rules as [|[pattern tgt] rules IH];
    cbn [Deployer.route_rules].
  - cbn [bind Deployer.fallback subscript]. unfold getitem.
    cbn [lookup]. rewrite Hk. reflexivity.
  - cbn [forallb fst] in Hr. apply andb_true_iff in Hr.
    destruct Hr as [Hp Hr]. unfold re_match.
    rewrite <- (@match_here_map pattern a Hp), E, (@match_here_map pattern b Hp).
    destruct (match_here pattern b); [|exact (IH Hr)].
    unfold Deployer.routed.
    destruct (getitem tgt (u "repo")); [|reflexivity].
    destruct (getitem tgt (u "path")); [|reflexivity].
    destruct (getitem tgt (u "description")); [|reflexivity].
    cbn [bind subscript]. unfold getitem. cbn [lookup]. rewrite Hk.
    reflexivity.
Qed.

End SubjectMap.

Section AsciiCase.
Import CaseFold.

Lemma lower_ascii_lower (c : N) : lower (ascii_lower c) = lower c.
Proof.
  unfold lower, ascii_lower.
  destruct (N.leb_spec 65 c), (N.leb_spec c 90); cbn [andb];
  repeat match goal with
         | |- context [N.eqb ?a ?b] => destruct (N.eqb_spec a b)
         | |- context [N.leb ?a ?b] => destruct (N.leb_spec a b)
         end; cbn [andb]; lia.
Qed.

Lemma char_ic_ascii_lower (p c : N) :
  char_ic p (ascii_lower c) = char_ic p c.
Proof. unfold char_ic. rewrite lower_ascii_lower. reflexivity. Qed.

Lemma lf_ascii_lower (c : N) : (ascii_lower c =? LF) = (c =? LF).
Proof.
  unfold ascii_lower, LF.
  destruct (N.leb_spec 65 c), (N.leb_spec c 90); cbn [andb];
    try reflexivity.
  destruct (N.eqb_spec (c + 32) 10), (N.eqb_spec c 10); try reflexivity; lia.
Qed.

Lemma every_item_seen (r : regex) :
  forallb (seen_item (fun _ => true)) r = true.
Proof.
  induction r as [|i r IH]; [reflexivity|]. cbn [forallb]. rewrite IH.
  rewrite andb_true_r. destruct i as [|l|bs|]; try reflexivity.
  - cbn [seen_item]. induction l as [|p l IHl]; [reflexivity|exact IHl].
  - cbn [seen_item]. induction bs as [|b bs IHb]; [reflexivity|].
    cbn [forallb]. rewrite IHb, andb_true_r.
    induction b as [|p b IHp]; [reflexivity|exact IHp].
Qed.

(** No pattern tells two names apart that differ in the case of ASCII
    letters only. *)
Lemma match_ascii_case (r : regex) (a b : pystr) :
  map ascii_lower a = map ascii_lower b ->
  re_match r a = re_match r b.
Proof.
  intros E. unfold re_match.
  rewrite <- (@match_here_map ascii_lower (fun _ => true)
                (fun p c _ => char_ic_ascii_lower p c) lf_ascii_lower
                r a (every_item_seen r)).
  rewrite E.
  apply (@match_here_map ascii_lower (fun _ => true)
           (fun p c _ => char_ic_ascii_lower p c) lf_ascii_lower
           r b (every_item_seen r)).
Qed.

Lemma route_rules_ascii_case (rules : list (regex * dict)) (a b k : pystr) :
  map ascii_lower a = map ascii_lower b ->
  str_eqb (u "filename") k = false ->
  bind (Deployer.route_rules rules a) (fun d => subscript d k)
  = bind (Deployer.route_rules rules b) (fun d => subscript d k).
Proof.
  intros E Hk.
  apply (@route_rules_map ascii_lower (fun _ => true)
           (fun p c _ => char_ic_ascii_lower p c) lf_ascii_lower
           rules a b k); [|exact E|exact Hk].
  induction rules as [|rule rules IH]; [reflexivity|].
  cbn [forallb]. rewrite IH, every_item_seen. reflexivity.
Qed.

Lemma lower_cases (c : N) :
  (c = 304 /\ lower c = 105) \/ (c = 8490 /\ lower c = 107) \/
  (65 <= c <= 90 /\ lower c = c + 32) \/
  (c <> 304 /\ c <> 8490 /\ ~ (65 <= c <= 90) /\ lower c = c).
Proof.
  unfold lower.
  destruct (N.eqb_spec c 304) as [->|H1]; [left; split; reflexivity|].
  destruct (N.eqb_spec c 8490) as [->|H2]; [right; left; split; reflexivity|].
  destruct (N.leb_spec 65 c), (N.leb_spec c 90); cbn [andb].
  - right. right. left. split; [lia|reflexivity].
  - right. right. right. repeat split; try assumption; lia.
  - right. right. right. repeat split; try assumption; lia.
  - right. right. right. repeat split; try assumption; lia.
Qed.

Lemma char_ic_fold (p c : N) :
  ascii_char p = true -> char_ic p (fold c) = char_ic p c.
Proof.
  unfold ascii_char, char_ic, fold, casefix. intros Hp.
  apply N.ltb_lt in Hp. generalize dependent (lower p). intros lo Hlo.
  assert (lower c = 105 \/ lower c = 115 \/ lower c = 305 \/ lower c = 383
          \/ (lower c <> 105 /\ lower c <> 115 /\ lower c <> 305 /\
              lower c <> 383)) as Hc by lia.
  assert (forall x, x = 105 \/ x = 115 -> lower x = x) as Hfix
      by (intros x [->| ->]; reflexivity).
  assert (lower (lower c) = lower c) as Hidem.
  { clear Hc.
    destruct (lower_cases c) as [[-> E]|[[-> E]|[[Hc E]|(N1 & N2 & N3 & E)]]];
      rewrite E; try reflexivity; [|exact E].
    destruct (lower_cases (c + 32)) as [[? ?]|[[? ?]|[[? ?]|(_ & _ & _ & E')]]];
      lia. }
  destruct Hc as [E|[E|[E|[E|(N1 & N2 & N3 & N4)]]]].
  - rewrite E. reflexivity.
  - rewrite E. reflexivity.
  - rewrite E.
    replace (if 305 =? 305 then 105 else if 305 =? 383 then 115 else 305)
      with 105 by reflexivity.
    change (lower 105) with 105.
    destruct (N.eqb_spec lo 105) as [->|Hl]; [reflexivity|].
    destruct (N.eqb_spec lo 115) as [->|Hl']; [reflexivity|].
    cbn [existsb]. rewrite !orb_false_r.
    destruct (N.eqb_spec 105 lo), (N.eqb_spec 305 lo); try reflexivity; lia.
  - rewrite E.
    replace (if 383 =? 305 then 105 else if 383 =? 383 then 115 else 383)
      with 115 by reflexivity.
    change (lower 115) with 115.
    destruct (N.eqb_spec lo 105) as [->|Hl]; [reflexivity|].
    destruct (N.eqb_spec lo 115) as [->|Hl']; [reflexivity|].
    cbn [existsb]. rewrite !orb_false_r.
    destruct (N.eqb_spec 115 lo), (N.eqb_spec 383 lo); try reflexivity; lia.
  - destruct (N.eqb_spec (lower c) 305); [contradiction|].
    destruct (N.eqb_spec (lower c) 383); [contradiction|].
    rewrite Hidem. reflexivity.
Qed.

Lemma lf_fold (c : N) : (fold c =? LF) = (c =? LF).
Proof.
  unfold fold, LF. cbv zeta.
  destruct (lower_cases c) as [[-> E]|[[-> E]|[[Hc E]|(N1 & N2 & N3 & E)]]];
    rewrite E; try reflexivity.
  - destruct (N.eqb_spec (c + 32) 305); [|destruct (N.eqb_spec (c + 32) 383)];
      try lia.
    destruct (N.eqb_spec (c + 32) 10), (N.eqb_spec c 10); try reflexivity; lia.
  - destruct (N.eqb_spec c 305) as [->|]; [reflexivity|].
    destruct (N.eqb_spec c 383) as [->|]; reflexivity.
Qed.

Lemma routing_rules_ascii :
  forallb (fun rule => forallb (seen_item ascii_char) (fst rule))
          Deployer.ROUTING_RULES = true.
Proof. reflexivity. Qed.

Lemma route_rules_fold (a b k : pystr) :
  map fold a = map fold b ->
  str_eqb (u "filename") k = false ->
  bind (Deployer.route_rules Deployer.ROUTING_RULES a)
       (fun d => subscript d k)
  = bind (Deployer.route_rules Deployer.ROUTING_RULES b)
         (fun d => subscript d k).
Proof.
  intros E Hk.
  exact (@route_rules_map fold ascii_char char_ic_fold lf_fold
           Deployer.ROUTING_RULES a b k routing_rules_ascii E Hk).
Qed.

End AsciiCase.

Section RouterFacts.

Lemma name_snoc (dir : Path) (filename : pystr) :
  name (dir ++ [filename]) = filename.
Proof. unfold name. apply last_last. Qed.

Lemma routed_complete (tgt : dict) (filename : pystr) :
  complete_target tgt = true ->
  exists d, Deployer.routed tgt filename = Ok d.
Proof.
  unfold complete_target, Deployer.routed, getitem. intros H.
  destruct (lookup tgt (u "repo")); [|discriminate].
  destruct (lookup tgt (u "path")); [|discriminate].
  destruct (lookup tgt (u "description")); [|discriminate].
  simpl. eauto.
Qed.

(** What the loop of [route_file] returns, for any table whose targets have
    the three keys. *)
Lemma route_rules_first_match (rules : list (regex * dict)) (filename : pystr) :
  forallb (fun r => complete_target (snd r)) rules = true ->
  exists d,
    Deployer.route_rules rules filename = Ok d /\
    ((exists pre pattern tgt post,
         rules = pre ++ (pattern, tgt) :: post /\
         unmatched pre filename = true /\
         re_match pattern filename = true /\
         Deployer.routed tgt filename = Ok d)
     \/ (unmatched rules filename = true /\ d = Deployer.fallback filename)).
Proof.
  induction rules as [|[pattern tgt] rules IH]; simpl; intros Hc.
  - eexists. split; [reflexivity|]. right. auto.
  - apply andb_true_iff in Hc. destruct Hc as [Ht Hc].
    destruct (re_match pattern filename) eqn:E.
    + destruct (@routed_complete tgt filename Ht) as (d & Hd).
      exists d. split; [assumption|]. left.
      exists [], pattern, tgt, rules. auto.
    + destruct (IH Hc) as (d & Hd & Hcase). exists d. split; [assumption|].
      destruct Hcase as [(pre & p & t & post & -> & Hu & Hm & Hr)|[Hu ->]].
      * left. exists ((pattern, tgt) :: pre), p, t, post.
        simpl. rewrite E. auto.
      * right. simpl. auto.
Qed.

Lemma routing_rules_complete :
  forallb (fun r => complete_target (snd r)) Deployer.ROUTING_RULES = true.
Proof. reflexivity. Qed.

End RouterFacts.

(** C3. For every file path, [route_file] returns one destination dict: the
    one built from the first rule of [ROUTING_RULES], in declared order,
    whose pattern matches the file name (the fallback when none does). A
    name [pipeline_scraper.py] goes to the scraper destination and
    [pipeline.py] to the generic Python-module destination, whatever the
    directory. *)
Theorem route_first_match :
  (forall filepath : Path,
      exists d,
        Deployer.route_file filepath = Ok d /\
        ((exists pre pattern tgt post,
             Deployer.ROUTING_RULES = pre ++ (pattern, tgt) :: post /\
             unmatched pre (name filepath) = true /\
             re_match pattern (name filepath) = true /\
             Deployer.routed tgt (name filepath) = Ok d)
         \/ (unmatched Deployer.ROUTING_RULES (name filepath) = true /\
             d = Deployer.fallback (name filepath)))) /\
  (forall dir : Path,
      Deployer.route_file (dir ++ [u "pipeline_scraper.py"])
      = Ok (destination "brevard-bidder-scraper" "src/scrapers/"
                        "Scraper module" (u "pipeline_scraper.py"))) /\
  (forall dir : Path,
      Deployer.route_file (dir ++ [u "pipeline.py"])
      = Ok (destination "life-os" "src/" "Python module" (u "pipeline.py"))).
Proof.
  split; [|split].
  - intros filepath. unfold Deployer.route_file.
    apply route_rules_first_match. exact routing_rules_complete.
  - intros dir. unfold Deployer.route_file. rewrite name_snoc.
    vm_compute. reflexivity.
  - intros dir. unfold Deployer.route_file. rewrite name_snoc.
    vm_compute. reflexivity.
Qed.

Section RouterSemantics.

(** [unmatched], in terms of the relation: no rule of the list has a
    match at the start of the name. *)
Lemma unmatched_sem (rules : list (regex * dict)) (filename : pystr) :
  unmatched rules filename = true <->
  forall rule, In rule rules -> forall rest, ~ sem (fst rule) filename rest.
Proof.
  unfold unmatched. rewrite forallb_forall. split.
  - intros H rule Hin rest Hs. specialize (H rule Hin).
    apply negb_true_iff in H.
    assert (re_match (fst rule) filename = true) as Hm
        by (apply match_here_sem; exists rest; exact Hs).
    congruence.
  - intros H rule Hin. apply negb_true_iff, not_true_is_false.
    intros Hm. apply match_here_sem in Hm. destruct Hm as (rest & Hs).
    exact (H rule Hin rest Hs).
Qed.

End RouterSemantics.

(** C4. [route_file] never raises. It looks only at the final component of
    the path. Its answer is built from the first rule of [ROUTING_RULES]
    that has a match at the start of the name, a match being a sequence of
    characters the pattern accepts without regard to case and that need not
    reach the end of the name (what the match leaves is not inspected);
    when no rule has one, the answer is the default destination life-os,
    artifacts/, Unclassified artifact. Two names that differ only in the
    case of ASCII letters, in any positions, are matched by the same
    patterns and are given the same repository, path prefix and
    description. *)
Theorem route_never_raises (filepath : Path) :
  (exists d, Deployer.route_file filepath = Ok d) /\
  (forall dir, Deployer.route_file (dir ++ [name filepath])
               = Deployer.route_file filepath) /\
  (exists d,
      Deployer.route_file filepath = Ok d /\
      ((exists pre pattern tgt post,
           Deployer.ROUTING_RULES = pre ++ (pattern, tgt) :: post /\
           (forall rule, In rule pre ->
                         forall rest, ~ sem (fst rule) (name filepath) rest) /\
           (exists rest, sem pattern (name filepath) rest) /\
           Deployer.routed tgt (name filepath) = Ok d)
       \/ ((forall rule, In rule Deployer.ROUTING_RULES ->
                         forall rest, ~ sem (fst rule) (name filepath) rest) /\
           d = destination "life-os" "artifacts/" "Unclassified artifact"
                           (name filepath)))) /\
  (forall filepath',
      map CaseFold.ascii_lower (name filepath')
      = map CaseFold.ascii_lower (name filepath) ->
      (forall pattern,
          re_match pattern (name filepath')
          = re_match pattern (name filepath)) /\
      (forall k,
          str_eqb (u "filename") k = false ->
          bind (Deployer.route_file filepath') (fun d => subscript d k)
          = bind (Deployer.route_file filepath) (fun d => subscript d k))) /\
  (forall pattern,
      re_match pattern (swapcase (name filepath))
      = re_match pattern (name filepath)) /\
  (forall pattern,
      re_match pattern (name filepath) = true <->
      exists rest, sem pattern (name filepath) rest) /\
  (forall pattern rest,
      sem pattern (name filepath) rest ->
      exists matched, name filepath = matched ++ rest) /\
  (unmatched Deployer.ROUTING_RULES (name filepath) = true ->
   Deployer.route_file filepath
   = Ok (destination "life-os" "artifacts/" "Unclassified artifact"
                     (name filepath))).
Proof.
  destruct (@route_rules_first_match Deployer.ROUTING_RULES (name filepath)
              routing_rules_complete) as (d & Hd & Hcase).
  split; [exists d; exact Hd|].
  split; [intros dir; unfold Deployer.route_file; rewrite name_snoc;
          reflexivity|].
  split.
  { exists d. split; [exact Hd|].
    destruct Hcase as [(pre & p & t & post & E & Hpre & Hm & Hr)|[Hu ->]].
    - left. exists pre, p, t, post. split; [exact E|].
      split; [apply unmatched_sem, Hpre|].
      split; [apply match_here_sem, Hm|exact Hr].
    - right. split; [apply unmatched_sem, Hu|reflexivity]. }
  split.
  { intros filepath' E. split.
    - intros pattern. apply match_ascii_case, E.
    - intros k Hk. unfold Deployer.route_file.
      apply route_rules_ascii_case; assumption. }
  split; [intros pattern; apply match_here_swapcase|].
  split; [intros pattern; apply match_here_sem|].
  split; [intros pattern rest Hs; exact (sem_prefix Hs)|].
  intros Hu. unfold Deployer.route_file. rewrite Hd.
  destruct Hcase as [(pre & p & t & post & E & Hpre & Hm & _)|[_ ->]].
  - exfalso. rewrite E in Hu. unfold unmatched in Hu.
    rewrite forallb_app in Hu. apply andb_true_iff in Hu.
    destruct Hu as [_ Hu]. simpl in Hu. rewrite Hm in Hu. discriminate.
  - reflexivity.
Qed.

Lemma route_never_raises_witness :
  bind (Deployer.route_file [u "mnt"; u "outputs"; u "ReadMe.MD"])
       (fun d => subscript d (u "path"))
  = Ok (VStr (u "docs/")) /\
  Deployer.route_file [u "mnt"; u "user-data"; u "outputs"; u "notes.txt"]
  = Ok (destination "life-os" "artifacts/" "Unclassified artifact"
                    (u "notes.txt")).
Proof.
  split.
  - exact (proj2 (proj1 (proj2 (proj2 (proj2
             (route_never_raises [u "mnt"; u "outputs"; u "readme.md"]))))
             [u "mnt"; u "outputs"; u "ReadMe.MD"] eq_refl)
             (u "path") eq_refl).
  - apply (proj2 (proj2 (proj2 (proj2 (proj2 (proj2 (proj2
             (route_never_raises
                [u "mnt"; u "user-data"; u "outputs"; u "notes.txt"])))))))).
    vm_compute. reflexivity.
Defined.

Section MarkdownRule.

Lemma no_match_lit_tail (r : regex) (l : pystr) (p : N) (s : pystr) (c : N) :
  char_ic p c = false -> c <> LF ->
  re_match (r ++ [Lit (l ++ [p]); Eol]) (s ++ [c]) = false.
Proof.
  intros Hp Hc. destruct (re_match _ _) eqn:E; [|reflexivity].
  apply match_here_sem in E. destruct E as (rest & E).
  apply lit_eol_last in E; [congruence|assumption].
Qed.

Lemma no_match_alt_tail (r : regex) (bs : list pystr) (s : pystr) (c : N) :
  forallb (fun l => match l with
                    | [] => false
                    | _ => negb (char_ic (last l 0) c)
                    end) bs = true ->
  c <> LF ->
  re_match (r ++ [Alt bs; Eol]) (s ++ [c]) = false.
Proof.
  intros Hbs Hc. destruct (re_match _ _) eqn:E; [|reflexivity].
  apply match_here_sem in E. destruct E as (rest & E).
  apply alt_eol_last in E; [|assumption].
  destruct E as (l & Hin & Hl).
  rewrite forallb_forall in Hbs. specialize (Hbs l Hin).
  destruct Hl as [->|Hl]; [discriminate|].
  destruct l; [discriminate|]. rewrite Hl in Hbs. discriminate.
Qed.

(** A name that ends in [.md] is the concatenation of a body and three
    characters: a dot, m or M, d or D. *)
Lemma ends_with_md_inv (s : pystr) :
  ends_with_md s = true ->
  exists body m d,
    s = (body ++ [46; m]) ++ [d] /\
    (m = 109 \/ m = 77) /\ (d = 100 \/ d = 68).
Proof.
  unfold ends_with_md. intros H.
  destruct (rev s) as [|d [|m [|p t]]] eqn:E; try discriminate.
  apply andb_true_iff in H. destruct H as [H Hd].
  apply andb_true_iff in H. destruct H as [Hp Hm].
  apply N.eqb_eq in Hp. subst p.
  exists (rev t), m, d. repeat split.
  - rewrite <- (rev_involutive s), E. simpl.
    rewrite <- !app_assoc. reflexivity.
  - apply orb_true_iff in Hm. destruct Hm as [Hm|Hm];
      apply N.eqb_eq in Hm; auto.
  - apply orb_true_iff in Hd. destruct Hd as [Hd|Hd];
      apply N.eqb_eq in Hd; auto.
Qed.

Lemma no_newline_dot (s : pystr) :
  has_newline s = false -> Forall (fun c => dot c = true) s.
Proof.
  unfold has_newline. induction s as [|c s IH]; intros H.
  - constructor.
  - cbn [existsb] in H. apply orb_false_iff in H. destruct H as [Hc Hs].
    constructor; [|auto]. unfold dot. rewrite N.eqb_sym, Hc. reflexivity.
Qed.

Lemma has_newline_app (a b : pystr) :
  has_newline (a ++ b) = has_newline a || has_newline b.
Proof. apply existsb_app. Qed.

(** The documentation pattern matches every name that ends in [.md] and
    holds no line feed. *)
Lemma md_pattern_matches (s : pystr) :
  ends_with_md s = true -> has_newline s = false ->
  re_match [AnyStar; Lit (u ".md"); Eol] s = true.
Proof.
  intros He Hn. destruct (ends_with_md_inv _ He) as (body & m & d & -> & Hm & Hd).
  apply match_here_sem. exists [].
  rewrite <- !app_assoc. simpl.
  rewrite <- !app_assoc, has_newline_app in Hn.
  apply orb_false_iff in Hn. destruct Hn as [Hb _].
  econstructor; [apply sem_star, no_newline_dot, Hb|].
  econstructor.
  - apply (@sem_lit (u ".md") [46; m; d] []).
    repeat constructor; destruct Hm, Hd; subst; reflexivity.
  - econstructor; [constructor; auto|constructor].
Qed.

(** A match of the skill pattern is a match of the documentation pattern. *)
Lemma skill_pattern_shadowed (s : pystr) :
  re_match [Lit (u "SKILL.md"); Eol] s = true ->
  re_match [AnyStar; Lit (u ".md"); Eol] s = true.
Proof.
  intros H. apply match_here_sem in H. destruct H as (rest & H).
  inversion H as [|? ? ? s1 ? Hi Hr]; subst.
  inversion Hi as [|? pre ? F| |]; subst.
  change (u "SKILL.md") with [83; 75; 73; 76; 76; 46; 109; 100] in F.
  repeat match goal with
         | F : Forall2 _ (_ :: _) _ |- _ => inversion F; subst; clear F
         | F : Forall2 _ [] _ |- _ => inversion F; subst; clear F
         end.
  apply match_here_sem. exists rest.
  match goal with
  | |- sem _ ((?a :: ?b :: ?c :: ?d :: ?e :: ?t) ++ _) _ =>
      change ((a :: b :: c :: d :: e :: t) ++ s1)
        with ([a; b; c; d; e] ++ (t ++ s1))
  end.
  econstructor.
  - apply sem_star.
    repeat constructor;
      match goal with
      | |- dot ?c = true =>
          unfold dot; destruct (N.eqb_spec c LF) as [->|]; [|reflexivity];
          exfalso;
          match goal with
          | H : char_ic _ LF = true |- _ => vm_compute in H; discriminate H
          end
      end.
  - econstructor; [|exact Hr].
    match goal with
    | |- item_sem _ (?t ++ _) _ => apply (@sem_lit (u ".md") t s1)
    end.
    repeat constructor; assumption.
Qed.

End MarkdownRule.

Section MarkdownRouting.

Lemma md_tail_chars (m d : N) :
  (m = 109 \/ m = 77) -> (d = 100 \/ d = 68) ->
  d <> LF /\ char_ic 108 d = false /\ char_ic 121 d = false /\
  char_ic 115 d = false.
Proof. intros [-> | ->] [-> | ->]; repeat split; discriminate. Qed.

(** On a name that ends in [.md], the six rules declared before the
    documentation rule do not match. *)
Lemma md_earlier_rules (s : pystr) (d : N) :
  d <> LF -> char_ic 108 d = false -> char_ic 121 d = false ->
  char_ic 115 d = false ->
  re_match [AnyStar; Lit (u ".yml"); Eol] (s ++ [d]) = false /\
  re_match [AnyStar; Lit (u "_node"); AnyStar; Lit (u ".py"); Eol] (s ++ [d])
  = false /\
  re_match [AnyStar; Lit (u "_agent"); AnyStar; Lit (u ".py"); Eol] (s ++ [d])
  = false /\
  re_match [AnyStar; Lit (u "_scraper"); AnyStar; Lit (u ".py"); Eol] (s ++ [d])
  = false /\
  re_match [AnyStar; Lit (u ".py"); Eol] (s ++ [d]) = false /\
  re_match [AnyStar; Lit (u "."); Alt [u "html"; u "css"; u "js"]; Eol]
           (s ++ [d]) = false.
Proof.
  intros Hd Hl Hy Hs. repeat split.
  - exact (@no_match_lit_tail [AnyStar] (u ".ym") 108 s d Hl Hd).
  - exact (@no_match_lit_tail [AnyStar; Lit (u "_node"); AnyStar]
             (u ".p") 121 s d Hy Hd).
  - exact (@no_match_lit_tail [AnyStar; Lit (u "_agent"); AnyStar]
             (u ".p") 121 s d Hy Hd).
  - exact (@no_match_lit_tail [AnyStar; Lit (u "_scraper"); AnyStar]
             (u ".p") 121 s d Hy Hd).
  - exact (@no_match_lit_tail [AnyStar] (u ".p") 121 s d Hy Hd).
  - apply (@no_match_alt_tail [AnyStar; Lit (u ".")]
             [u "html"; u "css"; u "js"] s d); [|exact Hd].
    cbn [forallb]. change (last (u "html") 0) with 108.
    change (last (u "css") 0) with 115. change (last (u "js") 0) with 115.
    cbn. rewrite Hl, Hs. reflexivity.
Qed.

End MarkdownRouting.

(** C10, as the code has it. A name that ends in [.md] (either case) and
    holds no line feed is routed to the Documentation destination, life-os
    and docs/; and no name at all is routed to the skills destination: the
    rule for SKILL.md, declared after the documentation rule, is never the
    first to match. *)
Theorem md_routes_to_docs (filepath : Path) :
  (ends_with_md (name filepath) = true ->
   has_newline (name filepath) = false ->
   Deployer.route_file filepath
   = Ok (destination "life-os" "docs/" "Documentation" (name filepath))) /\
  (exists d,
      Deployer.route_file filepath = Ok d /\
      subscript d (u "path") <> Ok (VStr (u "skills/")) /\
      d <> destination "life-os" "skills/" "Skill documentation"
                       (name filepath)).
Proof.
  unfold Deployer.route_file. generalize (name filepath) as n. intros n.
  split.
  - intros He Hn. pose proof (md_pattern_matches _ He Hn) as Hmd.
    destruct (ends_with_md_inv _ He) as (body & m & d & E & Hm & Hd).
    destruct (md_tail_chars Hm Hd) as (Hlf & Hl & Hy & Hs).
    destruct (@md_earlier_rules (body ++ [46; m]) d Hlf Hl Hy Hs)
      as (R1 & R2 & R3 & R4 & R5 & R6).
    rewrite <- E in R1, R2, R3, R4, R5, R6.
    unfold Deployer.ROUTING_RULES. cbn [Deployer.route_rules].
    rewrite R1, R2, R3, R4, R5, R6, Hmd. reflexivity.
  - unfold Deployer.ROUTING_RULES. cbn [Deployer.route_rules].
    repeat match goal with
           | |- exists d, (if re_match ?p n then _ else _) = Ok d /\ _ =>
               destruct (re_match p n) eqn:?;
               [ try (exfalso;
                      match goal with
                      | H : re_match [Lit _; Eol] n = true |- _ =>
                          apply skill_pattern_shadowed in H; congruence
                      end);
                 try (eexists; split; [reflexivity|];
                      split; intros H; vm_compute in H; discriminate H)
               | ]
           end.
    eexists; split; [reflexivity|].
    split; intros H; vm_compute in H; discriminate H.
Qed.

Lemma md_routes_to_docs_witness :
  Deployer.route_file [u "mnt"; u "user-data"; u "outputs"; u "SKILL.md"]
  = Ok (destination "life-os" "docs/" "Documentation" (u "SKILL.md")).
Proof.
  apply (proj1 (md_routes_to_docs
                  [u "mnt"; u "user-data"; u "outputs"; u "SKILL.md"]));
    vm_compute; reflexivity.
Defined.

(** C10 as stated fails on a name with a line feed in it: the name ends in
    [.md], and [.*] cannot run over the line feed, so the file gets the
    default destination. *)
Lemma md_line_feed_counterexample :
  let filepath := [u "mnt"; u "user-data"; u "outputs";
                   u "a" ++ [LF] ++ u "b.md"] in
  ends_with_md (name filepath) = true /\
  Deployer.route_file filepath
  = Ok (destination "life-os" "artifacts/" "Unclassified artifact"
                    (name filepath)) /\
  Deployer.route_file filepath
  <> Ok (destination "life-os" "docs/" "Documentation" (name filepath)).
Proof.
  vm_compute. repeat split. intros H. discriminate H.
Qed.

(* ===================================================================== *)
(** * Properties of the encoder *)
(* ===================================================================== *)

Section Base64Facts.

(** Induction three bytes at a time, the way base64 groups its input. *)
Lemma list_ind3 (A : Type) (P : list A -> Prop) :
  P [] -> (forall a, P [a]) -> (forall a b, P [a; b]) ->
  (forall a b c l, P l -> P (a :: b :: c :: l)) ->
  forall l, P l.
Proof.
  intros H0 H1 H2 H3.
  fix IH 1. intros [|a [|b [|c l]]].
  - exact H0.
  - apply H1.
  - apply H2.
  - apply H3, IH.
Qed.

Lemma b64val_char (i : N) : i < 64 -> b64val (b64char i) = Some i.
Proof.
  intros Hi. unfold b64char.
  destruct (N.ltb_spec i 26); [|destruct (N.ltb_spec i 52);
    [|destruct (N.ltb_spec i 62); [|destruct (N.eqb_spec i 62)]]];
  unfold b64val;
  repeat match goal with
         | |- context [N.leb ?a ?b] => destruct (N.leb_spec a b); cbn [andb]
         | |- context [N.eqb ?a ?b] => destruct (N.eqb_spec a b); cbn [andb]
         end; try lia; f_equal; lia.
Qed.

Lemma b64char_not_pad (i : N) : (b64char i =? PAD) = false.
Proof.
  apply N.eqb_neq. unfold b64char, PAD.
  destruct (N.ltb_spec i 26); [lia|]. destruct (N.ltb_spec i 52); [lia|].
  destruct (N.ltb_spec i 62); [lia|]. destruct (N.eqb_spec i 62); lia.
Qed.

Lemma sextets_bounded (a b c : N) :
  a < 256 -> b < 256 -> c < 256 ->
  a / 4 < 64 /\ (a mod 4) * 16 + b / 16 < 64 /\
  (b mod 16) * 4 + c / 64 < 64 /\ c mod 64 < 64 /\
  (a mod 4) * 16 < 64 /\ (b mod 16) * 4 < 64.
Proof.
  intros Ha Hb Hc.
  pose proof (N.mod_upper_bound a 4). pose proof (N.mod_upper_bound b 16).
  pose proof (N.mod_upper_bound c 64).
  assert (a / 4 < 64) by (apply N.Div0.div_lt_upper_bound; lia).
  assert (b / 16 < 16) by (apply N.Div0.div_lt_upper_bound; lia).
  assert (c / 64 < 4) by (apply N.Div0.div_lt_upper_bound; lia).
  lia.
Qed.

Lemma sextets_rejoin (a b c : N) :
  a < 256 -> b < 256 -> c < 256 ->
  (a / 4) * 4 + ((a mod 4) * 16 + b / 16) / 16 = a /\
  (((a mod 4) * 16 + b / 16) mod 16) * 16 + ((b mod 16) * 4 + c / 64) / 4 = b /\
  (((b mod 16) * 4 + c / 64) mod 4) * 64 + c mod 64 = c.
Proof.
  intros Ha Hb Hc.
  pose proof (N.mod_upper_bound a 4). pose proof (N.mod_upper_bound b 16).
  pose proof (N.mod_upper_bound c 64).
  assert (b / 16 < 16) by (apply N.Div0.div_lt_upper_bound; lia).
  assert (c / 64 < 4) by (apply N.Div0.div_lt_upper_bound; lia).
  pose proof (N.div_mod a 4). pose proof (N.div_mod b 16).
  pose proof (N.div_mod c 64).
  assert (((a mod 4) * 16 + b / 16) / 16 = a mod 4) as ->
    by (symmetry; apply N.div_unique with (r := b / 16); lia).
  assert (((a mod 4) * 16 + b / 16) mod 16 = b / 16) as ->
    by (symmetry; apply N.mod_unique with (q := a mod 4); lia).
  assert (((b mod 16) * 4 + c / 64) / 4 = b mod 16) as ->
    by (symmetry; apply N.div_unique with (r := c / 64); lia).
  assert (((b mod 16) * 4 + c / 64) mod 4 = c / 64) as ->
    by (symmetry; apply N.mod_unique with (q := b mod 16); lia).
  lia.
Qed.

Lemma b64_roundtrip_vals (l : list N) :
  Forall (fun b => b < 256) l ->
  b64decode_vals (b64encode_vals l) = Some l.
Proof.
  induction l as [|a|a b|a b c l IH] using list_ind3; intros F.
  - reflexivity.
  - inversion F as [|? ? Ha _]; subst.
    destruct (@sextets_bounded a 0 0) as (B0 & _ & _ & _ & B1 & _); try lia.
    destruct (@sextets_rejoin a 0 0) as (R0 & _); try lia.
    cbn [b64encode_vals b64decode_vals].
    rewrite !b64val_char by assumption.
    rewrite !N.eqb_refl. cbn [andb].
    rewrite N.add_0_r in R0. rewrite R0. reflexivity.
  - inversion F as [|? ? Ha F']; subst. inversion F' as [|? ? Hb _]; subst.
    destruct (@sextets_bounded a b 0) as (B0 & B1 & _ & _ & _ & B2); try lia.
    destruct (@sextets_rejoin a b 0) as (R0 & R1 & _); try lia.
    cbn [b64encode_vals b64decode_vals].
    rewrite !b64val_char by assumption.
    rewrite b64char_not_pad, !N.eqb_refl. cbn [andb].
    rewrite N.add_0_r in R1. rewrite R0, R1. reflexivity.
  - inversion F as [|? ? Ha F']; subst. inversion F' as [|? ? Hb F'']; subst.
    inversion F'' as [|? ? Hc Fl]; subst.
    destruct (@sextets_bounded a b c) as (B0 & B1 & B2 & B3 & _ & _); try lia.
    destruct (@sextets_rejoin a b c) as (R0 & R1 & R2); try lia.
    cbn [b64encode_vals b64decode_vals].
    rewrite !b64val_char by assumption.
    rewrite !b64char_not_pad. cbn [andb].
    rewrite (IH Fl). cbn [option_map]. rewrite R0, R1, R2. reflexivity.
Qed.

Lemma byte_val_bounded (bs : pybytes) :
  Forall (fun b => b < 256) (map byte_val bs).
Proof.
  induction bs as [|b bs IH]; constructor; [|exact IH].
  pose proof (Byte.to_N_bounded b). unfold byte_val. lia.
Qed.

Lemma byte_of_val (bs : pybytes) : map byte_of (map byte_val bs) = bs.
Proof.
  induction bs as [|b bs IH]; [reflexivity|]. simpl. rewrite IH.
  unfold byte_of, byte_val. rewrite Byte.of_to_N. reflexivity.
Qed.

(** Decoding the base64 text of some bytes gives the bytes back. *)
Lemma b64_roundtrip (bs : pybytes) : b64decode (b64encode bs) = Some bs.
Proof.
  unfold b64decode, b64encode.
  rewrite b64_roundtrip_vals by apply byte_val_bounded.
  simpl. rewrite byte_of_val. reflexivity.
Qed.

End Base64Facts.

Section EncoderFacts.

Variable fs : node.

Lemma universal_newlines_cons (c : N) (s : pystr) :
  (c =? CR) = false ->
  universal_newlines (c :: s) = c :: universal_newlines s.
Proof. intros H. cbn [universal_newlines]. rewrite H. reflexivity. Qed.

(** Text without a carriage return goes through newline translation as it
    is. *)
Lemma universal_newlines_no_cr (text : pystr) :
  has_cr text = false -> universal_newlines text = text.
Proof.
  unfold has_cr. induction text as [|c s IH]; intros H; [reflexivity|].
  cbn [existsb] in H. apply orb_false_iff in H. destruct H as [Hc Hs].
  rewrite universal_newlines_cons by (rewrite N.eqb_sym; exact Hc).
  rewrite IH by exact Hs. reflexivity.
Qed.

Lemma encode_file_binary (filepath : Path) (bs : pybytes) :
  read_bytes fs filepath = Ok bs -> utf8_decode bs = None ->
  Deployer.encode_file fs filepath = Ok (b64encode bs, true).
Proof.
  intros Hr Hd. unfold Deployer.encode_file, read_text.
  rewrite Hr. simpl. rewrite Hd. reflexivity.
Qed.

Lemma encode_file_text (filepath : Path) (bs : pybytes) (text : pystr) :
  read_bytes fs filepath = Ok bs -> utf8_decode bs = Some text ->
  Deployer.encode_file fs filepath = Ok (universal_newlines text, false).
Proof.
  intros Hr Hd. unfold Deployer.encode_file, read_text.
  rewrite Hr. simpl. rewrite Hd. reflexivity.
Qed.

End EncoderFacts.

(** C5, as the code has it. For a readable file whose bytes are not valid
    UTF-8, [encode_file] returns is_binary true and the base64 text of the
    bytes, which decodes to the bytes. For a file whose bytes decode as
    UTF-8 (the empty file too), it returns is_binary false and the decoded
    text after universal-newline translation; that is the decoded text
    itself when the text holds no carriage return. *)
Theorem encode_file_spec (fs : node) (filepath : Path) (bs : pybytes) :
  read_bytes fs filepath = Ok bs ->
  (utf8_decode bs = None ->
   Deployer.encode_file fs filepath = Ok (b64encode bs, true) /\
   b64decode (b64encode bs) = Some bs) /\
  (forall text,
      utf8_decode bs = Some text ->
      Deployer.encode_file fs filepath = Ok (universal_newlines text, false) /\
      (has_cr text = false ->
       Deployer.encode_file fs filepath = Ok (text, false))) /\
  (bs = [] -> Deployer.encode_file fs filepath = Ok ([], false)).
Proof.
  intros Hr. split; [|split].
  - intros Hd. split; [apply (@encode_file_binary fs filepath bs Hr Hd)|].
    apply b64_roundtrip.
  - intros text Hd. split; [apply (@encode_file_text fs filepath bs text Hr Hd)|].
    intros Hcr. rewrite (@encode_file_text fs filepath bs text Hr Hd).
    rewrite universal_newlines_no_cr by assumption. reflexivity.
  - intros ->. apply (@encode_file_text fs filepath [] [] Hr). reflexivity.
Qed.

Lemma encode_file_spec_witness :
  let fs := Dir [(u "logo.bin", File true (map byte_of [255; 216; 0]))] in
  Deployer.encode_file fs [u "logo.bin"] = Ok (u "/9gA", true) /\
  b64decode (u "/9gA") = Some (map byte_of [255; 216; 0]).
Proof.
  apply (proj1 (@encode_file_spec
                  (Dir [(u "logo.bin", File true (map byte_of [255; 216; 0]))])
                  [u "logo.bin"] (map byte_of [255; 216; 0]) eq_refl)).
  reflexivity.
Defined.

(** C5 as stated fails on a text file with a CR LF line end: the bytes
    decode as UTF-8, and the text returned is not the decoded text. *)
Lemma encode_crlf_counterexample :
  let bs := map byte_of [97; 13; 10; 98] in
  let fs := Dir [(u "a.txt", File true bs)] in
  utf8_decode bs = Some [97; 13; 10; 98] /\
  Deployer.encode_file fs [u "a.txt"] = Ok ([97; 10; 98], false) /\
  Deployer.encode_file fs [u "a.txt"] <> Ok ([97; 13; 10; 98], false).
Proof.
  vm_compute. repeat split. intros H. discriminate H.
Qed.

(* ===================================================================== *)
(** * Properties of the checksum *)
(* ===================================================================== *)

Section HashlibFacts.
Import Hashlib.

Lemma compress_length (h block : list N) : length (compress h block) = 8%nat.
Proof.
  unfold compress.
  destruct (fold_left _ _ _) as [[[[[[[a b] c] d] e] f] g] hh].
  reflexivity.
Qed.

Lemma absorb_n_chain (n : nat) (h buf : list N) :
  length h = 8%nat -> length (fst (absorb_n n h buf)) = 8%nat.
Proof.
  revert h buf. induction n as [|n IH]; intros h buf Hh; [exact Hh|].
  simpl. apply IH, compress_length.
Qed.

Lemma absorb_n_rest (n : nat) (h buf : list N) :
  snd (absorb_n n h buf) = skipn (64 * n) buf.
Proof.
  revert h buf. induction n as [|n IH]; intros h buf.
  - rewrite Nat.mul_0_r. reflexivity.
  - cbn [absorb_n]. rewrite IH, skipn_skipn. f_equal. lia.
Qed.

Lemma absorb_n_app (n : nat) (h x y : list N) :
  (64 * n <= length x)%nat ->
  absorb_n n h (x ++ y)
  = (fst (absorb_n n h x), snd (absorb_n n h x) ++ y).
Proof.
  revert h x. induction n as [|n IH]; intros h x Hx; [reflexivity|].
  cbn [absorb_n].
  rewrite firstn_app, skipn_app.
  replace (64 - length x)%nat with 0%nat by lia.
  rewrite firstn_0, app_nil_r, skipn_O.
  apply IH. rewrite length_skipn. lia.
Qed.

Lemma absorb_n_add (n m : nat) (h buf : list N) :
  absorb_n (n + m) h buf
  = absorb_n m (fst (absorb_n n h buf)) (snd (absorb_n n h buf)).
Proof.
  revert h buf. induction n as [|n IH]; intros h buf; [reflexivity|].
  cbn [absorb_n Nat.add]. apply IH.
Qed.

Lemma div64_split (a b : nat) :
  ((a + b) / 64 = a / 64 + (a mod 64 + b) / 64)%nat.
Proof.
  rewrite (Nat.div_mod_eq a 64) at 1.
  rewrite <- Nat.add_assoc, Nat.mul_comm, Nat.div_add_l by lia. reflexivity.
Qed.

Lemma absorb_rest_length (h buf : list N) :
  length (snd (absorb h buf)) = (length buf mod 64)%nat.
Proof.
  unfold absorb. rewrite absorb_n_rest, length_skipn.
  pose proof (Nat.div_mod_eq (length buf) 64). lia.
Qed.

(** Absorbing a buffer in two parts: the bytes the first part leaves are
    put before the second part. *)
Lemma absorb_app (h x y : list N) :
  absorb h (x ++ y) = absorb (fst (absorb h x)) (snd (absorb h x) ++ y).
Proof.
  unfold absorb at 1. rewrite length_app, div64_split, absorb_n_add.
  rewrite absorb_n_app
    by (pose proof (Nat.div_mod_eq (length x) 64); lia).
  cbn [fst snd]. unfold absorb at 1.
  rewrite length_app. fold (absorb h x). rewrite absorb_rest_length.
  reflexivity.
Qed.

Lemma update_inv (h : sha256_obj) (data : pybytes) :
  hash_inv h -> hash_inv (update h data).
Proof.
  intros [Hc Hp]. unfold update.
  destruct (absorb (chain h) (pending h ++ map Byte.to_N data))
    as [c rest] eqn:E.
  split; cbn [chain pending].
  - change c with (fst (c, rest)). rewrite <- E. unfold absorb.
    apply absorb_n_chain, Hc.
  - change rest with (snd (c, rest)). rewrite <- E, absorb_rest_length.
    apply Nat.mod_upper_bound. lia.
Qed.

Lemma sha256_inv : hash_inv sha256.
Proof. split; cbn; lia. Qed.

Lemma update_nil (h : sha256_obj) : hash_inv h -> update h [] = h.
Proof.
  intros [Hc Hp]. unfold update, absorb. cbn [map length].
  rewrite app_nil_r, Nat.div_small by exact Hp.
  cbn [absorb_n]. destruct h as [c p n]. cbn [chain pending fed].
  rewrite N.add_0_r. reflexivity.
Qed.

(** Feeding two chunks one after the other is feeding their concatenation. *)
Lemma update_app (h : sha256_obj) (a b : pybytes) :
  update (update h a) b = update h (a ++ b).
Proof.
  unfold update.
  destruct (absorb (chain h) (pending h ++ map Byte.to_N a))
    as [c rest] eqn:E.
  cbn [chain pending fed].
  rewrite map_app, app_assoc.
  rewrite (@absorb_app (chain h) (pending h ++ map Byte.to_N a)
             (map Byte.to_N b)), E.
  cbn [fst snd].
  destruct (absorb c (rest ++ map Byte.to_N b)) as [c' rest'].
  rewrite length_app, Nat2N.inj_add, N.add_assoc. reflexivity.
Qed.

Lemma update_chunks (chunks : list pybytes) (h : sha256_obj) :
  hash_inv h ->
  fold_left update chunks h = update h (concat chunks).
Proof.
  revert h. induction chunks as [|c cs IH]; intros h Hh.
  - symmetry. apply update_nil, Hh.
  - cbn [fold_left concat]. rewrite IH by (apply update_inv, Hh).
    apply update_app.
Qed.

Lemma flat_map_length_const (A B : Type) (f : A -> list B) (k : nat)
      (l : list A) :
  (forall x, length (f x) = k) -> length (flat_map f l) = (k * length l)%nat.
Proof.
  intros Hf. induction l as [|x l IH]; cbn [flat_map length]; [lia|].
  rewrite length_app, Hf, IH. lia.
Qed.

(** The hex digest is 64 characters: 256 bits. *)
Lemma hexdigest_length (h : sha256_obj) :
  hash_inv h -> length (hexdigest h) = 64%nat.
Proof.
  intros [Hc _]. unfold hexdigest, hex, digest.
  destruct (absorb _ _) as [c rest] eqn:E.
  assert (length c = 8%nat) as Hlen.
  { change c with (fst (c, rest)). rewrite <- E. unfold absorb.
    apply absorb_n_chain, Hc. }
  rewrite (@flat_map_length_const _ _ _ 2%nat) by reflexivity.
  rewrite (@flat_map_length_const _ _ _ 4%nat) by reflexivity.
  rewrite Hlen. reflexivity.
Qed.

(** The model of the hash on the two standard test vectors. *)
Example sha256_abc :
  hexdigest (update sha256 (map byte_of (u "abc")))
  = u "ba7816bf8f01cfea414140de5dae2223b00361a396177a9cb410ff61f20015ad".
Proof. vm_compute. reflexivity. Qed.

Example sha256_empty :
  hexdigest sha256
  = u "e3b0c44298fc1c149afbf4c8996fb92427ae41e4649b934ca495991b7852b855".
Proof. vm_compute. reflexivity. Qed.

(** A message of 56 bytes: the padding spills into a second block. *)
Example sha256_two_blocks :
  hexdigest (update sha256 (map byte_of
    (u "abcdbcdecdefdefgefghfghighijhijkijkljklmklmnlmnomnopnopq")))
  = u "248d6a61d20638b8e5c026930c3e6039a33ce45964ff2167f6ecedd419db06c1".
Proof. vm_compute. reflexivity. Qed.

End HashlibFacts.

Section ChecksumFacts.
Import Hashlib.

(** The chunked reading loop feeds the whole content of the file. *)
Lemma read_loop_update (h : sha256_obj) (f : fileobj) :
  hash_inv h -> Deployer.read_loop h f = update h f.
Proof.
  funelim (Deployer.read_loop h f); intros Hh.
  - destruct f as [|x f].
    + symmetry. apply update_nil, Hh.
    + match goal with
      | E : firstn Deployer.CHUNK _ = [] |- _ => discriminate E
      end.
  - match goal with
    | IH : hash_inv _ -> Deployer.read_loop _ _ = update _ _,
      E : firstn Deployer.CHUNK f = _ |- _ =>
        rewrite IH by (apply update_inv, Hh);
        rewrite update_app, <- E, firstn_skipn; reflexivity
    end.
Qed.

Lemma calculate_checksum_eq (fs : node) (filepath : Path) (bs : pybytes) :
  read_bytes fs filepath = Ok bs ->
  Deployer.calculate_checksum fs filepath
  = Ok (hexdigest (update sha256 bs)).
Proof.
  intros Hr. unfold Deployer.calculate_checksum. rewrite Hr. simpl.
  rewrite read_loop_update by apply sha256_inv. reflexivity.
Qed.

End ChecksumFacts.

(* ===================================================================== *)
(** * Properties of the manifest builder *)
(* ===================================================================== *)

Section ManifestFacts.
Import Hashlib.

Variable fs : node.
Variable utcnow : nat -> pystr.

Lemma read_bytes_inv (filepath : Path) (bs : pybytes) :
  read_bytes fs filepath = Ok bs ->
  resolve fs filepath = Some (File true bs).
Proof.
  unfold read_bytes. destruct (resolve fs filepath) as [[[|] data| |]|];
    intros H; try discriminate H.
  injection H as ->. reflexivity.
Qed.

Lemma st_size_readable (filepath : Path) (bs : pybytes) :
  read_bytes fs filepath = Ok bs ->
  st_size fs filepath = Ok (Z.of_nat (length bs)).
Proof.
  intros H. unfold st_size. rewrite (read_bytes_inv _ H). reflexivity.
Qed.

(** The manifest of a readable file, for a route with the three fields. *)
Lemma create_manifest_ok (filepath : Path) (route : value) (content : pystr)
      (is_binary : bool) (self : Deployer.deployer) (bs : pybytes)
      (repo description : value) (prefix : pystr) :
  read_bytes fs filepath = Ok bs ->
  subscript route (u "repo") = Ok repo ->
  subscript route (u "path") = Ok (VStr prefix) ->
  subscript route (u "description") = Ok description ->
  exists self',
    Deployer.create_deployment_manifest fs utcnow filepath route content
                                        is_binary self
    = (Ok (VDict
             [(u "source_file", VStr (str filepath));
              (u "filename", VStr (name filepath));
              (u "target_repo", repo);
              (u "target_path", VStr (prefix ++ name filepath));
              (u "description", description);
              (u "is_binary", VBool is_binary);
              (u "checksum", VStr (hexdigest (update sha256 bs)));
              (u "size_bytes", VInt (Z.of_nat (length bs)));
              (u "created_at",
               VStr (utcnow (Deployer.clock self) ++ u "Z"));
              (u "deployed_by", VStr (u "claude-ai-deployer"));
              (u "version", VStr (u "1.0.0"))]), self') /\
    Deployer.deployment_log self' = Deployer.deployment_log self /\
    Deployer.github_token self' = Deployer.github_token self /\
    Deployer.github_api self' = Deployer.github_api self /\
    Deployer.github_user self' = Deployer.github_user self /\
    Deployer.outputs_dir self' = Deployer.outputs_dir self.
Proof.
  intros Hr H1 H2 H3.
  unfold Deployer.create_deployment_manifest, Deployer.bindM, Deployer.lift,
    Deployer.ret, Deployer.timestamp.
  rewrite (calculate_checksum_eq _ _ Hr), H1, H2, H3.
  cbn [add_str]. rewrite (st_size_readable _ Hr).
  eexists. split; [reflexivity|]. repeat split.
Qed.

(** Whatever the manifest builder is given as content and encoding flag,
    the checksum it records is the digest of the bytes of the file. *)
Lemma create_manifest_checksum (filepath : Path) (route : value)
      (content : pystr) (is_binary : bool) (self self' : Deployer.deployer)
      (bs : pybytes) (m : value) :
  read_bytes fs filepath = Ok bs ->
  Deployer.create_deployment_manifest fs utcnow filepath route content
                                      is_binary self = (Ok m, self') ->
  subscript m (u "checksum") = Ok (VStr (hexdigest (update sha256 bs))).
Proof.
  intros Hr.
  unfold Deployer.create_deployment_manifest, Deployer.bindM, Deployer.lift,
    Deployer.ret, Deployer.timestamp.
  rewrite (calculate_checksum_eq _ _ Hr), (st_size_readable _ Hr).
  destruct (subscript route (u "repo")); [|discriminate].
  destruct (subscript route (u "path")) as [p|]; [|discriminate].
  destruct (add_str p (VStr (name filepath))); [|discriminate].
  destruct (subscript route (u "description")); [|discriminate].
  intros H. injection H as <- _. reflexivity.
Qed.

End ManifestFacts.

(** C6. For a readable file, [calculate_checksum] returns the SHA-256 of the
    bytes of the file as 64 hex characters. It is a function of the bytes
    alone, so any two calls on the same bytes agree; feeding the bytes to
    the hash in chunks, however they are cut, gives the digest of the whole
    content; and the checksum in the manifest is that digest whether the
    content was passed as text or as base64. *)
Theorem checksum_raw_bytes (fs : node) (filepath : Path) (bs : pybytes) :
  read_bytes fs filepath = Ok bs ->
  Deployer.calculate_checksum fs filepath
  = Ok (Hashlib.hexdigest (Hashlib.update Hashlib.sha256 bs)) /\
  length (Hashlib.hexdigest (Hashlib.update Hashlib.sha256 bs)) = 64%nat /\
  (forall fs' filepath',
      read_bytes fs' filepath' = Ok bs ->
      Deployer.calculate_checksum fs' filepath'
      = Deployer.calculate_checksum fs filepath) /\
  (forall chunks,
      concat chunks = bs ->
      Hashlib.hexdigest (fold_left Hashlib.update chunks Hashlib.sha256)
      = Hashlib.hexdigest (Hashlib.update Hashlib.sha256 bs)) /\
  (forall utcnow route content is_binary self m self',
      Deployer.create_deployment_manifest fs utcnow filepath route content
                                          is_binary self = (Ok m, self') ->
      subscript m (u "checksum")
      = Ok (VStr (Hashlib.hexdigest (Hashlib.update Hashlib.sha256 bs)))).
Proof.
  intros Hr. repeat split.
  - apply calculate_checksum_eq, Hr.
  - apply hexdigest_length, update_inv, sha256_inv.
  - intros fs' filepath' Hr'.
    rewrite (calculate_checksum_eq _ _ Hr), (calculate_checksum_eq _ _ Hr').
    reflexivity.
  - intros chunks <-. rewrite update_chunks by apply sha256_inv. reflexivity.
  - intros utcnow route content is_binary self m self' H.
    exact (@create_manifest_checksum fs utcnow filepath route content
             is_binary self self' bs m Hr H).
Qed.

Lemma checksum_raw_bytes_witness :
  Deployer.calculate_checksum
    (Dir [(u "abc.txt", File true (map byte_of (u "abc")))]) [u "abc.txt"]
  = Ok (u "ba7816bf8f01cfea414140de5dae2223b00361a396177a9cb410ff61f20015ad").
Proof.
  refine (eq_trans
            (proj1 (@checksum_raw_bytes
                      (Dir [(u "abc.txt", File true (map byte_of (u "abc")))])
                      [u "abc.txt"] (map byte_of (u "abc")) eq_refl)) _).
  vm_compute. reflexivity.
Defined.

(** C7. The manifest built for a file and a routing decision has, as
    target_path, the path prefix of the decision followed by the bare file
    name: the directories of the source path leave no trace in it. *)
Theorem manifest_target_path (fs : node) (utcnow : nat -> pystr)
        (dir : Path) (filename : pystr) (route : value) (content : pystr)
        (is_binary : bool) (self : Deployer.deployer) (bs : pybytes)
        (repo description : value) (prefix : pystr) :
  read_bytes fs (dir ++ [filename]) = Ok bs ->
  subscript route (u "repo") = Ok repo ->
  subscript route (u "path") = Ok (VStr prefix) ->
  subscript route (u "description") = Ok description ->
  exists m self',
    Deployer.create_deployment_manifest fs utcnow (dir ++ [filename]) route
                                        content is_binary self
    = (Ok m, self') /\
    subscript m (u "target_path") = Ok (VStr (prefix ++ filename)).
Proof.
  intros Hr H1 H2 H3.
  destruct (@create_manifest_ok fs utcnow (dir ++ [filename]) route content
              is_binary self bs repo description prefix Hr H1 H2 H3)
    as (self' & E & _).
  eexists. exists self'. split; [exact E|].
  rewrite name_snoc. reflexivity.
Qed.

Lemma manifest_target_path_witness :
  let fs := Dir [(u "outputs",
                  Dir [(u "q3", Dir [(u "report.pdf",
                                      File true (map byte_of (u "%PDF")))])])] in
  exists m self',
    Deployer.create_deployment_manifest
      fs (fun _ => u "2025-01-03T00:00:00") [u "outputs"; u "q3"; u "report.pdf"]
      (destination "life-os" "reports/" "PDF report" (u "report.pdf"))
      (u "%PDF") false (Deployer.new_deployer [u "outputs"] (u "t0ken"))
    = (Ok m, self') /\
    subscript m (u "target_path") = Ok (VStr (u "reports/report.pdf")).
Proof.
  exact (@manifest_target_path
           (Dir [(u "outputs",
                  Dir [(u "q3", Dir [(u "report.pdf",
                                      File true (map byte_of (u "%PDF")))])])])
           (fun _ => u "2025-01-03T00:00:00") [u "outputs"; u "q3"]
           (u "report.pdf")
           (destination "life-os" "reports/" "PDF report" (u "report.pdf"))
           (u "%PDF") false (Deployer.new_deployer [u "outputs"] (u "t0ken"))
           (map byte_of (u "%PDF"))
           (VStr (u "life-os")) (VStr (u "PDF report")) (u "reports/")
           eq_refl eq_refl eq_refl eq_refl).
Defined.

(* ===================================================================== *)
(** * Properties of the orchestrator *)
(* ===================================================================== *)

Section ScanFacts.

Variable fs : node.

Lemma is_file_inv (p : Path) :
  is_file fs p = true ->
  exists readable data, resolve fs p = Some (File readable data).
Proof.
  unfold is_file. destruct (resolve fs p) as [[r d| |]|]; try discriminate.
  eauto.
Qed.

End ScanFacts.



(** C2, on the code. With one unreadable and one readable file in the
    outputs directory, [deploy_all] returns two entries, a failed one that
    carries the text of the error and a prepared one; but the failed entry
    is only in the returned list: the deployment log holds the prepared
    entry alone, and the report counts no failure. *)
Theorem deploy_all_failure_not_logged :
  let fs := Dir [(u "outputs",
                  Dir [(u "locked.txt", File false (map byte_of (u "secret")));
                       (u "notes.md", File true (map byte_of (u "hi")))])] in
  let utcnow := fun n : nat => u "2025-01-03T00:00:0" ++ [48 + N.of_nat n] in
  let run := Deployer.deploy_all fs utcnow
               (Deployer.new_deployer [u "outputs"] (u "t0ken")) in
  (exists prepared,
      fst run
      = Ok [VDict [(u "status", VStr (u "failed"));
                   (u "error",
                    VStr (u "[Errno 13] Permission denied: '/outputs/locked.txt'"));
                   (u "filepath", VStr (u "/outputs/locked.txt"))];
            prepared] /\
      subscript prepared (u "status") = Ok (VStr (u "prepared")) /\
      subscript prepared (u "path") = Ok (VStr (u "docs/notes.md")) /\
      exists manifest timestamp,
        Deployer.deployment_log (snd run)
        = [VDict [(u "filepath", VStr (u "/outputs/notes.md"));
                  (u "manifest", manifest);
                  (u "result", prepared);
                  (u "timestamp", timestamp)]]) /\
  Deployer.report_counts (snd run) = Ok (1, 1, 0)%nat.
Proof.
  vm_compute. split; [|reflexivity].
  eexists. split; [reflexivity|]. split; [reflexivity|].
  split; [reflexivity|]. eexists. eexists. reflexivity.
Qed.

(* ===================================================================== *)
(** * Properties of the verifier *)
(* ===================================================================== *)

Section VerifierFacts.

Lemma str_eqb_eq (a b : pystr) : str_eqb a b = true <-> a = b.
Proof.
  revert b. induction a as [|x a IH]; intros [|y b]; simpl; split;
    intros H; try reflexivity; try discriminate.
  - apply andb_true_iff in H. destruct H as [Hx Ha].
    apply N.eqb_eq in Hx. apply IH in Ha. subst. reflexivity.
  - injection H as -> ->. rewrite N.eqb_refl. apply IH. reflexivity.
Qed.

Lemma http_code_200 (status : N) :
  status < 1000 ->
  str_eqb (strip (http_code status)) (u "200") = (status =? 200).
Proof.
  intros Hs.
  assert (forallb (fun n => Bool.eqb
                              (str_eqb (strip (http_code (N.of_nat n)))
                                       (u "200"))
                              (N.of_nat n =? 200))
                  (seq 0 1000) = true) as Hall
      by (vm_compute; reflexivity).
  rewrite forallb_forall in Hall.
  specialize (Hall (N.to_nat status)).
  rewrite N2Nat.id in Hall. apply eqb_prop, Hall.
  apply in_seq. lia.
Qed.

End VerifierFacts.

(** C1, on the code. On a log with no entry, [verify_all] raises
    ZeroDivisionError: the percentages of the printed summary divide by the
    total before the guarded success rate is computed. *)
Theorem verify_all_empty_log_raises
        (subprocess_run : list pystr -> result pystr) (log : value) :
  get log (u "deployments") (VList []) = Ok (VList []) ->
  Verifier.verify_all subprocess_run (Verifier.new_verifier log)
  = Raise ZeroDivisionError.
Proof.
  intros H. unfold Verifier.verify_all. cbn [Verifier.log_data Verifier.new_verifier].
  rewrite H. reflexivity.
Qed.

Lemma verify_all_empty_log_raises_witness :
  Verifier.verify_all (fun _ => Ok (u "200"))
    (Verifier.new_verifier
       (VDict [(u "version", VStr (u "1.0.0"));
               (u "timestamp", VStr (u "2025-01-03T00:00:00Z"));
               (u "total_deployments", VInt 0);
               (u "deployments", VList [])]))
  = Raise ZeroDivisionError.
Proof.
  apply (@verify_all_empty_log_raises (fun _ => Ok (u "200"))). reflexivity.
Defined.

(* ===================================================================== *)
(** * The deployment log across a run *)
(* ===================================================================== *)

Section LogFacts.

Variable fs : node.
Variable utcnow : nat -> pystr.

Import Deployer.

Lemma bindM_lift (A B : Type) (r : result A) (k : A -> M B) (self : deployer) :
  bindM (lift r) k self
  = match r with
    | Ok a => k a self
    | Raise e => (Raise e, self)
    end.
Proof. destruct r; reflexivity. Qed.

Lemma bindM_run (A B : Type) (m : M A) (k : A -> M B) (self : deployer) :
  bindM m k self
  = match m self with
    | (Ok a, self') => k a self'
    | (Raise e, self') => (Raise e, self')
    end.
Proof. reflexivity. Qed.

(** Building a manifest leaves the log as it is. *)
Lemma create_manifest_log (filepath : Path) (route : value) (content : pystr)
      (is_binary : bool) (self self' : deployer) (r : result value) :
  create_deployment_manifest fs utcnow filepath route content is_binary self
  = (r, self') ->
  deployment_log self' = deployment_log self.
Proof.
  unfold create_deployment_manifest.
  repeat (rewrite bindM_lift;
          match goal with
          | |- context [match ?x with Ok _ => _ | Raise _ => _ end] =>
              destruct x
          end;
          [|intros H; injection H as _ <-; reflexivity]).
  unfold bindM, timestamp, ret. intros H. injection H as _ <-. reflexivity.
Qed.

(** Preparing the push leaves the object as it is, and what it returns has
    the status prepared. *)
Lemma push_to_github_result (manifest : value) (content : pystr)
      (self self' : deployer) (r : result value) :
  push_to_github manifest content self = (r, self') ->
  self' = self /\
  forall res, r = Ok res -> subscript res (u "status") = Ok (VStr (u "prepared")).
Proof.
  unfold push_to_github. rewrite bindM_run. unfold self_.
  repeat (rewrite bindM_lift;
          match goal with
          | |- context [match ?x with Ok _ => _ | Raise _ => _ end] =>
              destruct x
          end;
          [|intros H; injection H as <- <-; split;
            [reflexivity|intros res Hres; discriminate Hres]]).
  unfold ret. intros H. injection H as <- <-. split; [reflexivity|].
  intros res Hres. injection Hres as <-. reflexivity.
Qed.

(** [deploy_file] writes to the log only when it returns, and then one
    entry whose result has the status prepared; when it raises, the log is
    as before. *)
Lemma deploy_file_log (filepath : Path) (self self' : deployer)
      (r : result value) :
  deploy_file fs utcnow filepath self = (r, self') ->
  match r with
  | Ok res =>
      subscript res (u "status") = Ok (VStr (u "prepared")) /\
      exists entry,
        logged res entry /\
        deployment_log self' = deployment_log self ++ [entry]
  | Raise _ => deployment_log self' = deployment_log self
  end.
Proof.
  unfold deploy_file.
  rewrite bindM_lift. destruct (route_file filepath) as [route|e];
    [|intros H; injection H as <- <-; reflexivity].
  rewrite bindM_lift. destruct (subscript route (u "repo"));
    [|intros H; injection H as <- <-; reflexivity].
  rewrite bindM_lift. destruct (subscript route (u "path"));
    [|intros H; injection H as <- <-; reflexivity].
  rewrite bindM_lift. destruct (encode_file fs filepath) as [[content b]|e];
    [|intros H; injection H as <- <-; reflexivity].
  rewrite bindM_run.
  destruct (create_deployment_manifest fs utcnow filepath route content b self)
    as [[manifest|e] self1] eqn:Em;
    apply create_manifest_log in Em;
    [|intros H; injection H as <- <-; exact Em].
  rewrite bindM_lift. destruct (subscript manifest (u "checksum")) as [c|e];
    [|intros H; injection H as <- <-; exact Em].
  rewrite bindM_lift. destruct (as_str c);
    [|intros H; injection H as <- <-; exact Em].
  rewrite bindM_run.
  destruct (push_to_github manifest content self1) as [[res|e] self2] eqn:Ep;
    apply push_to_github_result in Ep; destruct Ep as [-> Hst];
    [|intros H; injection H as <- <-; exact Em].
  rewrite bindM_lift. destruct (subscript res (u "status")) as [st|e];
    [|intros H; injection H as <- <-; exact Em].
  rewrite bindM_lift. destruct (as_str st);
    [|intros H; injection H as <- <-; exact Em].
  unfold bindM, timestamp, log_append, ret. cbn [deployment_log clock].
  intros H. injection H as <- <-. cbn [deployment_log].
  split; [apply Hst; reflexivity|].
  eexists. split; [|rewrite Em; reflexivity].
  exists filepath, manifest. eexists. reflexivity.
Qed.

End LogFacts.

Section RunFacts.

Variable fs : node.
Variable utcnow : nat -> pystr.

Import Deployer.

Lemma is_prepared_failed (e : exn) (filepath : Path) :
  is_prepared (failed_result e filepath) = false.
Proof. reflexivity. Qed.

Lemma is_prepared_status (res : value) :
  subscript res (u "status") = Ok (VStr (u "prepared")) ->
  is_prepared res = true.
Proof. unfold is_prepared. intros ->. reflexivity. Qed.

(** The loop of [deploy_all] never raises. It adds one result per file, in
    order: the failed entry of the exception, or a prepared result. The log
    receives the prepared results only. *)
Lemma deploy_each_spec (files : list Path) :
  forall (results : list value) (self : deployer),
  exists rs entries self',
    deploy_each fs utcnow files results self = (Ok (results ++ rs), self') /\
    Forall2 outcome files rs /\
    deployment_log self' = deployment_log self ++ entries /\
    Forall2 logged (filter is_prepared rs) entries.
Proof.
  induction files as [|f files IH]; intros results self.
  - exists [], [], self. rewrite !app_nil_r. repeat split; constructor.
  - cbn [deploy_each]. rewrite bindM_run. unfold try_except.
    destruct (deploy_file fs utcnow f self) as [[res|e] self1] eqn:Ef;
      apply deploy_file_log in Ef.
    + destruct Ef as (Hst & entry & Hlog & El).
      destruct (IH (results ++ [res]) self1)
        as (rs & entries & self' & E & Hout & Hl & Hin).
      exists (res :: rs), (entry :: entries), self'.
      rewrite E, <- app_assoc. split; [reflexivity|].
      split; [constructor; [right; exact Hst|exact Hout]|].
      split; [rewrite Hl, El, <- app_assoc; reflexivity|].
      cbn [filter]. rewrite (is_prepared_status _ Hst).
      constructor; assumption.
    + unfold ret.
      destruct (IH (results ++ [failed_result e f]) self1)
        as (rs & entries & self' & E & Hout & Hl & Hin).
      exists (failed_result e f :: rs), entries, self'.
      rewrite E, <- app_assoc. split; [reflexivity|].
      split; [constructor; [left; eauto|exact Hout]|].
      split; [rewrite Hl, Ef; reflexivity|].
      cbn [filter]. rewrite is_prepared_failed. exact Hin.
Qed.

(** [deploy_all] never raises and returns one entry per scanned file; the
    entries of failed files are in the returned list only. *)
Lemma deploy_all_spec (self : deployer) :
  exists rs entries self',
    deploy_all fs utcnow self = (Ok rs, self') /\
    Forall2 outcome (scan_outputs fs self) rs /\
    deployment_log self' = deployment_log self ++ entries /\
    Forall2 logged (filter is_prepared rs) entries.
Proof.
  unfold deploy_all. rewrite bindM_run. unfold self_.
  destruct (scan_outputs fs self) as [|f files] eqn:Es.
  - exists [], [], self. unfold ret. rewrite app_nil_r.
    repeat split; constructor.
  - destruct (deploy_each_spec (f :: files) [] self)
      as (rs & entries & self' & E & H).
    exists rs, entries, self'. split; [exact E|exact H].
Qed.

Lemma count_status_logged (rs entries : list value) :
  Forall2 logged (filter is_prepared rs) entries ->
  count_status (u "prepared") entries = Ok (length entries) /\
  count_status (u "failed") entries = Ok O.
Proof.
  generalize (filter is_prepared rs) (fun r => proj1 (filter_In is_prepared r rs)).
  intros l Hl F. induction F as [|res entry l entries Hlog _ IH].
  - split; reflexivity.
  - destruct IH as [IHp IHf]; [intros r Hr; apply Hl; right; exact Hr|].
    destruct (Hl res (or_introl eq_refl)) as [_ Hp].
    destruct Hlog as (fp & m & now & ->).
    unfold is_prepared in Hp.
    cbn [count_status]. unfold log_status_is.
    change (subscript (VDict [(u "filepath", VStr (str fp)); (u "manifest", m);
                              (u "result", res); (u "timestamp", VStr now)])
                      (u "result")) with (Ok res).
    cbn [bind].
    destruct (subscript res (u "status")) as [[| | | |s| |]|]; try discriminate.
    cbn [bind]. rewrite Hp, IHp, IHf. cbn [bind].
    apply str_eqb_eq in Hp. subst s. split; reflexivity.
Qed.

(** After [deploy_all] on a fresh deployer, the report counts every log
    entry as prepared and none as failed, whatever failed during the run. *)
Lemma report_counts_after_run (outputs : Path) (token : pystr) :
  exists rs self',
    deploy_all fs utcnow (new_deployer outputs token) = (Ok rs, self') /\
    length rs = length (scan_outputs fs (new_deployer outputs token)) /\
    report_counts self'
    = Ok (length (deployment_log self'), length (deployment_log self'), O).
Proof.
  destruct (deploy_all_spec (new_deployer outputs token))
    as (rs & entries & self' & E & Hout & Hl & Hin).
  exists rs, self'. split; [exact E|].
  split; [symmetry; exact (Forall2_length Hout)|].
  unfold report_counts. cbn [deployment_log new_deployer app] in Hl.
  rewrite Hl. destruct (count_status_logged _ Hin) as [-> ->]. reflexivity.
Qed.

End RunFacts.

Section Utf8Facts.

Ltac bprop :=
  repeat match goal with
         | H : (_ && _) = true |- _ =>
             apply andb_true_iff in H; destruct H
         | H : (_ <=? _) = true |- _ => apply N.leb_le in H
         | H : (_ <? _) = true |- _ => apply N.ltb_lt in H
         | H : (_ <? _) = false |- _ => apply N.ltb_ge in H
         | H : (_ =? _) = true |- _ => apply N.eqb_eq in H
         | H : (_ =? _) = false |- _ => apply N.eqb_neq in H
         end.

Lemma scalar_spec (c : N) :
  scalar c = true <-> c < 55296 \/ (57344 <= c /\ c < 1114112).
Proof.
  unfold scalar. rewrite orb_true_iff, andb_true_iff, !N.ltb_lt, N.leb_le.
  reflexivity.
Qed.

Lemma option_map_cons_inv (c : N) (o : option pystr) (text : pystr) :
  option_map (cons c) o = Some text ->
  exists rest, o = Some rest /\ text = c :: rest.
Proof.
  destruct o as [rest|]; [|discriminate].
  intros H. injection H as <-. eauto.
Qed.

(** Text decoded from UTF-8 consists of scalar values. *)
Lemma utf8_decode_scalar (bs : list N) (text : pystr) :
  utf8_decode_vals bs = Some text ->
  Forall (fun c => scalar c = true) text.
Proof.
  remember (length bs) as n eqn:Hn.
  assert (length bs <= n)%nat as Hle by lia. clear Hn.
  revert bs text Hle. induction n as [|n IH]; intros bs text Hle.
  - destruct bs; [|simpl in Hle; lia].
    intros H. injection H as <-. constructor.
  - destruct bs as [|b0 t0]; [intros H; injection H as <-; constructor|].
    cbn [utf8_decode_vals]. cbn [length] in Hle.
    destruct (b0 <? 128) eqn:E1.
    { intros H. apply option_map_cons_inv in H.
      destruct H as (rest & Hd & ->).
      constructor; [apply scalar_spec; bprop; lia|].
      apply (IH t0); [lia|exact Hd]. }
    destruct ((194 <=? b0) && (b0 <=? 223)) eqn:E2.
    { destruct t0 as [|b1 t1]; [discriminate|].
      destruct (cont b1) eqn:C1; [|discriminate].
      intros H. apply option_map_cons_inv in H.
      destruct H as (rest & Hd & ->). cbn [length] in Hle.
      constructor; [|apply (IH t1); [lia|exact Hd]].
      apply scalar_spec. unfold cont in C1. bprop. lia. }
    destruct ((224 <=? b0) && (b0 <=? 239)) eqn:E3.
    { destruct t0 as [|b1 [|b2 t2]]; try discriminate.
      destruct (second3 b0 b1 && cont b2) eqn:C; [|discriminate].
      intros H. apply option_map_cons_inv in H.
      destruct H as (rest & Hd & ->). cbn [length] in Hle.
      constructor; [|apply (IH t2); [lia|exact Hd]].
      apply scalar_spec. apply andb_true_iff in C. destruct C as [C1 C2].
      unfold second3 in C1. unfold cont in *.
      destruct (b0 =? 224) eqn:A1; [|destruct (b0 =? 237) eqn:A2];
        bprop; lia. }
    destruct ((240 <=? b0) && (b0 <=? 244)) eqn:E4; [|discriminate].
    destruct t0 as [|b1 [|b2 [|b3 t3]]]; try discriminate.
    destruct (second4 b0 b1 && cont b2 && cont b3) eqn:C; [|discriminate].
    intros H. apply option_map_cons_inv in H.
    destruct H as (rest & Hd & ->). cbn [length] in Hle.
    constructor; [|apply (IH t3); [lia|exact Hd]].
    apply scalar_spec. apply andb_true_iff in C. destruct C as [C C3].
    apply andb_true_iff in C. destruct C as [C1 C2].
    unfold second4 in C1. unfold cont in *.
    destruct (b0 =? 240) eqn:A1; [|destruct (b0 =? 244) eqn:A2];
      bprop; lia.
Qed.

Lemma universal_newlines_scalar (s : pystr) :
  Forall (fun c => scalar c = true) s ->
  Forall (fun c => scalar c = true) (universal_newlines s).
Proof.
  remember (length s) as n eqn:Hn.
  assert (length s <= n)%nat as Hle by lia. clear Hn.
  revert s Hle. induction n as [|n IH]; intros s Hle F.
  - destruct s; [constructor|simpl in Hle; lia].
  - destruct s as [|c s']; [constructor|].
    cbn [universal_newlines]. cbn [length] in Hle.
    inversion F as [|? ? Hc F']; subst.
    destruct (c =? CR).
    + destruct s' as [|d s'']; [repeat constructor|].
      inversion F' as [|? ? Hd F'']; subst. cbn [length] in Hle.
      destruct (d =? LF); constructor; try reflexivity;
        apply IH; try assumption; cbn [length]; lia.
    + constructor; [exact Hc|]. apply IH; [lia|exact F'].
Qed.

Lemma b64char_scalar (i : N) : scalar (b64char i) = true.
Proof.
  apply scalar_spec. left. unfold b64char.
  destruct (N.ltb_spec i 26); [lia|]. destruct (N.ltb_spec i 52); [lia|].
  destruct (N.ltb_spec i 62); [lia|]. destruct (N.eqb_spec i 62); lia.
Qed.

Lemma b64encode_scalar (l : list N) :
  Forall (fun c => scalar c = true) (b64encode_vals l).
Proof.
  induction l as [|a|a b|a b c l IH] using list_ind3;
    cbn [b64encode_vals]; repeat constructor;
    try apply b64char_scalar; assumption.
Qed.

(** Text made of scalar values can be encoded. *)
Lemma utf8_encode_ok (s : pystr) :
  Forall (fun c => scalar c = true) s -> exists bs, utf8_encode s = Ok bs.
Proof.
  induction 1 as [|c s Hc _ (bs & IH)]; cbn [utf8_encode].
  - eauto.
  - rewrite Hc, IH. cbn [bind]. eauto.
Qed.

End Utf8Facts.

Section PipelineFacts.

Variable fs : node.
Variable utcnow : nat -> pystr.

Import Deployer.

(** The dict [route_file] returns has string fields. *)
Lemma route_file_fields (filepath : Path) :
  exists repo prefix description,
    route_file filepath
    = Ok (VDict [(u "repo", VStr repo); (u "path", VStr prefix);
                 (u "description", VStr description);
                 (u "filename", VStr (name filepath))]).
Proof.
  unfold route_file. generalize (name filepath) as n. intros n.
  unfold ROUTING_RULES. cbn [route_rules].
  repeat match goal with
         | |- exists repo prefix description,
               (if re_match ?p n then _ else _) = _ =>
             destruct (re_match p n);
             [do 3 eexists; reflexivity|]
         end.
  do 3 eexists. reflexivity.
Qed.

Lemma encode_file_unreadable (filepath : Path) (e : exn) :
  read_bytes fs filepath = Raise e -> encode_file fs filepath = Raise e.
Proof.
  intros H. unfold encode_file, read_text. rewrite H. cbn [bind].
  destruct e; reflexivity.
Qed.

Lemma encode_file_readable (filepath : Path) (bs : pybytes) :
  read_bytes fs filepath = Ok bs ->
  exists content is_binary,
    encode_file fs filepath = Ok (content, is_binary) /\
    Forall (fun c => scalar c = true) content.
Proof.
  intros Hr. destruct (utf8_decode bs) as [text|] eqn:Hd.
  - exists (universal_newlines text), false.
    split; [exact (@encode_file_text fs filepath bs text Hr Hd)|].
    apply universal_newlines_scalar, (utf8_decode_scalar _ Hd).
  - exists (b64encode bs), true.
    split; [exact (@encode_file_binary fs filepath bs Hr Hd)|].
    apply b64encode_scalar.
Qed.

Lemma generate_curl_command_ok (self : deployer) (manifest : value)
      (content : pystr) (repo path filename description : value) :
  subscript manifest (u "target_repo") = Ok repo ->
  subscript manifest (u "target_path") = Ok path ->
  subscript manifest (u "filename") = Ok filename ->
  subscript manifest (u "description") = Ok description ->
  Forall (fun c => scalar c = true) content ->
  exists cmd, generate_curl_command self manifest content = Ok cmd.
Proof.
  intros H1 H2 H3 H4 Hc. unfold generate_curl_command.
  rewrite H1, H2, H3, H4. cbn [bind].
  destruct (utf8_encode_ok Hc) as (payload & ->). cbn [bind]. eauto.
Qed.

Lemma push_to_github_ok (self : deployer) (manifest : value)
      (content : pystr) (repo path filename description : value) :
  subscript manifest (u "target_repo") = Ok repo ->
  subscript manifest (u "target_path") = Ok path ->
  subscript manifest (u "filename") = Ok filename ->
  subscript manifest (u "description") = Ok description ->
  Forall (fun c => scalar c = true) content ->
  exists res, push_to_github manifest content self = (Ok res, self).
Proof.
  intros H1 H2 H3 H4 Hc. unfold push_to_github.
  rewrite bindM_run. unfold self_.
  rewrite bindM_lift, H1, bindM_lift, H2, bindM_lift.
  destruct (generate_curl_command_ok self _ H1 H2 H3 H4 Hc) as (cmd & ->).
  unfold ret. eauto.
Qed.

(** The pipeline of a readable file returns. *)
Lemma deploy_file_readable (filepath : Path) (bs : pybytes) (self : deployer) :
  read_bytes fs filepath = Ok bs ->
  exists res self', deploy_file fs utcnow filepath self = (Ok res, self').
Proof.
  intros Hr. unfold deploy_file.
  destruct (route_file_fields filepath) as (repo & prefix & descr & ->).
  set (route := VDict _).
  assert (subscript route (u "repo") = Ok (VStr repo)) as R1 by reflexivity.
  assert (subscript route (u "path") = Ok (VStr prefix)) as R2 by reflexivity.
  assert (subscript route (u "description") = Ok (VStr descr)) as R3
      by reflexivity.
  rewrite bindM_lift. cbn beta iota.
  rewrite bindM_lift, R1. cbn beta iota.
  rewrite bindM_lift, R2. cbn beta iota.
  destruct (encode_file_readable _ Hr) as (content & b & -> & Hc).
  rewrite bindM_lift. cbn beta iota.
  destruct (@create_manifest_ok fs utcnow filepath route
              content b self bs (VStr repo) (VStr descr) prefix Hr
              R1 R2 R3) as (self1 & Em & _).
  rewrite bindM_run, Em. cbn beta iota.
  match type of Em with _ = (Ok ?m, _) => set (manifest := m) in * end.
  assert (subscript manifest (u "checksum")
          = Ok (VStr (Hashlib.hexdigest (Hashlib.update Hashlib.sha256 bs))))
    as M1 by reflexivity.
  rewrite bindM_lift, M1. cbn beta iota.
  rewrite bindM_lift. cbn [as_str]. cbn beta iota.
  destruct (@push_to_github_ok self1 manifest content (VStr repo)
              (VStr (prefix ++ name filepath)) (VStr (name filepath))
              (VStr descr) eq_refl eq_refl eq_refl eq_refl Hc)
    as (res & Ep).
  rewrite bindM_run, Ep. cbn beta iota.
  destruct (push_to_github_result _ _ _ Ep) as [_ Hst].
  rewrite bindM_lift, (Hst res eq_refl). cbn beta iota.
  rewrite bindM_lift. cbn [as_str]. cbn beta iota.
  unfold bindM, timestamp, log_append, ret. eauto.
Qed.

(** The pipeline of an unreadable file raises the error of the read and
    leaves the deployer as it was. *)
Lemma deploy_file_unreadable (filepath : Path) (e : exn) (self : deployer) :
  read_bytes fs filepath = Raise e ->
  deploy_file fs utcnow filepath self = (Raise e, self).
Proof.
  intros Hr. unfold deploy_file.
  destruct (route_file_fields filepath) as (repo & prefix & descr & ->).
  set (route := VDict _).
  assert (subscript route (u "repo") = Ok (VStr repo)) as R1 by reflexivity.
  assert (subscript route (u "path") = Ok (VStr prefix)) as R2 by reflexivity.
  rewrite bindM_lift. cbn beta iota.
  rewrite bindM_lift, R1. cbn beta iota.
  rewrite bindM_lift, R2. cbn beta iota.
  rewrite bindM_lift, (encode_file_unreadable _ Hr). reflexivity.
Qed.

(** The scenario of C2 in general: of two scanned files, the first
    unreadable and the second readable (or the other way round),
    [deploy_all] returns the failed entry of the one and a prepared result
    of the other, and only the prepared one is in the log. *)
Lemma deploy_all_two_files (self : deployer) (a b : Path) (e : exn)
      (bs : pybytes) :
  read_bytes fs a = Raise e -> read_bytes fs b = Ok bs ->
  (scan_outputs fs self = [a; b] ->
   exists res entry self',
     deploy_all fs utcnow self = (Ok [failed_result e a; res], self') /\
     subscript res (u "status") = Ok (VStr (u "prepared")) /\
     logged res entry /\
     deployment_log self' = deployment_log self ++ [entry]) /\
  (scan_outputs fs self = [b; a] ->
   exists res entry self',
     deploy_all fs utcnow self = (Ok [res; failed_result e a], self') /\
     subscript res (u "status") = Ok (VStr (u "prepared")) /\
     logged res entry /\
     deployment_log self' = deployment_log self ++ [entry]).
Proof.
  intros Ha Hb. split; intros Hs.
  - unfold deploy_all. rewrite bindM_run. unfold self_. rewrite Hs.
    cbn [deploy_each]. rewrite bindM_run. unfold try_except.
    rewrite (@deploy_file_unreadable a e _ Ha). unfold ret.
    rewrite bindM_run.
    destruct (@deploy_file_readable b bs self Hb) as (res & self' & Ef).
    rewrite Ef. pose proof (@deploy_file_log fs utcnow b self self' (Ok res) Ef)
      as (Hst & entry & Hl & El).
    exists res, entry, self'. repeat split; assumption.
  - unfold deploy_all. rewrite bindM_run. unfold self_. rewrite Hs.
    cbn [deploy_each]. rewrite bindM_run. unfold try_except.
    destruct (@deploy_file_readable b bs self Hb) as (res & self' & Ef).
    rewrite Ef. pose proof (@deploy_file_log fs utcnow b self self' (Ok res) Ef)
      as (Hst & entry & Hl & El).
    rewrite bindM_run.
    rewrite (@deploy_file_unreadable a e _ Ha). unfold ret.
    exists res, entry, self'. repeat split; assumption.
Qed.

End PipelineFacts.

(* ===================================================================== *)
(** * The router as a decision list *)
(* ===================================================================== *)

Section ClassifierFacts.
Import Classifier.

Lemma Forall2_rev_both (A B : Type) (R : A -> B -> Prop) (l : list A)
      (l' : list B) :
  Forall2 R l l' -> Forall2 R (rev l) (rev l').
Proof.
  induction 1 as [|x y l l' Hxy _ IH]; [constructor|].
  cbn [rev]. apply Forall2_app; [exact IH|]. repeat constructor. exact Hxy.
Qed.

Lemma sem_star_inv (r : regex) (s rest : pystr) :
  sem (AnyStar :: r) s rest ->
  exists pre mid,
    s = pre ++ mid /\ Forall (fun c => dot c = true) pre /\ sem r mid rest.
Proof.
  intros H. inversion H as [|? ? ? s1 ? Hi Hr]; subst.
  inversion Hi; subst. eauto.
Qed.

Lemma sem_lit_inv (l : pystr) (r : regex) (s rest : pystr) :
  sem (Lit l :: r) s rest ->
  exists t mid,
    s = t ++ mid /\ Forall2 (fun p c => char_ic p c = true) l t /\
    sem r mid rest.
Proof.
  intros H. inversion H as [|? ? ? s1 ? Hi Hr]; subst.
  inversion Hi; subst. eauto.
Qed.

Lemma sem_alt_inv (bs : list pystr) (r : regex) (s rest : pystr) :
  sem (Alt bs :: r) s rest ->
  exists b t mid,
    In b bs /\ s = t ++ mid /\
    Forall2 (fun p c => char_ic p c = true) b t /\ sem r mid rest.
Proof.
  intros H. inversion H as [|? ? ? s1 ? Hi Hr]; subst.
  inversion Hi; subst. eauto 8.
Qed.

Lemma sem_eol_inv (s rest : pystr) :
  sem [Eol] s rest -> rest = s /\ (s = [] \/ s = [LF]).
Proof.
  intros H. inversion H as [|? ? ? s1 ? Hi Hr]; subst.
  inversion Hr; subst. inversion Hi; subst. auto.
Qed.

(** In a name without a line feed, [$] is the end of the name. *)
Lemma eol_no_newline (pre s rest : pystr) :
  has_newline (pre ++ s) = false -> sem [Eol] s rest -> s = [].
Proof.
  intros Hn H. apply sem_eol_inv in H. destruct H as [_ [->| ->]];
    [reflexivity|].
  rewrite has_newline_app in Hn. apply orb_false_iff in Hn.
  destruct Hn as [_ Hn]. discriminate Hn.
Qed.

Lemma ends_ic_spec (l s : pystr) :
  ends_ic l s = true <->
  exists pre t,
    s = pre ++ t /\ Forall2 (fun p c => char_ic p c = true) l t.
Proof.
  unfold ends_ic. split.
  - destruct (eat (rev l) (rev s)) as [r|] eqn:E; [|discriminate].
    intros _. apply eat_sound in E. destruct E as (t & Es & F).
    exists (rev r), (rev t). split.
    + rewrite <- rev_app_distr, <- Es, rev_involutive. reflexivity.
    + rewrite <- (rev_involutive l). apply Forall2_rev_both, F.
  - intros (pre & t & -> & F). rewrite rev_app_distr.
    rewrite (eat_complete (rev pre) (Forall2_rev_both F)). reflexivity.
Qed.

Lemma contains_ic_eat (a s r : pystr) :
  eat a s = Some r -> contains_ic a s = true.
Proof. intros H. destruct s; cbn [contains_ic]; rewrite H; reflexivity. Qed.

Lemma contains_ic_spec (a s : pystr) :
  contains_ic a s = true <->
  exists p1 t p2,
    s = p1 ++ t ++ p2 /\ Forall2 (fun p c => char_ic p c = true) a t.
Proof.
  split.
  - induction s as [|c s IH]; cbn [contains_ic].
    + destruct (eat a []) as [r|] eqn:E; [|discriminate].
      intros _. apply eat_sound in E. destruct E as (t & Es & F).
      exists [], t, r. auto.
    + destruct (eat a (c :: s)) as [r|] eqn:E.
      * intros _. apply eat_sound in E. destruct E as (t & Es & F).
        exists [], t, r. auto.
      * intros H. destruct (IH H) as (p1 & t & p2 & -> & F).
        exists (c :: p1), t, p2. auto.
  - intros (p1 & t & p2 & -> & F).
    induction p1 as [|c p1 IH].
    + apply (@contains_ic_eat a _ p2). exact (@eat_complete a t p2 F).
    + cbn [contains_ic app]. destruct (eat a (c :: p1 ++ t ++ p2));
        [reflexivity|exact IH].
Qed.

Lemma stem_app (n : nat) (pre t : pystr) :
  length t = n -> stem n (pre ++ t) = pre.
Proof.
  intros <-. unfold stem. rewrite length_app, Nat.add_sub.
  rewrite firstn_app, Nat.sub_diag, firstn_all, firstn_0.
  apply app_nil_r.
Qed.

End ClassifierFacts.

Section PatternShapes.
Import Classifier.

Variable s : pystr.
Hypothesis no_lf : has_newline s = false.

Lemma no_lf_prefix (pre post : pystr) :
  s = pre ++ post -> Forall (fun c => dot c = true) pre.
Proof.
  intros E. apply no_newline_dot. rewrite E, has_newline_app in no_lf.
  apply orb_false_iff in no_lf. tauto.
Qed.

(** A pattern [.*lit$] asks for the ending [lit]. *)
Lemma suffix_rule (l : pystr) :
  re_match [AnyStar; Lit l; Eol] s = ends_ic l s.
Proof.
  apply eq_iff_eq_true. unfold re_match.
  rewrite match_here_sem, ends_ic_spec. split.
  - intros (rest & H).
    apply sem_star_inv in H. destruct H as (pre & m1 & E1 & _ & H).
    apply sem_lit_inv in H. destruct H as (t & m2 & -> & F & H).
    assert (m2 = []) as ->.
    { apply (@eol_no_newline (pre ++ t) m2 rest); [|exact H].
      rewrite <- app_assoc, <- E1. exact no_lf. }
    exists pre, t. rewrite app_nil_r in E1. auto.
  - intros (pre & t & E & F). exists [].
    rewrite E. econstructor; [apply sem_star, (no_lf_prefix _ _ E)|].
    rewrite <- (app_nil_r t).
    econstructor; [apply sem_lit, F|].
    econstructor; [apply sem_eol; auto|constructor].
Qed.

(** A pattern [.*mark.*lit$] asks for the ending [lit] and for [mark]
    somewhere before it. *)
Lemma marker_rule (a l : pystr) :
  re_match [AnyStar; Lit a; AnyStar; Lit l; Eol] s
  = ends_ic l s && contains_ic a (stem (length l) s).
Proof.
  apply eq_iff_eq_true. unfold re_match.
  rewrite match_here_sem, andb_true_iff, ends_ic_spec. split.
  - intros (rest & H).
    apply sem_star_inv in H. destruct H as (p1 & m1 & E1 & _ & H).
    apply sem_lit_inv in H. destruct H as (ta & m2 & -> & Fa & H).
    apply sem_star_inv in H. destruct H as (p2 & m3 & -> & _ & H).
    apply sem_lit_inv in H. destruct H as (tl & m4 & -> & Fl & H).
    assert (m4 = []) as ->.
    { apply (@eol_no_newline (p1 ++ ta ++ p2 ++ tl) m4 rest); [|exact H].
      rewrite <- !app_assoc, <- E1. exact no_lf. }
    rewrite app_nil_r in E1.
    assert (s = (p1 ++ ta ++ p2) ++ tl) as E
        by (rewrite E1, <- !app_assoc; reflexivity).
    split; [exists (p1 ++ ta ++ p2), tl; auto|].
    rewrite E, stem_app by (symmetry; exact (Forall2_length Fl)).
    apply contains_ic_spec. exists p1, ta, p2. auto.
  - intros [(pre & tl & E & Fl) Hc].
    rewrite E, stem_app in Hc by (symmetry; exact (Forall2_length Fl)).
    apply contains_ic_spec in Hc. destruct Hc as (p1 & ta & p2 & -> & Fa).
    exists []. rewrite E, <- !app_assoc.
    rewrite <- !app_assoc in E.
    econstructor; [apply sem_star, (no_lf_prefix _ _ E)|].
    econstructor; [apply sem_lit, Fa|].
    econstructor.
    { apply sem_star.
      assert (s = (p1 ++ ta ++ p2) ++ tl) as E'
          by (rewrite E, <- !app_assoc; reflexivity).
      pose proof (no_lf_prefix _ _ E') as Fd.
      apply Forall_app in Fd. destruct Fd as [_ Fd].
      apply Forall_app in Fd. tauto. }
    rewrite <- (app_nil_r tl).
    econstructor; [apply sem_lit, Fl|].
    econstructor; [apply sem_eol; auto|constructor].
Qed.

(** A pattern [.*lit(b1|b2|...)$] asks for one of the endings [lit b]. *)
Lemma group_rule (l : pystr) (bs : list pystr) :
  re_match [AnyStar; Lit l; Alt bs; Eol] s
  = existsb (fun b => ends_ic (l ++ b) s) bs.
Proof.
  apply eq_iff_eq_true. unfold re_match.
  rewrite match_here_sem, existsb_exists. split.
  - intros (rest & H).
    apply sem_star_inv in H. destruct H as (pre & m1 & E1 & _ & H).
    apply sem_lit_inv in H. destruct H as (tl & m2 & -> & Fl & H).
    apply sem_alt_inv in H. destruct H as (b & tb & m3 & Hin & -> & Fb & H).
    assert (m3 = []) as ->.
    { apply (@eol_no_newline (pre ++ tl ++ tb) m3 rest); [|exact H].
      rewrite <- !app_assoc, <- E1. exact no_lf. }
    rewrite app_nil_r in E1.
    exists b. split; [exact Hin|]. apply ends_ic_spec.
    exists pre, (tl ++ tb). split; [exact E1|].
    apply Forall2_app; assumption.
  - intros (b & Hin & H). apply ends_ic_spec in H.
    destruct H as (pre & t & E & F).
    apply Forall2_app_inv_l in F. destruct F as (tl & tb & Fl & Fb & ->).
    exists []. rewrite E.
    econstructor; [apply sem_star, (no_lf_prefix _ _ E)|].
    econstructor; [apply sem_lit, Fl|].
    rewrite <- (app_nil_r tb).
    econstructor; [eapply sem_alt; eassumption|].
    econstructor; [apply sem_eol; auto|constructor].
Qed.

Lemma web_rule :
  re_match [AnyStar; Lit (u "."); Alt [u "html"; u "css"; u "js"]; Eol] s
  = ends_ic (u ".html") s || ends_ic (u ".css") s || ends_ic (u ".js") s.
Proof.
  rewrite group_rule. cbn [existsb]. rewrite orb_false_r, orb_assoc.
  reflexivity.
Qed.

End PatternShapes.

(** The router on a name without line feed, rule by rule. *)
Lemma route_rules_classify (n : pystr) :
  has_newline n = false ->
  Deployer.route_rules Deployer.ROUTING_RULES n
  = Ok (Classifier.classify n).
Proof.
  intros Hn. unfold Deployer.ROUTING_RULES. cbn [Deployer.route_rules].
  rewrite !(@suffix_rule n Hn), !(@marker_rule n Hn), (@web_rule n Hn).
  change (length (u ".py")) with 3%nat.
  unfold Classifier.classify.
  repeat match goal with
         | |- (if ?b then _ else _) = _ =>
             destruct b eqn:?; [reflexivity|]
         end.
  destruct (re_match [Lit (u "SKILL.md"); Eol] n) eqn:Es; [|reflexivity].
  apply skill_pattern_shadowed in Es. rewrite (@suffix_rule n Hn) in Es.
  congruence.
Qed.

(** X1. For a file name without a line feed, [route_file] is the decision
    list [classify]: the destination depends on the ending of the name
    (compared without regard to case) and, for names ending in .py, on the
    first of the markers _node, _agent, _scraper found before the ending. *)
Theorem route_file_classify (filepath : Path) :
  has_newline (name filepath) = false ->
  Deployer.route_file filepath = Ok (Classifier.classify (name filepath)).
Proof.
  intros Hn. unfold Deployer.route_file.
  exact (@route_rules_classify (name filepath) Hn).
Qed.

Lemma route_file_classify_witness :
  Deployer.route_file [u "outputs"; u "Price_Node_v2.PY"]
  = Ok (destination "life-os" "src/nodes/" "LangGraph node module"
                    (u "Price_Node_v2.PY")).
Proof.
  refine (eq_trans (@route_file_classify [u "outputs"; u "Price_Node_v2.PY"]
                      eq_refl) _).
  vm_compute. reflexivity.
Defined.

(** X2. Routing sees neither the directory nor the case of the name. Two
    names get the same repository, path prefix and description as soon as
    they agree character by character once folded the way the patterns
    compare: ASCII letters without regard to case, each letter in any case
    independently, capital I with dot (U+0130) and dotless i (U+0131) as i,
    long s (U+017F) as s, the Kelvin sign (U+212A) as k. *)
Theorem route_file_case_insensitive (filepath filepath' : Path) :
  map CaseFold.fold (name filepath') = map CaseFold.fold (name filepath) ->
  let same k :=
    bind (Deployer.route_file filepath') (fun d => subscript d k)
    = bind (Deployer.route_file filepath) (fun d => subscript d k) in
  same (u "repo") /\ same (u "path") /\ same (u "description").
Proof.
  intros E. cbv zeta. unfold Deployer.route_file.
  repeat split; apply route_rules_fold; try exact E; reflexivity.
Qed.

Lemma route_file_case_insensitive_witness :
  let same k :=
    bind (Deployer.route_file [u "inbox"; [83; 107; 304; 76; 108] ++ u ".Md"])
         (fun d => subscript d k)
    = bind (Deployer.route_file [u "outputs"; u "skill.md"])
           (fun d => subscript d k) in
  same (u "repo") /\ same (u "path") /\ same (u "description").
Proof.
  exact (@route_file_case_insensitive
           [u "outputs"; u "skill.md"]
           [u "inbox"; [83; 107; 304; 76; 108] ++ u ".Md"] eq_refl).
Defined.

(* ===================================================================== *)
(** * What the scan returns *)
(* ===================================================================== *)

Section WalkFacts.








End WalkFacts.



(* ===================================================================== *)
(** * The pipeline of one file, in full *)
(* ===================================================================== *)

Section PipelineDetail.
Import Deployer RunProps.

Variable fs : node.
Variable utcnow : nat -> pystr.

Lemma generate_curl_command_explicit (self : deployer) (filepath : Path)
      (repo prefix description : pystr) (is_binary : bool)
      (checksum : pystr) (size : Z) (created_at content : pystr)
      (payload : pybytes) :
  utf8_encode content = Ok payload ->
  generate_curl_command
    self
    (manifest_dict filepath repo prefix description is_binary checksum size
                   created_at)
    content
  = Ok (curl_head (github_token self) (github_api self) (github_user self)
                  repo (prefix ++ name filepath)
                  (commit_message (name filepath) description)
        ++ content_field (b64encode payload) ++ curl_tail).
Proof.
  intros Hp. unfold generate_curl_command.
  change (subscript (manifest_dict filepath repo prefix description is_binary
                                   checksum size created_at)
                    (u "target_repo")) with (Ok (VStr repo)).
  change (subscript (manifest_dict filepath repo prefix description is_binary
                                   checksum size created_at)
                    (u "target_path"))
    with (Ok (VStr (prefix ++ name filepath))).
  change (subscript (manifest_dict filepath repo prefix description is_binary
                                   checksum size created_at)
                    (u "filename")) with (Ok (VStr (name filepath))).
  change (subscript (manifest_dict filepath repo prefix description is_binary
                                   checksum size created_at)
                    (u "description")) with (Ok (VStr description)).
  cbn [bind str_of]. rewrite Hp. cbn [bind].
  unfold curl_head, content_field, message_field, curl_tail, commit_message.
  rewrite <- !app_assoc. reflexivity.
Qed.

Lemma create_manifest_explicit (self : deployer) (filepath : Path)
      (repo prefix description content : pystr) (is_binary : bool)
      (bs : pybytes) :
  read_bytes fs filepath = Ok bs ->
  create_deployment_manifest
    fs utcnow filepath
    (VDict [(u "repo", VStr repo); (u "path", VStr prefix);
            (u "description", VStr description);
            (u "filename", VStr (name filepath))])
    content is_binary self
  = (Ok (manifest_dict filepath repo prefix description is_binary
                       (Hashlib.hexdigest (Hashlib.update Hashlib.sha256 bs))
                       (Z.of_nat (length bs))
                       (utcnow (clock self) ++ u "Z")),
     ticked self).
Proof.
  intros Hr. unfold create_deployment_manifest.
  set (route := VDict _).
  assert (subscript route (u "repo") = Ok (VStr repo)) as R1 by reflexivity.
  assert (subscript route (u "path") = Ok (VStr prefix)) as R2 by reflexivity.
  assert (subscript route (u "description") = Ok (VStr description)) as R3
      by reflexivity.
  rewrite bindM_lift, (@calculate_checksum_eq fs filepath bs Hr).
  cbn beta iota.
  rewrite bindM_lift, R1. cbn beta iota.
  rewrite bindM_lift, R2. cbn beta iota.
  rewrite bindM_lift. cbn [add_str]. cbn beta iota.
  rewrite bindM_lift, R3. cbn beta iota.
  rewrite bindM_lift, (@st_size_readable fs filepath bs Hr). cbn beta iota.
  reflexivity.
Qed.

Lemma push_to_github_explicit (self : deployer) (filepath : Path)
      (repo prefix description : pystr) (is_binary : bool)
      (checksum : pystr) (size : Z) (created_at content : pystr)
      (payload : pybytes) :
  utf8_encode content = Ok payload ->
  let manifest := manifest_dict filepath repo prefix description is_binary
                                checksum size created_at in
  push_to_github manifest content self
  = (Ok (prepared_dict
           repo (prefix ++ name filepath)
           (curl_head (github_token self) (github_api self) (github_user self)
                      repo (prefix ++ name filepath)
                      (commit_message (name filepath) description)
            ++ content_field (b64encode payload) ++ curl_tail)
           manifest),
     self).
Proof.
  intros Hp manifest. unfold push_to_github.
  rewrite bindM_run. unfold self_. cbn beta iota.
  assert (subscript manifest (u "target_repo") = Ok (VStr repo)) as M1
      by reflexivity.
  assert (subscript manifest (u "target_path")
          = Ok (VStr (prefix ++ name filepath))) as M2 by reflexivity.
  rewrite bindM_lift, M1. cbn beta iota.
  rewrite bindM_lift, M2. cbn beta iota.
  unfold manifest at 1.
  rewrite bindM_lift,
    (@generate_curl_command_explicit self filepath repo prefix description
       is_binary checksum size created_at content payload Hp).
  reflexivity.
Qed.

(** The pipeline of a readable file, step by step. *)
Lemma deploy_file_explicit (self : deployer) (filepath : Path)
      (repo prefix description content : pystr) (is_binary : bool)
      (bs payload : pybytes) :
  read_bytes fs filepath = Ok bs ->
  route_file filepath
  = Ok (VDict [(u "repo", VStr repo); (u "path", VStr prefix);
               (u "description", VStr description);
               (u "filename", VStr (name filepath))]) ->
  encode_file fs filepath = Ok (content, is_binary) ->
  utf8_encode content = Ok payload ->
  let manifest :=
    manifest_dict filepath repo prefix description is_binary
                  (Hashlib.hexdigest (Hashlib.update Hashlib.sha256 bs))
                  (Z.of_nat (length bs)) (utcnow (clock self) ++ u "Z") in
  let result :=
    prepared_dict
      repo (prefix ++ name filepath)
      (curl_head (github_token self) (github_api self) (github_user self)
                 repo (prefix ++ name filepath)
                 (commit_message (name filepath) description)
       ++ content_field (b64encode payload) ++ curl_tail)
      manifest in
  deploy_file fs utcnow filepath self
  = (Ok result,
     advance self
             [log_entry filepath manifest result
                        (utcnow (S (clock self)) ++ u "Z")] 2).
Proof.
  intros Hr Hroute Henc Hp manifest result. unfold deploy_file.
  rewrite Hroute. set (route := VDict _).
  assert (subscript route (u "repo") = Ok (VStr repo)) as R1 by reflexivity.
  assert (subscript route (u "path") = Ok (VStr prefix)) as R2 by reflexivity.
  rewrite bindM_lift. cbn beta iota.
  rewrite bindM_lift, R1. cbn beta iota.
  rewrite bindM_lift, R2. cbn beta iota.
  rewrite bindM_lift, Henc. cbn beta iota.
  rewrite bindM_run. unfold route.
  rewrite (@create_manifest_explicit self filepath repo prefix description
             content is_binary bs Hr).
  cbn beta iota.
  fold manifest.
  assert (subscript manifest (u "checksum")
          = Ok (VStr (Hashlib.hexdigest (Hashlib.update Hashlib.sha256 bs))))
    as M1 by reflexivity.
  rewrite bindM_lift, M1. cbn beta iota.
  rewrite bindM_lift. cbn [as_str]. cbn beta iota.
  rewrite bindM_run. unfold manifest at 1.
  rewrite (@push_to_github_explicit (ticked self) filepath repo prefix
             description is_binary _ _ _ content payload Hp).
  cbn beta iota zeta. fold manifest.
  change (github_token (ticked self)) with (github_token self).
  change (github_api (ticked self)) with (github_api self).
  change (github_user (ticked self)) with (github_user self).
  fold result.
  assert (subscript result (u "status") = Ok (VStr (u "prepared"))) as S1
      by reflexivity.
  rewrite bindM_lift, S1. cbn beta iota.
  rewrite bindM_lift. cbn [as_str]. cbn beta iota.
  reflexivity.
Qed.

End PipelineDetail.

Section Utf8RoundTrip.

Ltac bprop' :=
  repeat match goal with
         | H : (_ && _) = true |- _ =>
             apply andb_true_iff in H; destruct H
         | H : (_ <=? _) = true |- _ => apply N.leb_le in H
         | H : (_ <? _) = true |- _ => apply N.ltb_lt in H
         | H : (_ <? _) = false |- _ => apply N.ltb_ge in H
         | H : (_ =? _) = true |- _ => apply N.eqb_eq in H
         | H : (_ =? _) = false |- _ => apply N.eqb_neq in H
         end.

Lemma encode_two (b0 b1 : N) :
  194 <= b0 -> b0 <= 223 -> 128 <= b1 -> b1 <= 191 ->
  utf8_encode_char ((b0 - 192) * 64 + (b1 - 128)) = [b0; b1].
Proof.
  intros H1 H2 H3 H4. set (c := (b0 - 192) * 64 + (b1 - 128)).
  assert (c / 64 = b0 - 192) as Hq
      by (symmetry; apply N.div_unique with (r := b1 - 128); subst c; lia).
  assert (c mod 64 = b1 - 128) as Hr
      by (symmetry; apply N.mod_unique with (q := b0 - 192); subst c; lia).
  unfold utf8_encode_char.
  destruct (N.ltb_spec c 128); [subst c; lia|].
  destruct (N.ltb_spec c 2048); [|subst c; lia].
  rewrite Hq, Hr. f_equal; [lia|]. f_equal. lia.
Qed.

Lemma encode_three (b0 b1 b2 : N) :
  224 <= b0 -> b0 <= 239 -> second3 b0 b1 = true ->
  128 <= b2 -> b2 <= 191 ->
  utf8_encode_char ((b0 - 224) * 4096 + (b1 - 128) * 64 + (b2 - 128))
  = [b0; b1; b2].
Proof.
  intros H1 H2 H3 H4 H5.
  assert (128 <= b1 /\ b1 <= 191 /\ (b0 = 224 -> 160 <= b1)) as (L1 & L2 & L3).
  { unfold second3, cont in H3.
    destruct (b0 =? 224) eqn:A1; [|destruct (b0 =? 237) eqn:A2];
      bprop'; lia. }
  set (c := (b0 - 224) * 4096 + (b1 - 128) * 64 + (b2 - 128)).
  assert (c / 4096 = b0 - 224) as Hq1
      by (symmetry;
          apply N.div_unique with (r := (b1 - 128) * 64 + (b2 - 128));
          subst c; lia).
  assert (c / 64 = (b0 - 224) * 64 + (b1 - 128)) as Hq2
      by (symmetry; apply N.div_unique with (r := b2 - 128); subst c; lia).
  assert ((c / 64) mod 64 = b1 - 128) as Hr2
      by (rewrite Hq2; symmetry;
          apply N.mod_unique with (q := b0 - 224); lia).
  assert (c mod 64 = b2 - 128) as Hr3
      by (symmetry;
          apply N.mod_unique with (q := (b0 - 224) * 64 + (b1 - 128));
          subst c; lia).
  unfold utf8_encode_char.
  destruct (N.ltb_spec c 128); [subst c; lia|].
  destruct (N.ltb_spec c 2048); [subst c; lia|].
  destruct (N.ltb_spec c 65536); [|subst c; lia].
  rewrite Hq1, Hr2, Hr3. repeat (f_equal; try lia).
Qed.

Lemma encode_four (b0 b1 b2 b3 : N) :
  240 <= b0 -> b0 <= 244 -> second4 b0 b1 = true ->
  128 <= b2 -> b2 <= 191 -> 128 <= b3 -> b3 <= 191 ->
  utf8_encode_char ((b0 - 240) * 262144 + (b1 - 128) * 4096
                    + (b2 - 128) * 64 + (b3 - 128))
  = [b0; b1; b2; b3].
Proof.
  intros H1 H2 H3 H4 H5 H6 H7.
  assert (128 <= b1 /\ b1 <= 191 /\ (b0 = 240 -> 144 <= b1)) as (L1 & L2 & L3).
  { unfold second4, cont in H3.
    destruct (b0 =? 240) eqn:A1; [|destruct (b0 =? 244) eqn:A2];
      bprop'; lia. }
  set (c := (b0 - 240) * 262144 + (b1 - 128) * 4096
            + (b2 - 128) * 64 + (b3 - 128)).
  assert (c / 262144 = b0 - 240) as Hq1
      by (symmetry;
          apply N.div_unique
            with (r := (b1 - 128) * 4096 + (b2 - 128) * 64 + (b3 - 128));
          subst c; lia).
  assert (c / 4096 = (b0 - 240) * 64 + (b1 - 128)) as Hq2
      by (symmetry;
          apply N.div_unique with (r := (b2 - 128) * 64 + (b3 - 128));
          subst c; lia).
  assert ((c / 4096) mod 64 = b1 - 128) as Hr2
      by (rewrite Hq2; symmetry;
          apply N.mod_unique with (q := b0 - 240); lia).
  assert (c / 64 = (b0 - 240) * 4096 + (b1 - 128) * 64 + (b2 - 128)) as Hq3
      by (symmetry; apply N.div_unique with (r := b3 - 128); subst c; lia).
  assert ((c / 64) mod 64 = b2 - 128) as Hr3
      by (rewrite Hq3; symmetry;
          apply N.mod_unique with (q := (b0 - 240) * 64 + (b1 - 128)); lia).
  assert (c mod 64 = b3 - 128) as Hr4
      by (symmetry;
          apply N.mod_unique
            with (q := (b0 - 240) * 4096 + (b1 - 128) * 64 + (b2 - 128));
          subst c; lia).
  unfold utf8_encode_char.
  destruct (N.ltb_spec c 128); [subst c; lia|].
  destruct (N.ltb_spec c 2048); [subst c; lia|].
  destruct (N.ltb_spec c 65536); [subst c; lia|].
  rewrite Hq1, Hr2, Hr3, Hr4. repeat (f_equal; try lia).
Qed.

(** Encoding the text decoded from some bytes gives the bytes back. *)
Lemma utf8_encode_decode_vals (vs : list N) (text : pystr) :
  utf8_decode_vals vs = Some text ->
  utf8_encode text = Ok (map byte_of vs).
Proof.
  intros Hdec. pose proof (utf8_decode_scalar _ Hdec) as Hsc.
  revert Hdec Hsc.
  remember (length vs) as n eqn:Hn.
  assert (length vs <= n)%nat as Hle by lia. clear Hn.
  revert vs text Hle. induction n as [|n IH]; intros bs text Hle.
  - destruct bs; [|simpl in Hle; lia].
    intros H _. injection H as <-. reflexivity.
  - destruct bs as [|b0 t0]; [intros H _; injection H as <-; reflexivity|].
    cbn [utf8_decode_vals]. cbn [length] in Hle.
    destruct (b0 <? 128) eqn:E1.
    { intros H Hsc. apply option_map_cons_inv in H.
      destruct H as (rest & Hd & ->). inversion Hsc as [|? ? Hc Hrest]; subst.
      cbn [utf8_encode]. rewrite Hc, (IH t0 rest) by (lia || assumption).
      cbn [bind]. unfold utf8_encode_char. rewrite E1. reflexivity. }
    destruct ((194 <=? b0) && (b0 <=? 223)) eqn:E2.
    { destruct t0 as [|b1 t1]; [discriminate|].
      destruct (cont b1) eqn:C1; [|discriminate].
      intros H Hsc. apply option_map_cons_inv in H.
      destruct H as (rest & Hd & ->). inversion Hsc as [|? ? Hc Hrest]; subst.
      cbn [length] in Hle.
      cbn [utf8_encode]. rewrite Hc, (IH t1 rest) by (lia || assumption).
      cbn [bind]. unfold cont in C1. bprop'.
      rewrite encode_two by assumption. reflexivity. }
    destruct ((224 <=? b0) && (b0 <=? 239)) eqn:E3.
    { destruct t0 as [|b1 [|b2 t2]]; try discriminate.
      destruct (second3 b0 b1 && cont b2) eqn:C; [|discriminate].
      intros H Hsc. apply option_map_cons_inv in H.
      destruct H as (rest & Hd & ->). inversion Hsc as [|? ? Hc Hrest]; subst.
      cbn [length] in Hle.
      cbn [utf8_encode]. rewrite Hc, (IH t2 rest) by (lia || assumption).
      cbn [bind]. apply andb_true_iff in C. destruct C as [C1 C2].
      unfold cont in C2. bprop'.
      rewrite encode_three by assumption. reflexivity. }
    destruct ((240 <=? b0) && (b0 <=? 244)) eqn:E4; [|discriminate].
    destruct t0 as [|b1 [|b2 [|b3 t3]]]; try discriminate.
    destruct (second4 b0 b1 && cont b2 && cont b3) eqn:C; [|discriminate].
    intros H Hsc. apply option_map_cons_inv in H.
    destruct H as (rest & Hd & ->). inversion Hsc as [|? ? Hc Hrest]; subst.
    cbn [length] in Hle.
    cbn [utf8_encode]. rewrite Hc, (IH t3 rest) by (lia || assumption).
    cbn [bind]. apply andb_true_iff in C. destruct C as [C C3].
    apply andb_true_iff in C. destruct C as [C1 C2].
    unfold cont in C2, C3. bprop'.
    rewrite encode_four by assumption. reflexivity.
Qed.

Lemma utf8_encode_decode (bs : pybytes) (text : pystr) :
  utf8_decode bs = Some text -> utf8_encode text = Ok bs.
Proof.
  intros H. unfold utf8_decode in H.
  rewrite (utf8_encode_decode_vals _ H), byte_of_val. reflexivity.
Qed.

End Utf8RoundTrip.

Section AsciiFacts.
Import RunProps.

Lemma byte_val_of (c : N) : c < 256 -> byte_val (byte_of c) = c.
Proof.
  intros Hc. unfold byte_val, byte_of.
  destruct (Byte.of_N c) as [y|] eqn:E.
  - apply Byte.to_of_N, E.
  - apply Byte.of_N_None_iff in E. lia.
Qed.

Lemma utf8_encode_ascii (s : pystr) :
  Forall (fun c => c < 128) s -> utf8_encode s = Ok (ascii_bytes s).
Proof.
  induction 1 as [|c s Hc _ IH]; [reflexivity|].
  cbn [utf8_encode]. unfold scalar, utf8_encode_char.
  destruct (N.ltb_spec c 55296); [|lia]. cbn [orb].
  destruct (N.ltb_spec c 128); [|lia].
  rewrite IH. reflexivity.
Qed.

Lemma utf8_decode_ascii (s : pystr) :
  Forall (fun c => c < 128) s -> utf8_decode (ascii_bytes s) = Some s.
Proof.
  unfold utf8_decode, ascii_bytes.
  induction 1 as [|c s Hc _ IH]; [reflexivity|].
  cbn [map utf8_decode_vals]. rewrite byte_val_of by lia.
  destruct (N.ltb_spec c 128); [|lia]. rewrite IH. reflexivity.
Qed.

Lemma b64char_ascii (i : N) : b64char i < 128.
Proof.
  unfold b64char.
  destruct (N.ltb_spec i 26); [lia|]. destruct (N.ltb_spec i 52); [lia|].
  destruct (N.ltb_spec i 62); [lia|]. destruct (N.eqb_spec i 62); lia.
Qed.

Lemma b64encode_ascii (bs : pybytes) :
  Forall (fun c => c < 128) (b64encode bs).
Proof.
  unfold b64encode. generalize (map byte_val bs) as l. intros l.
  induction l as [|a|a b|a b c l IH] using list_ind3;
    cbn [b64encode_vals]; repeat constructor;
    try apply b64char_ascii; try (unfold PAD; lia); assumption.
Qed.

End AsciiFacts.

(** X5. For a readable file whose bytes are not valid UTF-8, the request
    that [deploy_file] prepares carries, as content, the base64 text of the
    base64 text of the bytes: the content passed on is already base64 and
    [_generate_curl_command] encodes it again. Decoding the content member
    once gives the bytes of the base64 text, never the bytes of the file. *)
Theorem deploy_binary_double_encoded (fs : node) (utcnow : nat -> pystr)
        (filepath : Path) (self : Deployer.deployer) (bs : pybytes) :
  read_bytes fs filepath = Ok bs ->
  utf8_decode bs = None ->
  exists res self' head manifest,
    Deployer.deploy_file fs utcnow filepath self = (Ok res, self') /\
    subscript res (u "command")
    = Ok (VStr (head
                ++ RunProps.content_field
                     (b64encode (RunProps.ascii_bytes (b64encode bs)))
                ++ RunProps.curl_tail)) /\
    subscript res (u "manifest") = Ok manifest /\
    subscript manifest (u "is_binary") = Ok (VBool true) /\
    b64decode (b64encode (RunProps.ascii_bytes (b64encode bs)))
    = Some (RunProps.ascii_bytes (b64encode bs)) /\
    RunProps.ascii_bytes (b64encode bs) <> bs.
Proof.
  intros Hr Hd.
  destruct (route_file_fields filepath) as (repo & prefix & descr & Hroute).
  pose proof (@encode_file_binary fs filepath bs Hr Hd) as Henc.
  pose proof (utf8_encode_ascii (b64encode_ascii bs)) as Hp.
  pose proof (@deploy_file_explicit fs utcnow self filepath repo prefix descr
                (b64encode bs) true bs _ Hr Hroute Henc Hp) as E.
  cbv zeta in E. do 4 eexists. split; [exact E|].
  split; [reflexivity|]. split; [reflexivity|]. split; [reflexivity|].
  split; [apply b64_roundtrip|].
  intros Heq. rewrite <- Heq in Hd.
  rewrite (utf8_decode_ascii (b64encode_ascii bs)) in Hd. discriminate Hd.
Qed.

Lemma deploy_binary_double_encoded_witness :
  let fs := Dir [(u "logo.bin", File true (map byte_of [255; 216; 0]))] in
  exists res self' head manifest,
    Deployer.deploy_file fs (fun _ => u "2025-01-03T00:00:00") [u "logo.bin"]
                         (Deployer.new_deployer [] (u "t0ken"))
    = (Ok res, self') /\
    subscript res (u "command")
    = Ok (VStr (head ++ RunProps.content_field (u "LzlnQQ==")
                ++ RunProps.curl_tail)) /\
    subscript res (u "manifest") = Ok manifest /\
    subscript manifest (u "is_binary") = Ok (VBool true) /\
    b64decode (u "LzlnQQ==") = Some (map byte_of (u "/9gA")) /\
    map byte_of (u "/9gA") <> map byte_of [255; 216; 0].
Proof.
  exact (@deploy_binary_double_encoded
           (Dir [(u "logo.bin", File true (map byte_of [255; 216; 0]))])
           (fun _ => u "2025-01-03T00:00:00") [u "logo.bin"]
           (Deployer.new_deployer [] (u "t0ken"))
           (map byte_of [255; 216; 0]) eq_refl eq_refl).
Defined.

(** X6. For a readable file whose bytes decode as UTF-8, the content of the
    prepared request is the base64 text of the UTF-8 bytes of the text
    after newline translation, and the manifest says is_binary false. When
    the text holds no carriage return that is the base64 text of the bytes
    of the file, which decodes to them. *)
Theorem deploy_text_payload (fs : node) (utcnow : nat -> pystr)
        (filepath : Path) (self : Deployer.deployer) (bs : pybytes)
        (text : pystr) :
  read_bytes fs filepath = Ok bs ->
  utf8_decode bs = Some text ->
  exists res self' head manifest payload,
    Deployer.deploy_file fs utcnow filepath self = (Ok res, self') /\
    utf8_encode (universal_newlines text) = Ok payload /\
    subscript res (u "command")
    = Ok (VStr (head ++ RunProps.content_field (b64encode payload)
                ++ RunProps.curl_tail)) /\
    subscript res (u "manifest") = Ok manifest /\
    subscript manifest (u "is_binary") = Ok (VBool false) /\
    (has_cr text = false ->
     payload = bs /\ b64decode (b64encode payload) = Some bs).
Proof.
  intros Hr Hd.
  destruct (route_file_fields filepath) as (repo & prefix & descr & Hroute).
  pose proof (@encode_file_text fs filepath bs text Hr Hd) as Henc.
  destruct (utf8_encode_ok
              (universal_newlines_scalar
                 (utf8_decode_scalar _ Hd))) as (payload & Hp).
  pose proof (@deploy_file_explicit fs utcnow self filepath repo prefix descr
                (universal_newlines text) false bs payload Hr Hroute Henc Hp)
    as E.
  cbv zeta in E. do 4 eexists. exists payload. split; [exact E|].
  split; [exact Hp|].
  split; [reflexivity|]. split; [reflexivity|]. split; [reflexivity|].
  intros Hcr. rewrite (universal_newlines_no_cr _ Hcr) in Hp.
  rewrite (utf8_encode_decode _ Hd) in Hp. injection Hp as <-.
  split; [reflexivity|apply b64_roundtrip].
Qed.

Lemma deploy_text_payload_witness :
  let fs := Dir [(u "notes.md", File true (map byte_of (u "hi")))] in
  exists res self' head manifest payload,
    Deployer.deploy_file fs (fun _ => u "2025-01-03T00:00:00") [u "notes.md"]
                         (Deployer.new_deployer [] (u "t0ken"))
    = (Ok res, self') /\
    utf8_encode (universal_newlines (u "hi")) = Ok payload /\
    subscript res (u "command")
    = Ok (VStr (head ++ RunProps.content_field (b64encode payload)
                ++ RunProps.curl_tail)) /\
    subscript res (u "manifest") = Ok manifest /\
    subscript manifest (u "is_binary") = Ok (VBool false) /\
    (has_cr (u "hi") = false ->
     payload = map byte_of (u "hi") /\
     b64decode (b64encode payload) = Some (map byte_of (u "hi"))).
Proof.
  exact (@deploy_text_payload
           (Dir [(u "notes.md", File true (map byte_of (u "hi")))])
           (fun _ => u "2025-01-03T00:00:00") [u "notes.md"]
           (Deployer.new_deployer [] (u "t0ken"))
           (map byte_of (u "hi")) (u "hi") eq_refl eq_refl).
Defined.

(* ===================================================================== *)
(** * The verification pass on any log *)
(* ===================================================================== *)

Section VerifyLoopFacts.
Import Verifier VerifyProps.

Variable subprocess_run : list pystr -> result pystr.
Variable self : verifier.

Lemma verify_step_row (v f : Z) (rows : list value) (d : value) :
  verify_step subprocess_run self (v, f, rows) d
  = bind (entry_row subprocess_run self d)
         (fun rb => Ok (if snd rb
                        then (v + 1, f, rows ++ [fst rb])
                        else (v, f + 1, rows ++ [fst rb]))%Z).
Proof.
  unfold verify_step, entry_row.
  destruct (get d (u "manifest") (VDict [])) as [m|]; [|reflexivity].
  cbn [bind].
  destruct (get m (u "filename") (VStr (u "unknown"))); [|reflexivity].
  cbn [bind].
  destruct (get m (u "target_repo") (VStr [])); [|reflexivity].
  cbn [bind].
  destruct (get m (u "target_path") (VStr [])); [|reflexivity].
  cbn [bind fst snd].
  destruct (verify_file_exists subprocess_run self _ _); reflexivity.
Qed.

Lemma count_verdict_cons (b : bool) (row : value) (c : bool)
      (rows : list (value * bool)) :
  count_verdict b ((row, c) :: rows)
  = ((if Bool.eqb c b then 1 else 0) + count_verdict b rows)%Z.
Proof.
  unfold count_verdict. cbn [filter snd].
  destruct (Bool.eqb c b); cbn [length]; lia.
Qed.

Lemma count_verdict_total (rows : list (value * bool)) :
  (count_verdict true rows + count_verdict false rows
   = Z.of_nat (length rows))%Z.
Proof.
  induction rows as [|[row c] rows IH]; [reflexivity|].
  rewrite !count_verdict_cons. cbn [length].
  destruct c; cbn [Bool.eqb]; lia.
Qed.

Lemma count_verdict_nonneg (b : bool) (rows : list (value * bool)) :
  (0 <= count_verdict b rows)%Z.
Proof. unfold count_verdict. lia. Qed.

(** The loop counts the verdicts and collects the rows, in order. *)
Lemma verify_loop_rows (ds : list value) :
  forall (v f : Z) (rows : list value),
    verify_loop subprocess_run self ds (v, f, rows)
    = bind (entry_rows subprocess_run self ds)
           (fun rs => Ok (v + count_verdict true rs,
                          f + count_verdict false rs,
                          rows ++ map fst rs)%Z).
Proof.
  induction ds as [|d ds IH]; intros v f rows.
  - cbn [verify_loop entry_rows bind map]. unfold count_verdict.
    cbn [filter length]. rewrite !Z.add_0_r, app_nil_r. reflexivity.
  - cbn [verify_loop entry_rows]. rewrite verify_step_row.
    destruct (entry_row subprocess_run self d) as [[row c]|e];
      [|reflexivity].
    cbn [bind fst snd]. destruct c; rewrite IH;
      (destruct (entry_rows subprocess_run self ds) as [rs|e];
       [|reflexivity]);
      cbn [bind map fst]; rewrite !count_verdict_cons, <- app_assoc;
      cbn [Bool.eqb app]; apply f_equal;
      (apply f_equal2; [apply f_equal2; lia|reflexivity]).
Qed.

Lemma entry_rows_length (ds : list value) :
  forall rows,
    entry_rows subprocess_run self ds = Ok rows -> length rows = length ds.
Proof.
  induction ds as [|d ds IH]; intros rows; cbn [entry_rows].
  - intros H. injection H as <-. reflexivity.
  - destruct (entry_row subprocess_run self d); [|discriminate].
    cbn [bind]. destruct (entry_rows subprocess_run self ds) as [rs|];
      [|discriminate].
    intros H. injection H as <-. cbn [length]. rewrite (IH rs eq_refl).
    reflexivity.
Qed.

End VerifyLoopFacts.

Section VerifyAllFacts.
Import Verifier VerifyProps VerifierMain.

Variable subprocess_run : list pystr -> result pystr.

Lemma verify_all_eq (self : verifier) (ds : list value)
      (rows : list (value * bool)) :
  get (log_data self) (u "deployments") (VList []) = Ok (VList ds) ->
  entry_rows subprocess_run self ds = Ok rows ->
  ds <> [] ->
  verify_all subprocess_run self
  = Ok (summary (Z.of_nat (length ds)) (count_verdict true rows)
                (count_verdict false rows)
                (VFloat (Qred (inject_Z (count_verdict true rows)
                               / inject_Z (Z.of_nat (length ds)))))
                (map fst rows)).
Proof.
  intros Hd Hrows Hne. unfold verify_all. rewrite Hd.
  cbn [bind len iter]. rewrite verify_loop_rows, Hrows. cbn [bind].
  rewrite !Z.add_0_l. cbn [app].
  assert (0 < Z.of_nat (length ds))%Z as Hpos
      by (destruct ds; [contradiction|cbn [length]; lia]).
  unfold truediv.
  destruct (Z.eqb_spec (Z.of_nat (length ds)) 0) as [E|_]; [lia|].
  cbn [bind].
  destruct (Z.gtb_spec (Z.of_nat (length ds)) 0) as [_|E]; [|lia].
  reflexivity.
Qed.

Lemma entry_rows_app (self : verifier) (a b : list value) :
  entry_rows subprocess_run self (a ++ b)
  = bind (entry_rows subprocess_run self a)
         (fun ra => bind (entry_rows subprocess_run self b)
                         (fun rb => Ok (ra ++ rb))).
Proof.
  induction a as [|d a IH]; cbn [app entry_rows bind].
  - destruct (entry_rows subprocess_run self b); reflexivity.
  - destruct (entry_row subprocess_run self d); [|reflexivity].
    cbn [bind]. rewrite IH.
    destruct (entry_rows subprocess_run self a); [|reflexivity].
    cbn [bind]. destruct (entry_rows subprocess_run self b); reflexivity.
Qed.

Lemma verify_all_loop_raises (self : verifier) (ds : list value) (e : exn) :
  get (log_data self) (u "deployments") (VList []) = Ok (VList ds) ->
  entry_rows subprocess_run self ds = Raise e ->
  verify_all subprocess_run self = Raise e.
Proof.
  intros Hd Hrows. unfold verify_all. rewrite Hd.
  cbn [bind len iter]. rewrite verify_loop_rows, Hrows. reflexivity.
Qed.

Lemma count_false_zero (rows : list (value * bool)) :
  (0 <? count_verdict false rows)%Z = negb (forallb snd rows).
Proof.
  induction rows as [|[row c] rows IH]; [reflexivity|].
  rewrite count_verdict_cons. cbn [forallb snd].
  pose proof (count_verdict_nonneg false rows) as Hn.
  destruct c; cbn [Bool.eqb andb].
  - rewrite Z.add_0_l. exact IH.
  - cbn [negb]. apply Z.ltb_lt. lia.
Qed.

End VerifyAllFacts.

(** X7. On a log whose deployments list is not empty and whose entries
    all go through the loop, [verify_all] returns: total, the number of
    entries; verified and failed, the numbers of entries for which the
    check answered true and false, so that verified + failed = total; the
    success rate verified / total, between 0 and 1; and one row of details
    per entry, in the order of the log. *)
Theorem verify_all_summary
        (subprocess_run : list pystr -> result pystr)
        (self : Verifier.verifier) (ds : list value)
        (rows : list (value * bool)) :
  get (Verifier.log_data self) (u "deployments") (VList []) = Ok (VList ds) ->
  VerifyProps.entry_rows subprocess_run self ds = Ok rows ->
  ds <> [] ->
  let total := Z.of_nat (length ds) in
  let verified := VerifyProps.count_verdict true rows in
  let failed := VerifyProps.count_verdict false rows in
  let rate := Qred (inject_Z verified / inject_Z total) in
  Verifier.verify_all subprocess_run self
  = Ok (VerifyProps.summary total verified failed (VFloat rate)
                            (map fst rows)) /\
  (verified + failed = total)%Z /\
  (0 <= verified)%Z /\ (0 <= failed)%Z /\
  length (map fst rows) = length ds /\
  (0 <= rate)%Q /\ (rate <= 1)%Q.
Proof.
  intros Hd Hrows Hne total verified failed rate.
  pose proof (entry_rows_length _ _ _ Hrows) as Hlen.
  pose proof (count_verdict_total rows) as Htot.
  pose proof (count_verdict_nonneg true rows) as Hv.
  pose proof (count_verdict_nonneg false rows) as Hf.
  assert (0 < total)%Z as Hpos
      by (subst total; destruct ds; [contradiction|cbn [length]; lia]).
  split; [exact (verify_all_eq subprocess_run self Hd Hrows Hne)|].
  split; [subst total verified failed; rewrite <- Hlen; exact Htot|].
  split; [exact Hv|]. split; [exact Hf|].
  split; [rewrite length_map; exact Hlen|].
  assert (0 < inject_Z total)%Q as Hq
      by (change (inject_Z 0 < inject_Z total)%Q;
          rewrite <- Zlt_Qlt; exact Hpos).
  subst rate. rewrite Qred_correct. split.
  - apply Qle_shift_div_l; [exact Hq|]. rewrite Qmult_0_l.
    change (inject_Z 0 <= inject_Z verified)%Q.
    rewrite <- Zle_Qle. exact Hv.
  - apply Qle_shift_div_r; [exact Hq|]. rewrite Qmult_1_l.
    rewrite <- Zle_Qle.
    subst total verified. rewrite <- Hlen.
    fold failed in Hf. lia.
Qed.

Lemma verify_all_summary_witness :
  let entry filename repo path :=
    VDict [(u "manifest",
            VDict [(u "filename", VStr filename);
                   (u "target_repo", VStr repo);
                   (u "target_path", VStr path)])] in
  let log :=
    VDict [(u "deployments",
            VList [entry (u "a.md") (u "life-os") (u "docs/a.md");
                   entry (u "b.py") (u "life-os") (u "src/b.py");
                   entry (u "c.py") (u "life-os") (u "src/c.py")])] in
  let run (cmd : list pystr) :=
    if str_eqb (last cmd [])
         (u "https://api.github.com/repos/breverdbidder/life-os/contents/src/b.py")
    then Ok (u "404") else Ok (u "200") in
  bind (Verifier.verify_all run (Verifier.new_verifier log))
       (fun s => subscript s (u "success_rate"))
  = Ok (VFloat (2 # 3)).
Proof.
  intros entry log run.
  refine (eq_trans
            (f_equal (fun r => bind r (fun s => subscript s (u "success_rate")))
               (proj1 (@verify_all_summary
                         run (Verifier.new_verifier log)
                         [entry (u "a.md") (u "life-os") (u "docs/a.md");
                          entry (u "b.py") (u "life-os") (u "src/b.py");
                          entry (u "c.py") (u "life-os") (u "src/c.py")]
                         _ eq_refl eq_refl _))) _).
  - discriminate.
  - vm_compute. reflexivity.
Defined.

(** X8. An entry of the log without a manifest (or with an empty one) is
    not an error for the loop of [verify_all]: it is checked with an empty
    repository and an empty path, that is against the address that ends in
    //contents/, and it is reported under the file name unknown. *)
Theorem verify_entry_without_manifest
        (subprocess_run : list pystr -> result pystr)
        (self : Verifier.verifier) (items : dict) (v f : Z)
        (rows : list value) :
  lookup items (u "manifest") = None \/
  lookup items (u "manifest") = Some (VDict []) ->
  let verdict :=
    Verifier.verify_file_exists subprocess_run self (VStr []) (VStr []) in
  let row := detail_row (VStr (u "unknown")) (VStr []) (VStr []) verdict in
  Verifier.verify_step subprocess_run self (v, f, rows) (VDict items)
  = Ok (if verdict then (v + 1, f, rows ++ [row])
        else (v, f + 1, rows ++ [row]))%Z /\
  last (Verifier.curl_cmd self (VStr []) (VStr [])) []
  = Verifier.github_api self ++ u "/repos/" ++ Verifier.github_user self
    ++ u "//contents/".
Proof.
  intros Hm verdict row. split.
  - unfold Verifier.verify_step. cbn [get].
    destruct Hm as [-> | ->]; cbn [bind get lookup];
      fold verdict; destruct verdict; reflexivity.
  - unfold Verifier.curl_cmd. cbn [last str_of]. reflexivity.
Qed.

Lemma verify_entry_without_manifest_witness :
  Verifier.verify_step
    (fun _ => Ok (u "404")) (Verifier.new_verifier (VDict []))
    (0, 0, [])%Z (VDict [(u "filepath", VStr (u "/tmp/x"))])
  = Ok (0, 1,
        [detail_row (VStr (u "unknown")) (VStr []) (VStr []) false])%Z.
Proof.
  exact (proj1 (@verify_entry_without_manifest
                  (fun _ => Ok (u "404")) (Verifier.new_verifier (VDict []))
                  [(u "filepath", VStr (u "/tmp/x"))] 0%Z 0%Z []
                  (or_introl eq_refl))).
Defined.

(** X9. What [verify_all] raises on a malformed log. A log that is not a
    JSON object: AttributeError. A deployments member that is null or a
    number or a boolean: TypeError. An entry that is not an object:
    AttributeError, raised when the loop reaches it, after the entries
    before it were checked. *)
Theorem verify_all_malformed
        (subprocess_run : list pystr -> result pystr) (log : value) :
  ((forall items, log <> VDict items) ->
   Verifier.verify_all subprocess_run (Verifier.new_verifier log)
   = Raise AttributeError) /\
  (forall v,
      get log (u "deployments") (VList []) = Ok v ->
      v = VNone \/ (exists z, v = VInt z) \/ (exists b, v = VBool b) \/
      (exists q, v = VFloat q) ->
      Verifier.verify_all subprocess_run (Verifier.new_verifier log)
      = Raise TypeError) /\
  (forall ds1 d ds2 rows1,
      get log (u "deployments") (VList []) = Ok (VList (ds1 ++ d :: ds2)) ->
      VerifyProps.entry_rows subprocess_run (Verifier.new_verifier log) ds1
      = Ok rows1 ->
      (forall items, d <> VDict items) ->
      Verifier.verify_all subprocess_run (Verifier.new_verifier log)
      = Raise AttributeError).
Proof.
  split; [|split].
  - intros Hn. unfold Verifier.verify_all.
    cbn [Verifier.log_data Verifier.new_verifier].
    destruct log; try reflexivity. exfalso. eapply Hn. reflexivity.
  - intros v Hv Hcase. unfold Verifier.verify_all.
    cbn [Verifier.log_data Verifier.new_verifier]. rewrite Hv.
    destruct Hcase as [->|[(z & ->)|[(b & ->)|(q & ->)]]]; reflexivity.
  - intros ds1 d ds2 rows1 Hd Hrows Hn.
    apply (@verify_all_loop_raises subprocess_run _ (ds1 ++ d :: ds2));
      [exact Hd|].
    rewrite entry_rows_app, Hrows. cbn [bind VerifyProps.entry_rows].
    unfold VerifyProps.entry_row.
    destruct d; try reflexivity. exfalso. eapply Hn. reflexivity.
Qed.

Lemma verify_all_malformed_witness :
  Verifier.verify_all
    (fun _ => Ok (u "200"))
    (Verifier.new_verifier
       (VDict [(u "deployments",
                VList [VDict [(u "manifest", VDict [])];
                       VStr (u "docs/a.md")])]))
  = Raise AttributeError.
Proof.
  apply (proj2 (proj2 (@verify_all_malformed
                         (fun _ => Ok (u "200"))
                         (VDict [(u "deployments",
                                  VList [VDict [(u "manifest", VDict [])];
                                         VStr (u "docs/a.md")])])))
           [VDict [(u "manifest", VDict [])]] (VStr (u "docs/a.md")) []
           _ eq_refl eq_refl).
  intros items. discriminate.
Defined.

(** X10. How the verifier's [main] ends. Without a log file: exit status 1.
    With a log that has no entry: the ZeroDivisionError of [verify_all]
    is not caught. With a log whose entries all go through the loop: exit
    status 0 when every entry is verified and 1 when at least one is not. *)
Theorem verifier_main_exit
        (subprocess_run : list pystr -> result pystr) :
  VerifierMain.main subprocess_run None = VerifierMain.SysExit 1 /\
  (forall log,
      get log (u "deployments") (VList []) = Ok (VList []) ->
      VerifierMain.main subprocess_run (Some log)
      = VerifierMain.Uncaught ZeroDivisionError) /\
  (forall log ds rows,
      get log (u "deployments") (VList []) = Ok (VList ds) ->
      ds <> [] ->
      VerifyProps.entry_rows subprocess_run (Verifier.new_verifier log) ds
      = Ok rows ->
      VerifierMain.main subprocess_run (Some log)
      = VerifierMain.SysExit (if forallb snd rows then 0 else 1)).
Proof.
  split; [reflexivity|]. split.
  - intros log Hd. unfold VerifierMain.main. cbv zeta.
    unfold Verifier.verify_all.
    cbn [Verifier.log_data Verifier.new_verifier]. rewrite Hd. reflexivity.
  - intros log ds rows Hd Hne Hrows. unfold VerifierMain.main. cbv zeta.
    rewrite (@verify_all_eq subprocess_run (Verifier.new_verifier log)
               ds rows Hd Hrows Hne).
    unfold VerifierMain.save_verification_report.
    cbn [Verifier.log_data Verifier.new_verifier].
    destruct log as [| | | | | |items]; try discriminate Hd.
    cbn [get bind].
    change (subscript (VerifyProps.summary _ _ _ _ _) (u "failed"))
      with (Ok (VInt (VerifyProps.count_verdict false rows))).
    cbn [bind VerifierMain.gt_zero]. rewrite count_false_zero.
    destruct (forallb snd rows); reflexivity.
Qed.

Lemma verifier_main_exit_witness :
  let log :=
    VDict [(u "deployments",
            VList [VDict [(u "manifest",
                           VDict [(u "filename", VStr (u "a.md"));
                                  (u "target_repo", VStr (u "life-os"));
                                  (u "target_path", VStr (u "docs/a.md"))])]])] in
  VerifierMain.main (fun _ => Ok (u "200")) (Some log) = VerifierMain.SysExit 0
  /\ VerifierMain.main (fun _ => Ok (u "404")) (Some log)
     = VerifierMain.SysExit 1.
Proof.
  intros log. split.
  - refine (proj2 (proj2 (@verifier_main_exit (fun _ => Ok (u "200"))))
              log _ _ eq_refl _ eq_refl).
    discriminate.
  - refine (proj2 (proj2 (@verifier_main_exit (fun _ => Ok (u "404"))))
              log _ _ eq_refl _ eq_refl).
    discriminate.
Defined.

(* ===================================================================== *)
(** * A whole run, and the verification of its log *)
(* ===================================================================== *)

Section RunDetail.
Import Deployer RunProps.

Variable fs : node.
Variable utcnow : nat -> pystr.

Lemma advance_nil (self : deployer) : advance self [] 0 = self.
Proof.
  destruct self. unfold advance. cbn. rewrite app_nil_r. reflexivity.
Qed.

Lemma advance_advance (self : deployer) (a b : list value) (m n : nat) :
  advance (advance self a m) b n = advance self (a ++ b) (n + m).
Proof.
  unfold advance. cbn. rewrite <- app_assoc, Nat.add_assoc. reflexivity.
Qed.

(** The loop of [deploy_all], file by file. *)
Lemma deploy_each_detail (files : list Path) :
  forall (results : list value) (self : deployer),
  exists rs entries ticks,
    deploy_each fs utcnow files results self
    = (Ok (results ++ rs), advance self entries ticks) /\
    run_log fs files rs entries.
Proof.
  induction files as [|f files IH]; intros results self.
  - exists [], [], 0%nat. cbn [deploy_each]. unfold ret.
    rewrite app_nil_r, advance_nil. split; [reflexivity|constructor].
  - cbn [deploy_each]. rewrite bindM_run. unfold try_except.
    destruct (read_bytes fs f) as [bs|e] eqn:Hr.
    + destruct (route_file_fields f) as (repo & prefix & descr & Hroute).
      destruct (@encode_file_readable fs f bs Hr)
        as (content & b & Henc & Hc).
      destruct (utf8_encode_ok Hc) as (payload & Hp).
      rewrite (@deploy_file_explicit fs utcnow self f repo prefix descr
                 content b bs payload Hr Hroute Henc Hp).
      cbv zeta.
      match goal with
      | |- context [advance self [?entry] 2] =>
          match entry with
          | log_entry _ _ ?res _ =>
              destruct (IH (results ++ [res]) (advance self [entry] 2))
                as (rs & entries & ticks & E & Hrun);
              exists (res :: rs), (entry :: entries), (ticks + 2)%nat
          end
      end.
      rewrite E, <- app_assoc, advance_advance.
      split; [reflexivity|].
      apply (run_prepared _ _ _ _ Hr Hroute Henc Hrun).
    + rewrite (@deploy_file_unreadable fs utcnow f e self Hr). unfold ret.
      destruct (IH (results ++ [failed_result e f]) self)
        as (rs & entries & ticks & E & Hrun).
      exists (failed_result e f :: rs), entries, ticks.
      rewrite E, <- app_assoc. split; [reflexivity|].
      apply (run_failed _ Hr Hrun).
Qed.

Lemma deploy_all_detail (self : deployer) :
  exists rs entries ticks,
    deploy_all fs utcnow self = (Ok rs, advance self entries ticks) /\
    run_log fs (scan_outputs fs self) rs entries.
Proof.
  unfold deploy_all. rewrite bindM_run. unfold self_.
  destruct (scan_outputs fs self) as [|f files] eqn:Es.
  - exists [], [], 0%nat. unfold ret. rewrite advance_nil.
    split; [reflexivity|constructor].
  - destruct (deploy_each_detail (f :: files) [] self)
      as (rs & entries & ticks & E & Hrun).
    exists rs, entries, ticks. split; [exact E|exact Hrun].
Qed.

Lemma run_log_lengths (files : list Path) (rs entries : list value) :
  run_log fs files rs entries ->
  length rs = length files /\
  length entries = length (filter (readable fs) files).
Proof.
  induction 1 as [|f files e rs es Hr _ [IH1 IH2]
                  |f files bs repo prefix descr content b cmd created now
                     rs es Hr _ _ _ [IH1 IH2]].
  - split; reflexivity.
  - cbn [filter length]. unfold readable at 1. rewrite Hr.
    split; congruence.
  - cbn [filter length]. unfold readable at 1. rewrite Hr.
    cbn [length]. split; congruence.
Qed.

Lemma run_log_status (files : list Path) (rs entries : list value) :
  run_log fs files rs entries ->
  count_status (u "prepared") entries = Ok (length entries) /\
  count_status (u "failed") entries = Ok O.
Proof.
  induction 1 as [|f files e rs es Hr _ IH
                  |f files bs repo prefix descr content b cmd created now
                     rs es Hr _ _ _ [IH1 IH2]].
  - split; reflexivity.
  - exact IH.
  - cbn [count_status].
    change (log_status_is (u "prepared") (log_entry _ _ (prepared_dict _ _ _ _) _))
      with (Ok true).
    change (log_status_is (u "failed") (log_entry _ _ (prepared_dict _ _ _ _) _))
      with (Ok false).
    cbn [bind]. rewrite IH1, IH2. split; reflexivity.
Qed.

End RunDetail.

(** X12. After [deploy_all] on a new deployer, the header numbers of
    [generate_deployment_report] are: Total Files, the number of readable
    files among the scanned ones (not the number of files found); Prepared,
    the same number; Failed, always 0. *)
Theorem report_after_run (fs : node) (utcnow : nat -> pystr)
        (outputs : Path) (token : pystr) :
  exists results self',
    Deployer.deploy_all fs utcnow (Deployer.new_deployer outputs token)
    = (Ok results, self') /\
    let scanned :=
      Deployer.scan_outputs fs (Deployer.new_deployer outputs token) in
    let served := length (filter (RunProps.readable fs) scanned) in
    length results = length scanned /\
    Deployer.report_counts self' = Ok (served, served, O).
Proof.
  destruct (deploy_all_detail fs utcnow (Deployer.new_deployer outputs token))
    as (rs & entries & ticks & E & Hrun).
  eexists. eexists. split; [exact E|]. cbv zeta.
  destruct (run_log_lengths Hrun) as [L1 L2].
  destruct (run_log_status Hrun) as [S1 S2].
  split; [exact L1|].
  unfold Deployer.report_counts, RunProps.advance.
  cbn [Deployer.deployment_log Deployer.new_deployer app].
  rewrite S1, S2, L2. reflexivity.
Qed.

Section RunVerified.
Import Verifier VerifyProps RunProps.

Variable fs : node.
Variable subprocess_run : list pystr -> result pystr.
Variable vself : verifier.

(** The verification pass on the log of a run: one row per readable file,
    looked for where the router sends it. *)
Lemma run_log_rows (files : list Path) (rs entries : list value) :
  run_log fs files rs entries ->
  exists rows,
    entry_rows subprocess_run vself entries = Ok rows /\
    Forall2 (verified_as subprocess_run vself)
            (filter (readable fs) files) rows.
Proof.
  induction 1 as [|f files e rs es Hr _ IH
                  |f files bs repo prefix descr content b cmd created now
                     rs es Hr Hroute _ _ (rows & IH & F)].
  - exists []. split; [reflexivity|constructor].
  - cbn [filter]. unfold readable at 1. rewrite Hr. exact IH.
  - cbn [filter entry_rows]. unfold readable at 1. rewrite Hr.
    unfold entry_row.
    match goal with
    | |- context [get (log_entry ?a ?m ?r ?n) (u "manifest") ?d] =>
        change (get (log_entry a m r n) (u "manifest") d) with (Ok m)
    end.
    cbn [bind].
    match goal with
    | |- context [get ?m (u "filename") ?d] =>
        change (get m (u "filename") d) with (Ok (VStr (name f)));
        change (get m (u "target_repo") (VStr [])) with (Ok (VStr repo));
        change (get m (u "target_path") (VStr []))
          with (Ok (VStr (prefix ++ name f)))
    end.
    cbn [bind]. rewrite IH. cbn [bind].
    eexists. split; [reflexivity|].
    constructor; [|exact F].
    exists repo, prefix, descr. cbn [fst snd]. auto.
Qed.

End RunVerified.

(** X14. A run of [deploy_all] on a new deployer, [save_deployment_log],
    and then [verify_all] on the saved document. The document counts and
    lists one deployment per readable scanned file. With no readable file
    the verification raises ZeroDivisionError; otherwise it returns a
    summary whose total is the number of readable files and whose details
    hold, in scan order, one row per readable file, checked in the
    repository and under the path prefix that [route_file] gives the
    file. *)
Theorem run_then_verify (fs : node) (utcnow : nat -> pystr)
        (outputs : Path) (token : pystr)
        (subprocess_run : list pystr -> result pystr) :
  exists results self' document,
    Deployer.deploy_all fs utcnow (Deployer.new_deployer outputs token)
    = (Ok results, self') /\
    DeployerMain.save_deployment_log utcnow self'
    = (Ok document, RunProps.ticked self') /\
    let served :=
      filter (RunProps.readable fs)
             (Deployer.scan_outputs fs (Deployer.new_deployer outputs token)) in
    let verifier := Verifier.new_verifier document in
    subscript document (u "total_deployments")
    = Ok (VInt (Z.of_nat (length served))) /\
    match served with
    | [] =>
        Verifier.verify_all subprocess_run verifier = Raise ZeroDivisionError
    | _ :: _ =>
        exists rows,
          Forall2 (VerifyProps.verified_as subprocess_run verifier)
                  served rows /\
          Verifier.verify_all subprocess_run verifier
          = Ok (VerifyProps.summary
                  (Z.of_nat (length served))
                  (VerifyProps.count_verdict true rows)
                  (VerifyProps.count_verdict false rows)
                  (VFloat (Qred (inject_Z (VerifyProps.count_verdict true rows)
                                 / inject_Z (Z.of_nat (length served)))))
                  (map fst rows))
    end.
Proof.
  destruct (deploy_all_detail fs utcnow (Deployer.new_deployer outputs token))
    as (rs & entries & ticks & E & Hrun).
  exists rs. eexists.
  exists (RunProps.log_document
            (utcnow (ticks + 0)%nat ++ u "Z") entries).
  split; [exact E|]. split; [reflexivity|]. cbv zeta.
  destruct (run_log_lengths Hrun) as [_ L].
  split; [cbn; rewrite L; reflexivity|].
  set (doc := RunProps.log_document _ _).
  destruct (run_log_rows subprocess_run (Verifier.new_verifier doc) Hrun)
    as (rows & Hrows & F).
  assert (get (Verifier.log_data (Verifier.new_verifier doc))
              (u "deployments") (VList []) = Ok (VList entries)) as Hd
      by reflexivity.
  destruct (filter (RunProps.readable fs) _) as [|f served] eqn:Ef.
  - destruct entries; [|discriminate L].
    unfold Verifier.verify_all. rewrite Hd. reflexivity.
  - exists rows. split; [exact F|].
    assert (entries <> []) as Hne by (destruct entries; discriminate).
    rewrite (@verify_all_eq subprocess_run (Verifier.new_verifier doc)
               entries rows Hd Hrows Hne), L.
    reflexivity.
Qed.

(* ===================================================================== *)
(** * Error behaviour of the encoder and of the manifest builder *)
(* ===================================================================== *)

(** X15. [encode_file] returns exactly when the file can be read: the
    flag is_binary then says whether the bytes fail to decode as UTF-8, and
    the content can always be encoded again. When reading raises,
    [encode_file] raises the same error; the decoding error itself is never
    raised, it selects the base64 form. *)
Theorem encode_file_errors (fs : node) (filepath : Path) :
  match read_bytes fs filepath with
  | Ok bs =>
      exists content,
        Deployer.encode_file fs filepath
        = Ok (content, match utf8_decode bs with
                       | Some _ => false
                       | None => true
                       end) /\
        exists payload, utf8_encode content = Ok payload
  | Raise e => Deployer.encode_file fs filepath = Raise e
  end /\
  Deployer.encode_file fs filepath <> Raise UnicodeDecodeError.
Proof.
  destruct (read_bytes fs filepath) as [bs|e] eqn:Hr.
  - destruct (utf8_decode bs) as [text|] eqn:Hd.
    + pose proof (@encode_file_text fs filepath bs text Hr Hd) as E.
      split; [|rewrite E; discriminate].
      exists (universal_newlines text). split; [exact E|].
      apply utf8_encode_ok, universal_newlines_scalar,
        (utf8_decode_scalar _ Hd).
    + pose proof (@encode_file_binary fs filepath bs Hr Hd) as E.
      split; [|rewrite E; discriminate].
      exists (b64encode bs). split; [exact E|].
      apply utf8_encode_ok, b64encode_scalar.
  - rewrite (@encode_file_unreadable fs filepath e Hr).
    split; [reflexivity|].
    intros H. injection H as ->. unfold read_bytes in Hr.
    destruct (resolve fs filepath) as [[[|] d| |]|]; discriminate Hr.
Qed.

Section ManifestErrors.
Import Deployer.

Variable fs : node.
Variable utcnow : nat -> pystr.

(** When the manifest builder raises, it has not touched the deployer. *)
Lemma create_manifest_raise (filepath : Path) (route : value)
      (content : pystr) (is_binary : bool) (self self' : deployer) (e : exn) :
  create_deployment_manifest fs utcnow filepath route content is_binary self
  = (Raise e, self') ->
  self' = self.
Proof.
  unfold create_deployment_manifest.
  repeat (rewrite bindM_lift;
          match goal with
          | |- context [match ?x with Ok _ => _ | Raise _ => _ end] =>
              destruct x
          end;
          [|intros H; injection H as _ <-; reflexivity]).
  unfold bindM, timestamp, ret. intros H. discriminate H.
Qed.

End ManifestErrors.

(** X16. Errors of [create_deployment_manifest]. The checksum is computed
    first, so an unreadable file raises the error of the read whatever the
    route is. For a readable file, a route without the key repo raises
    KeyError, and a path prefix that is not a string raises TypeError.
    Whenever the builder raises, the deployer is as before: the clock was
    not read and the log is untouched. *)
Theorem create_manifest_errors (fs : node) (utcnow : nat -> pystr)
        (filepath : Path) (route : value) (content : pystr)
        (is_binary : bool) (self : Deployer.deployer) :
  let run :=
    Deployer.create_deployment_manifest fs utcnow filepath route content
                                        is_binary self in
  (forall e self', run = (Raise e, self') -> self' = self) /\
  (forall e, read_bytes fs filepath = Raise e -> run = (Raise e, self)) /\
  (forall bs items,
      read_bytes fs filepath = Ok bs -> route = VDict items ->
      lookup items (u "repo") = None ->
      run = (Raise (KeyError (u "repo")), self)) /\
  (forall bs items repo prefix,
      read_bytes fs filepath = Ok bs -> route = VDict items ->
      lookup items (u "repo") = Some repo ->
      lookup items (u "path") = Some prefix ->
      (forall s, prefix <> VStr s) ->
      run = (Raise TypeError, self)).
Proof.
  cbv zeta. split; [|split; [|split]].
  - intros e self' H.
    exact (@create_manifest_raise fs utcnow filepath route content is_binary
             self self' e H).
  - intros e Hr. unfold Deployer.create_deployment_manifest.
    rewrite bindM_lift. unfold Deployer.calculate_checksum. rewrite Hr.
    reflexivity.
  - intros bs items Hr -> Hk. unfold Deployer.create_deployment_manifest.
    rewrite bindM_lift, (@calculate_checksum_eq fs filepath bs Hr).
    cbn beta iota. rewrite bindM_lift. cbn [subscript]. unfold getitem.
    rewrite Hk. reflexivity.
  - intros bs items repo prefix Hr -> Hk1 Hk2 Hn.
    unfold Deployer.create_deployment_manifest.
    rewrite bindM_lift, (@calculate_checksum_eq fs filepath bs Hr).
    cbn beta iota. rewrite bindM_lift. cbn [subscript]. unfold getitem.
    rewrite Hk1. cbn beta iota. rewrite bindM_lift, Hk2. cbn beta iota.
    rewrite bindM_lift. unfold add_str.
    destruct prefix; try reflexivity. exfalso. eapply Hn. reflexivity.
Qed.

Lemma create_manifest_errors_witness :
  Deployer.create_deployment_manifest
    (Dir [(u "a.txt", File true [])]) (fun _ => u "2025-01-03T00:00:00")
    [u "a.txt"] (VDict [(u "path", VStr (u "docs/"))]) [] false
    (Deployer.new_deployer [] (u "t0ken"))
  = (Raise (KeyError (u "repo")), Deployer.new_deployer [] (u "t0ken")).
Proof.
  exact (proj1 (proj2 (proj2
           (@create_manifest_errors
              (Dir [(u "a.txt", File true [])])
              (fun _ => u "2025-01-03T00:00:00") [u "a.txt"]
              (VDict [(u "path", VStr (u "docs/"))]) [] false
              (Deployer.new_deployer [] (u "t0ken")))))
           [] [(u "path", VStr (u "docs/"))] eq_refl eq_refl eq_refl).
Defined.

(* ===================================================================== *)
(** * Names with a line feed *)
(* ===================================================================== *)

Section AnchoredPatterns.
Import Anchored.

Lemma dot_no_newline (s : pystr) :
  Forall (fun c => dot c = true) s -> has_newline s = false.
Proof.
  unfold has_newline. induction 1 as [|c s Hc _ IH]; [reflexivity|].
  cbn [existsb]. rewrite IH, orb_false_r. unfold dot in Hc.
  rewrite N.eqb_sym. apply negb_true_iff, Hc.
Qed.

Lemma lit_no_newline (l t : pystr) :
  forallb (fun p => negb (char_ic p LF)) l = true ->
  Forall2 (fun p c => char_ic p c = true) l t ->
  has_newline t = false.
Proof.
  intros Hl F. induction F as [|p c l t Hpc _ IH]; [reflexivity|].
  cbn [forallb] in Hl. apply andb_true_iff in Hl. destruct Hl as [Hp Hl].
  unfold has_newline. cbn [existsb]. fold (has_newline t).
  rewrite (IH Hl), orb_false_r. apply N.eqb_neq. intros <-.
  rewrite Hpc in Hp. discriminate Hp.
Qed.

(** A plain item consumes a part without line feed, whatever follows. *)
Lemma plain_item_sem (i : item) (s s1 : pystr) :
  plain i = true -> item_sem i s s1 ->
  exists p,
    s = p ++ s1 /\ has_newline p = false /\
    forall x, item_sem i (p ++ x) x.
Proof.
  intros Hi H. inversion H as [pre rest F|l pre rest F|bs l pre rest Hin F|];
    subst.
  - exists pre. split; [reflexivity|]. split; [apply dot_no_newline, F|].
    intros x. apply sem_star, F.
  - exists pre. split; [reflexivity|].
    split; [exact (@lit_no_newline l pre Hi F)|].
    intros x. apply sem_lit, F.
  - exists pre. split; [reflexivity|]. cbn [plain] in Hi.
    rewrite forallb_forall in Hi.
    split; [exact (@lit_no_newline l pre (Hi l Hin) F)|].
    intros x. eapply sem_alt; eassumption.
  - discriminate Hi.
Qed.

Lemma plain_sem (r : regex) (s rest : pystr) :
  forallb plain r = true -> sem r s rest ->
  exists p,
    s = p ++ rest /\ has_newline p = false /\
    forall x, sem r (p ++ x) x.
Proof.
  intros Hr H. induction H as [s|i r s s1 s2 Hi _ IH].
  - exists []. split; [reflexivity|]. split; [reflexivity|].
    intros x. constructor.
  - cbn [forallb] in Hr. apply andb_true_iff in Hr. destruct Hr as [Hp Hr].
    destruct (IH Hr) as (p2 & -> & N2 & K2).
    destruct (plain_item_sem Hp Hi) as (p1 & -> & N1 & K1).
    exists (p1 ++ p2). split; [apply app_assoc|].
    split; [rewrite has_newline_app, N1, N2; reflexivity|].
    intros x. rewrite <- app_assoc.
    econstructor; [apply K1|apply K2].
Qed.

Lemma anchored_inv (r : regex) :
  anchored r = true ->
  exists r0, r = r0 ++ [Eol] /\ forallb plain r0 = true.
Proof.
  induction r as [|i r IH]; [discriminate|].
  destruct r as [|j r].
  - destruct i; try discriminate. intros _. exists []. auto.
  - intros H. change (plain i && anchored (j :: r) = true) in H.
    apply andb_true_iff in H. destruct H as [Hi Hr].
    destruct (IH Hr) as (r0 & E & P). exists (i :: r0).
    rewrite E. split; [reflexivity|]. cbn [forallb]. rewrite Hi, P.
    reflexivity.
Qed.

(** What an anchored pattern matches: a part without line feed that is
    followed by the end of the name, or by a line feed that ends it. *)
Lemma anchored_match (r : regex) (s : pystr) :
  anchored r = true ->
  (re_match r s = true <->
   exists p x,
     s = p ++ x /\ has_newline p = false /\ (x = [] \/ x = [LF]) /\
     forall y, y = [] \/ y = [LF] -> re_match r (p ++ y) = true).
Proof.
  intros Ha. destruct (@anchored_inv _ Ha) as (r0 & -> & P).
  unfold re_match. split.
  - intros H. apply match_here_sem in H. destruct H as (rest & H).
    apply sem_app in H. destruct H as (mid & H1 & H2).
    apply sem_eol_inv in H2. destruct H2 as [-> Hm].
    destruct (plain_sem P H1) as (p & -> & Np & K).
    exists p, mid. split; [reflexivity|]. split; [exact Np|].
    split; [exact Hm|]. intros y Hy. apply match_here_sem. exists y.
    apply sem_app. exists y. split; [apply K|].
    econstructor; [apply sem_eol, Hy|constructor].
  - intros (p & x & -> & _ & Hx & K). apply K, Hx.
Qed.

(** A line feed that ends the name is not seen by an anchored pattern. *)
Lemma anchored_lf_end (r : regex) (n0 : pystr) :
  anchored r = true -> has_newline n0 = false ->
  re_match r (n0 ++ [LF]) = re_match r n0.
Proof.
  intros Ha Hn. apply eq_iff_eq_true.
  rewrite !(@anchored_match r _ Ha). split.
  - intros (p & x & E & Np & [->| ->] & K).
    + rewrite app_nil_r in E. subst p. rewrite has_newline_app in Np.
      apply orb_false_iff in Np. destruct Np as [_ Np]. discriminate Np.
    + apply app_inj_tail in E. destruct E as [<- _].
      exists n0, []. rewrite app_nil_r. auto.
  - intros (p & x & E & Np & [->| ->] & K).
    + rewrite app_nil_r in E. subst p. exists n0, [LF]. auto.
    + rewrite E, has_newline_app in Hn. apply orb_false_iff in Hn.
      destruct Hn as [_ Hn]. discriminate Hn.
Qed.

(** A line feed before the last character defeats an anchored pattern. *)
Lemma anchored_lf_inside (r : regex) (n0 rest : pystr) :
  anchored r = true -> rest <> [] ->
  re_match r (n0 ++ LF :: rest) = false.
Proof.
  intros Ha Hr. apply not_true_is_false. intros H.
  apply (@anchored_match r _ Ha) in H.
  destruct H as (p & x & E & Np & Hx & _).
  assert (has_newline p = true) as Hp; [|congruence].
  destruct Hx as [->| ->].
  - rewrite app_nil_r in E. subst p. rewrite has_newline_app.
    cbn. apply orb_true_r.
  - destruct (@exists_last _ rest Hr) as (rest0 & c & ->).
    change (n0 ++ LF :: rest0 ++ [c]) with (n0 ++ (LF :: rest0) ++ [c]) in E.
    rewrite app_assoc in E. apply app_inj_tail in E. destruct E as [<- _].
    rewrite has_newline_app. cbn. apply orb_true_r.
Qed.

Lemma routing_rules_anchored :
  forallb (fun rule => anchored (fst rule)) Deployer.ROUTING_RULES = true.
Proof. reflexivity. Qed.

Lemma route_rules_lf_end (rules : list (regex * dict)) (n0 k : pystr) :
  forallb (fun rule => anchored (fst rule)) rules = true ->
  has_newline n0 = false ->
  str_eqb (u "filename") k = false ->
  bind (Deployer.route_rules rules (n0 ++ [LF])) (fun d => subscript d k)
  = bind (Deployer.route_rules rules n0) (fun d => subscript d k).
Proof.
  intros Hr Hn Hk. induction rules as [|[pattern tgt] rules IH];
    cbn [Deployer.route_rules].
  - cbn [bind Deployer.fallback subscript]. unfold getitem.
    cbn [lookup]. rewrite Hk. reflexivity.
  - cbn [forallb fst] in Hr. apply andb_true_iff in Hr.
    destruct Hr as [Ha Hr]. rewrite (@anchored_lf_end _ _ Ha Hn).
    destruct (re_match pattern n0); [|exact (IH Hr)].
    unfold Deployer.routed.
    destruct (getitem tgt (u "repo")); [|reflexivity].
    destruct (getitem tgt (u "path")); [|reflexivity].
    destruct (getitem tgt (u "description")); [|reflexivity].
    cbn [bind subscript]. unfold getitem. cbn [lookup]. rewrite Hk.
    reflexivity.
Qed.

Lemma route_rules_lf_inside (rules : list (regex * dict)) (n0 rest : pystr) :
  forallb (fun rule => anchored (fst rule)) rules = true ->
  rest <> [] ->
  Deployer.route_rules rules (n0 ++ LF :: rest)
  = Ok (Deployer.fallback (n0 ++ LF :: rest)).
Proof.
  intros Hr Hne. induction rules as [|[pattern tgt] rules IH];
    cbn [Deployer.route_rules]; [reflexivity|].
  cbn [forallb fst] in Hr. apply andb_true_iff in Hr.
  destruct Hr as [Ha Hr]. rewrite (@anchored_lf_inside _ n0 _ Ha Hne).
  exact (IH Hr).
Qed.

End AnchoredPatterns.

(** X17. [route_file] on a name that holds a line feed. Let the first line
    feed of the name come after [n0]. If that line feed ends the name, the
    rule chosen is the one of [n0]: same repository, path prefix and
    description, while the key filename keeps the whole name. If anything
    follows the line feed, no rule matches and the default route is
    returned, whatever the ending of the name. *)
Theorem route_file_line_feed (filepath : Path) (n0 rest : pystr) :
  name filepath = n0 ++ LF :: rest ->
  has_newline n0 = false ->
  match rest with
  | [] =>
      let same k :=
        bind (Deployer.route_file filepath) (fun d => subscript d k)
        = subscript (Classifier.classify n0) k in
      same (u "repo") /\ same (u "path") /\ same (u "description") /\
      bind (Deployer.route_file filepath)
           (fun d => subscript d (u "filename"))
      = Ok (VStr (name filepath))
  | _ :: _ =>
      Deployer.route_file filepath
      = Ok (destination "life-os" "artifacts/" "Unclassified artifact"
                        (name filepath))
  end.
Proof.
  intros E Hn. destruct rest as [|c rest].
  - cbv zeta.
    assert (forall k, str_eqb (u "filename") k = false ->
                      bind (Deployer.route_file filepath)
                           (fun d => subscript d k)
                      = subscript (Classifier.classify n0) k) as Same.
    { intros k Hk. unfold Deployer.route_file. rewrite E.
      rewrite (@route_rules_lf_end _ _ _ routing_rules_anchored Hn Hk).
      rewrite (@route_rules_classify _ Hn). reflexivity. }
    repeat split; try (apply Same; reflexivity).
    destruct (route_file_fields filepath) as (repo & prefix & descr & ->).
    reflexivity.
  - unfold Deployer.route_file. rewrite E.
    apply route_rules_lf_inside; [exact routing_rules_anchored|discriminate].
Qed.

Lemma route_file_line_feed_witness :
  Deployer.route_file [u "outputs"; u "a" ++ [LF] ++ u "b.md"]
  = Ok (destination "life-os" "artifacts/" "Unclassified artifact"
                    (u "a" ++ [LF] ++ u "b.md")).
Proof.
  exact (@route_file_line_feed [u "outputs"; u "a" ++ [LF] ++ u "b.md"]
           (u "a") (u "b.md") eq_refl eq_refl).
Defined.

(* ===================================================================== *)
(** * Text with carriage returns: what is sent and what is recorded *)
(* ===================================================================== *)

Section CarriageReturn.

Lemma universal_newlines_drops_cr (s : pystr) :
  has_cr (universal_newlines s) = false.
Proof.
  remember (length s) as n eqn:Hn.
  assert (length s <= n)%nat as Hle by lia. clear Hn.
  revert s Hle. induction n as [|n IH]; intros s Hle.
  - destruct s; [reflexivity|simpl in Hle; lia].
  - destruct s as [|c s']; [reflexivity|].
    cbn [universal_newlines]. cbn [length] in Hle.
    destruct (N.eqb_spec c CR) as [->|Hc].
    + destruct s' as [|d s'']; [reflexivity|]. cbn [length] in Hle.
      destruct (d =? LF); unfold has_cr; cbn [existsb];
        change (CR =? LF) with false; cbn [orb]; apply IH;
        cbn [length]; lia.
    + unfold has_cr. cbn [existsb]. fold (has_cr (universal_newlines s')).
      rewrite IH by lia. rewrite orb_false_r. apply N.eqb_neq.
      intros E. apply Hc. symmetry. exact E.
Qed.

Lemma has_cr_In (s : pystr) : has_cr s = true <-> In CR s.
Proof.
  unfold has_cr. rewrite existsb_exists. split.
  - intros (c & Hin & E). apply N.eqb_eq in E. subst c. exact Hin.
  - intros Hin. exists CR. split; [exact Hin|apply N.eqb_refl].
Qed.

(** The bytes of a character above the ASCII range are all above it. *)
Lemma encode_char_high (c v : N) :
  scalar c = true -> 128 <= c -> In v (utf8_encode_char c) ->
  128 <= v < 256.
Proof.
  intros Hs Hc. apply scalar_spec in Hs.
  assert (c < 1114112) as Hmax by lia. clear Hs.
  assert (forall a, a mod 64 < 64) as M
      by (intros a; apply N.mod_upper_bound; discriminate).
  assert (forall q, q < 32 -> 128 <= 192 + q < 256) as B2 by (intros; lia).
  assert (forall q, q < 16 -> 128 <= 224 + q < 256) as B3 by (intros; lia).
  assert (forall q, q < 5 -> 128 <= 240 + q < 256) as B4 by (intros; lia).
  assert (forall q, q < 64 -> 128 <= 128 + q < 256) as B by (intros; lia).
  unfold utf8_encode_char.
  destruct (N.ltb_spec c 128); [lia|].
  destruct (N.ltb_spec c 2048).
  { cbn [In]. intros [<-|[<-|[]]]; [apply B2|apply B, M].
    apply N.Div0.div_lt_upper_bound. lia. }
  destruct (N.ltb_spec c 65536).
  { cbn [In]. intros [<-|[<-|[<-|[]]]]; [apply B3|apply B, M|apply B, M].
    apply N.Div0.div_lt_upper_bound. lia. }
  cbn [In].
  intros [<-|[<-|[<-|[<-|[]]]]];
    [apply B4|apply B, M|apply B, M|apply B, M].
  apply N.Div0.div_lt_upper_bound. lia.
Qed.

(** An ASCII byte of the encoded text is a character of the text. *)
Lemma utf8_encode_ascii_byte (s : pystr) (bs : pybytes) (b : Byte.byte) :
  utf8_encode s = Ok bs -> In b bs -> byte_val b < 128 ->
  In (byte_val b) s.
Proof.
  revert bs. induction s as [|c s IH]; intros bs E Hin Hb;
    cbn [utf8_encode] in E.
  - injection E as <-. destruct Hin.
  - destruct (scalar c) eqn:Hs; [|discriminate E].
    destruct (utf8_encode s) as [bs'|e]; [|discriminate E].
    cbn [bind] in E. injection E as <-.
    apply in_app_or in Hin. destruct Hin as [Hin|Hin].
    + left. apply in_map_iff in Hin. destruct Hin as (v & <- & Hv).
      destruct (N.ltb_spec c 128) as [Hc|Hc].
      * unfold utf8_encode_char in Hv.
        destruct (N.ltb_spec c 128); [|lia].
        destruct Hv as [<-|[]]. symmetry. apply byte_val_of. lia.
      * pose proof (@encode_char_high c v Hs Hc Hv) as Hv'.
        rewrite byte_val_of in Hb by lia. lia.
    + right. exact (IH bs' eq_refl Hin Hb).
Qed.

(** An ASCII character of the text is a byte of the encoded text. *)
Lemma utf8_encode_keeps_ascii (s : pystr) (bs : pybytes) (c : N) :
  utf8_encode s = Ok bs -> In c s -> c < 128 -> In (byte_of c) bs.
Proof.
  revert bs. induction s as [|d s IH]; intros bs E Hin Hc;
    cbn [utf8_encode] in E; [destruct Hin|].
  destruct (scalar d) eqn:Hs; [|discriminate E].
  destruct (utf8_encode s) as [bs'|e]; [|discriminate E].
  cbn [bind] in E. injection E as <-. apply in_or_app.
  destruct Hin as [->|Hin].
  - left. unfold utf8_encode_char.
    destruct (N.ltb_spec c 128); [|lia]. left. reflexivity.
  - right. exact (IH bs' eq_refl Hin Hc).
Qed.

(** The text sent for a file with a carriage return holds none, and the
    file holds one. *)
Lemma payload_without_cr (bs payload : pybytes) (text : pystr) :
  utf8_decode bs = Some text -> has_cr text = true ->
  utf8_encode (universal_newlines text) = Ok payload ->
  In (byte_of CR) bs /\ ~ In (byte_of CR) payload.
Proof.
  intros Hd Hcr Hp. split.
  - apply (@utf8_encode_keeps_ascii text bs CR (utf8_encode_decode _ Hd));
      [apply has_cr_In, Hcr|reflexivity].
  - intros Hin.
    pose proof (@utf8_encode_ascii_byte _ _ _ Hp Hin eq_refl) as H.
    change (byte_val (byte_of CR)) with CR in H.
    apply has_cr_In in H.
    rewrite universal_newlines_drops_cr in H. discriminate H.
Qed.

End CarriageReturn.

(** X18. For a readable file whose bytes decode as UTF-8 text with a
    carriage return, what [deploy_file] prepares and what it records
    disagree: the content member of the request decodes to bytes that hold
    no carriage return, hence not to the bytes of the file, while the
    checksum and the size of the manifest are those of the bytes of the
    file. *)
Theorem deploy_text_carriage_return (fs : node) (utcnow : nat -> pystr)
        (filepath : Path) (self : Deployer.deployer) (bs : pybytes)
        (text : pystr) :
  read_bytes fs filepath = Ok bs ->
  utf8_decode bs = Some text ->
  has_cr text = true ->
  exists res self' head manifest payload,
    Deployer.deploy_file fs utcnow filepath self = (Ok res, self') /\
    subscript res (u "command")
    = Ok (VStr (head ++ RunProps.content_field (b64encode payload)
                ++ RunProps.curl_tail)) /\
    b64decode (b64encode payload) = Some payload /\
    ~ In (byte_of CR) payload /\ In (byte_of CR) bs /\ payload <> bs /\
    subscript res (u "manifest") = Ok manifest /\
    subscript manifest (u "checksum")
    = Ok (VStr (Hashlib.hexdigest (Hashlib.update Hashlib.sha256 bs))) /\
    subscript manifest (u "size_bytes") = Ok (VInt (Z.of_nat (length bs))).
Proof.
  intros Hr Hd Hcr.
  destruct (route_file_fields filepath) as (repo & prefix & descr & Hroute).
  pose proof (@encode_file_text fs filepath bs text Hr Hd) as Henc.
  destruct (utf8_encode_ok
              (universal_newlines_scalar
                 (utf8_decode_scalar _ Hd))) as (payload & Hp).
  pose proof (@deploy_file_explicit fs utcnow self filepath repo prefix descr
                (universal_newlines text) false bs payload Hr Hroute Henc Hp)
    as E.
  cbv zeta in E. do 4 eexists. exists payload. split; [exact E|].
  destruct (payload_without_cr _ Hd Hcr Hp) as [Hin Hout].
  split; [reflexivity|]. split; [apply b64_roundtrip|].
  split; [exact Hout|]. split; [exact Hin|].
  split; [intros ->; exact (Hout Hin)|].
  split; [reflexivity|]. split; reflexivity.
Qed.

Lemma deploy_text_carriage_return_witness :
  let bs := map byte_of (u "a" ++ [CR; LF]) in
  let fs := Dir [(u "dos.txt", File true bs)] in
  exists res self' head manifest payload,
    Deployer.deploy_file fs (fun _ => u "2025-01-03T00:00:00") [u "dos.txt"]
                         (Deployer.new_deployer [] (u "t0ken"))
    = (Ok res, self') /\
    subscript res (u "command")
    = Ok (VStr (head ++ RunProps.content_field (b64encode payload)
                ++ RunProps.curl_tail)) /\
    b64decode (b64encode payload) = Some payload /\
    ~ In (byte_of CR) payload /\ In (byte_of CR) bs /\ payload <> bs /\
    subscript res (u "manifest") = Ok manifest /\
    subscript manifest (u "checksum")
    = Ok (VStr (Hashlib.hexdigest (Hashlib.update Hashlib.sha256 bs))) /\
    subscript manifest (u "size_bytes") = Ok (VInt (Z.of_nat (length bs))).
Proof.
  exact (@deploy_text_carriage_return
           (Dir [(u "dos.txt", File true (map byte_of (u "a" ++ [CR; LF])))])
           (fun _ => u "2025-01-03T00:00:00") [u "dos.txt"]
           (Deployer.new_deployer [] (u "t0ken"))
           (map byte_of (u "a" ++ [CR; LF])) (u "a" ++ [CR; LF])
           eq_refl eq_refl eq_refl).
Defined.

(* ===================================================================== *)
(** * The token in what a run writes down *)
(* ===================================================================== *)

Section TokenFacts.
Import Deployer RunProps Disclosure.

Variable fs : node.
Variable utcnow : nat -> pystr.

(** The entry [deploy_file] logs holds the token of the deployer. *)
Lemma log_entry_holds_token (token api user repo path message b64 : pystr)
      (filepath : Path) (manifest : value) (now : pystr) :
  holds_token
    token
    (log_entry filepath manifest
               (prepared_dict
                  repo path
                  (curl_head token api user repo path message
                   ++ content_field b64 ++ curl_tail)
                  manifest)
               now).
Proof.
  exists (u "curl -X PUT " ++ [BSLASH; LF] ++ u "  -H " ++ [DQUOTE]).
  eexists. cbn [log_entry prepared_dict]. unfold curl_head.
  rewrite <- !app_assoc. reflexivity.
Qed.

Lemma deploy_each_token (files : list Path) :
  forall (results : list value) (self : deployer),
  exists rs entries ticks,
    deploy_each fs utcnow files results self
    = (Ok (results ++ rs), advance self entries ticks) /\
    length entries = length (filter (readable fs) files) /\
    Forall (holds_token (github_token self)) entries.
Proof.
  induction files as [|f files IH]; intros results self.
  - exists [], [], 0%nat. cbn [deploy_each]. unfold ret.
    rewrite app_nil_r, advance_nil. auto.
  - cbn [deploy_each filter]. rewrite bindM_run. unfold try_except.
    unfold readable at 1.
    destruct (read_bytes fs f) as [bs|e] eqn:Hr.
    + destruct (route_file_fields f) as (repo & prefix & descr & Hroute).
      destruct (@encode_file_readable fs f bs Hr)
        as (content & b & Henc & Hc).
      destruct (utf8_encode_ok Hc) as (payload & Hp).
      rewrite (@deploy_file_explicit fs utcnow self f repo prefix descr
                 content b bs payload Hr Hroute Henc Hp).
      cbv zeta.
      match goal with
      | |- context [advance self [?entry] 2] =>
          match entry with
          | log_entry _ _ ?res _ =>
              destruct (IH (results ++ [res]) (advance self [entry] 2))
                as (rs & entries & ticks & E & L & F);
              exists (res :: rs), (entry :: entries), (ticks + 2)%nat
          end
      end.
      rewrite E, <- app_assoc, advance_advance.
      split; [reflexivity|]. split; [cbn [length]; rewrite L; reflexivity|].
      constructor; [apply log_entry_holds_token|exact F].
    + rewrite (@deploy_file_unreadable fs utcnow f e self Hr). unfold ret.
      destruct (IH (results ++ [failed_result e f]) self)
        as (rs & entries & ticks & E & L & F).
      exists (failed_result e f :: rs), entries, ticks.
      rewrite E, <- app_assoc. auto.
Qed.

Lemma deploy_all_token (self : deployer) :
  exists rs entries ticks,
    deploy_all fs utcnow self = (Ok rs, advance self entries ticks) /\
    length entries = length (filter (readable fs) (scan_outputs fs self)) /\
    Forall (holds_token (github_token self)) entries.
Proof.
  unfold deploy_all. rewrite bindM_run. unfold self_.
  destruct (scan_outputs fs self) as [|f files] eqn:Es.
  - exists [], [], 0%nat. unfold ret. rewrite advance_nil. auto.
  - exact (deploy_each_token (f :: files) [] self).
Qed.

End TokenFacts.

(** X19. The token reaches the saved log. After [deploy_all] on a new
    deployer, the document of [save_deployment_log] lists one deployment
    per readable scanned file, and the command kept in each of them holds
    the authorization header with the token of the deployer in clear. *)
Theorem token_in_saved_log (fs : node) (utcnow : nat -> pystr)
        (outputs : Path) (token : pystr) :
  exists results self' document entries,
    Deployer.deploy_all fs utcnow (Deployer.new_deployer outputs token)
    = (Ok results, self') /\
    DeployerMain.save_deployment_log utcnow self'
    = (Ok document, RunProps.ticked self') /\
    subscript document (u "deployments") = Ok (VList entries) /\
    length entries
    = length (filter (RunProps.readable fs)
                     (Deployer.scan_outputs
                        fs (Deployer.new_deployer outputs token))) /\
    Forall (Disclosure.holds_token token) entries.
Proof.
  destruct (deploy_all_token fs utcnow (Deployer.new_deployer outputs token))
    as (rs & entries & ticks & E & L & F).
  exists rs. eexists. eexists. exists entries.
  split; [exact E|]. split; [reflexivity|].
  split; [reflexivity|]. split; [exact L|exact F].
Qed.

(* ===================================================================== *)
(** * The deployer on a console *)
(* ===================================================================== *)

Section WritableFacts.
Import ConsoleProps.

Variable ok : N -> bool.
Hypothesis ok_scalar : forall c, scalar c = true -> ok c = true.

Lemma writable_app (a b : pystr) :
  writable ok (a ++ b) = writable ok a && writable ok b.
Proof. apply forallb_app. Qed.

Lemma writable_scalar (text : pystr) :
  forallb scalar text = true -> writable ok text = true.
Proof.
  unfold writable. rewrite !forallb_forall. intros H c Hc.
  apply ok_scalar, H, Hc.
Qed.

Lemma writable_ascii (text : pystr) :
  Forall (fun c => c < 128) text -> writable ok text = true.
Proof.
  intros H. apply writable_scalar, forallb_forall. intros c Hc.
  rewrite Forall_forall in H. specialize (H c Hc). apply scalar_spec. lia.
Qed.

Lemma writable_firstn (n : nat) (text : pystr) :
  writable ok text = true -> writable ok (firstn n text) = true.
Proof.
  intros H. rewrite <- (firstn_skipn n text), writable_app in H.
  apply andb_true_iff in H. tauto.
Qed.

End WritableFacts.

Section TextFacts.

Lemma hexchar_ascii (n : N) : n < 16 -> Hashlib.hexchar n < 128.
Proof.
  intros Hn. unfold Hashlib.hexchar. destruct (N.ltb_spec n 10); lia.
Qed.

Lemma hex_ascii (bs : list N) :
  Forall (fun b => b < 256) bs -> Forall (fun c => c < 128) (Hashlib.hex bs).
Proof.
  induction 1 as [|b bs Hb _ IH]; [constructor|].
  unfold Hashlib.hex. cbn [flat_map app]. fold (Hashlib.hex bs).
  constructor.
  - apply hexchar_ascii, N.Div0.div_lt_upper_bound. exact Hb.
  - constructor; [|exact IH].
    apply hexchar_ascii, N.mod_upper_bound. discriminate.
Qed.

Lemma hexdigest_ascii (h : Hashlib.sha256_obj) :
  Forall (fun c => c < 128) (Hashlib.hexdigest h).
Proof.
  unfold Hashlib.hexdigest, Hashlib.digest.
  destruct (Hashlib.absorb _ _) as [c rest]. apply hex_ascii.
  induction c as [|w c IH]; [constructor|].
  cbn [flat_map]. apply Forall_app. split; [|exact IH].
  unfold Hashlib.be32. cbn [map].
  repeat constructor; apply N.mod_upper_bound; discriminate.
Qed.

Lemma uint_ascii (d : Decimal.uint) :
  Forall (fun c => c < 128) (u (NilEmpty.string_of_uint d)).
Proof.
  induction d; cbn [NilEmpty.string_of_uint]; unfold u in *;
    cbn [list_ascii_of_string map];
    try (constructor; [vm_compute; reflexivity|assumption]).
  constructor.
Qed.

Lemma nat_text_ascii (n : nat) :
  Forall (fun c => c < 128) (str_of (VInt (Z.of_nat n))).
Proof.
  cbn [str_of]. unfold NilZero.string_of_int.
  destruct (Z.to_int (Z.of_nat n)) as [d|d].
  - unfold NilZero.string_of_uint. destruct d; try apply uint_ascii.
    repeat constructor.
  - change (u (String "-" (NilZero.string_of_uint d)))
      with (45 :: u (NilZero.string_of_uint d)).
    constructor; [reflexivity|].
    unfold NilZero.string_of_uint. destruct d; try apply uint_ascii.
    repeat constructor.
Qed.

End TextFacts.

Section ConsoleFacts.
Import ConsoleProps RunProps.

Variable fs : node.
Variable utcnow : nat -> pystr.
Variable isprintable : N -> bool.
Variable stdout_ok : N -> bool.
Variable stdout_error : pystr -> pystr.

Lemma bindIO_run (S A B : Type) (m : Console.IO S A)
      (k : A -> Console.IO S B) (s : S) :
  Console.bindIO m k s
  = match m s with
    | (Console.Returned a, s') => k a s'
    | (Console.Raised e message, s') => (Console.Raised e message, s')
    end.
Proof. reflexivity. Qed.

Lemma bindIO_eval (S A B : Type) (r : result A)
      (k : A -> Console.IO S B) (s : S) :
  Console.bindIO (Console.eval isprintable r) k s
  = match r with
    | Ok a => k a s
    | Raise e => (Console.Raised e (Console.str_exc isprintable e), s)
    end.
Proof. unfold Console.bindIO, Console.eval. destruct r; reflexivity. Qed.

Lemma bindIO_method (A B : Type) (m : Deployer.M A)
      (k : A -> Console.IO Deployer.deployer B) (self : Deployer.deployer) :
  Console.bindIO (Console.method isprintable m) k self
  = match m self with
    | (Ok a, self') => k a self'
    | (Raise e, self') =>
        (Console.Raised e (Console.str_exc isprintable e), self')
    end.
Proof.
  unfold Console.bindIO, Console.method.
  destruct (m self) as [[a|e] self']; reflexivity.
Qed.

Lemma bindIO_print (S B : Type) (text : pystr)
      (k : unit -> Console.IO S B) (s : S) :
  Console.bindIO (Console.print stdout_ok stdout_error text) k s
  = if writable stdout_ok (text ++ [LF]) then k tt s
    else (Console.Raised UnicodeEncodeError (stdout_error text), s).
Proof.
  unfold Console.bindIO, Console.print, writable.
  destruct (forallb stdout_ok (text ++ [LF])); reflexivity.
Qed.

(** The fields of a route are ASCII text. *)
Lemma route_file_fields_ascii (filepath : Path) :
  exists repo prefix description,
    Deployer.route_file filepath
    = Ok (VDict [(u "repo", VStr repo); (u "path", VStr prefix);
                 (u "description", VStr description);
                 (u "filename", VStr (name filepath))]) /\
    forallb scalar repo = true /\ forallb scalar prefix = true.
Proof.
  unfold Deployer.route_file. generalize (name filepath) as n. intros n.
  unfold Deployer.ROUTING_RULES. cbn [Deployer.route_rules].
  repeat match goal with
         | |- exists repo prefix description,
               (if re_match ?p n then _ else _) = _ /\ _ =>
             destruct (re_match p n);
             [do 3 eexists; split; [reflexivity|split; reflexivity]|]
         end.
  do 3 eexists. split; [reflexivity|split; reflexivity].
Qed.

Hypothesis stdout_scalar : forall c, scalar c = true -> stdout_ok c = true.

Lemma stdout_text (text : pystr) :
  forallb scalar text = true -> writable stdout_ok text = true.
Proof. apply writable_scalar, stdout_scalar. Qed.

Lemma stdout_ascii (text : pystr) :
  Forall (fun c => c < 128) text -> writable stdout_ok text = true.
Proof. apply writable_ascii, stdout_scalar. Qed.

(** The first line of [deploy_file] is written exactly when the name can
    be. *)
Lemma processing_line_writable (filepath : Path) :
  writable stdout_ok (processing_line filepath ++ [LF])
  = writable stdout_ok (name filepath).
Proof.
  unfold processing_line. rewrite !writable_app.
  rewrite (@stdout_text [LF; Console.PACKAGE]) by reflexivity.
  rewrite (@stdout_text (u " Processing: ")) by reflexivity.
  rewrite (@stdout_text [LF]) by reflexivity.
  rewrite andb_true_r. reflexivity.
Qed.

Lemma deploy_file_unwritable (filepath : Path) (self : Deployer.deployer) :
  writable stdout_ok (name filepath) = false ->
  Console.deploy_file fs utcnow isprintable stdout_ok stdout_error
                      filepath self
  = (Console.Raised UnicodeEncodeError
                    (stdout_error (processing_line filepath)),
     self).
Proof.
  intros Hn. unfold Console.deploy_file.
  rewrite bindIO_print.
  change ([LF; Console.PACKAGE] ++ u " Processing: " ++ name filepath)
    with (processing_line filepath).
  rewrite processing_line_writable, Hn. reflexivity.
Qed.

Lemma deploy_file_unreadable_io (filepath : Path) (e : exn)
      (self : Deployer.deployer) :
  writable stdout_ok (name filepath) = true ->
  read_bytes fs filepath = Raise e ->
  Console.deploy_file fs utcnow isprintable stdout_ok stdout_error
                      filepath self
  = (Console.Raised e (Console.str_exc isprintable e), self).
Proof.
  intros Hn Hr. unfold Console.deploy_file.
  rewrite bindIO_print.
  change ([LF; Console.PACKAGE] ++ u " Processing: " ++ name filepath)
    with (processing_line filepath).
  rewrite processing_line_writable, Hn.
  destruct (route_file_fields_ascii filepath)
    as (repo & prefix & descr & Hroute & Arepo & Aprefix).
  rewrite bindIO_eval, Hroute. set (route := VDict _).
  assert (subscript route (u "repo") = Ok (VStr repo)) as R1 by reflexivity.
  assert (subscript route (u "path") = Ok (VStr prefix)) as R2 by reflexivity.
  rewrite bindIO_eval, R1, bindIO_eval, R2. cbn [str_of].
  rewrite bindIO_print.
  replace (writable stdout_ok _) with true.
  2:{ symmetry. rewrite !writable_app, (stdout_text _ Arepo),
        (stdout_text _ Aprefix).
      rewrite !stdout_text by reflexivity. reflexivity. }
  rewrite bindIO_eval, (@encode_file_unreadable fs filepath e Hr). reflexivity.
Qed.

(** The pipeline of a readable file whose name can be printed, step by
    step. *)
Lemma deploy_file_explicit_io (self : Deployer.deployer) (filepath : Path)
      (repo prefix description content : pystr) (is_binary : bool)
      (bs payload : pybytes) :
  writable stdout_ok (name filepath) = true ->
  forallb scalar repo = true -> forallb scalar prefix = true ->
  read_bytes fs filepath = Ok bs ->
  Deployer.route_file filepath
  = Ok (VDict [(u "repo", VStr repo); (u "path", VStr prefix);
               (u "description", VStr description);
               (u "filename", VStr (name filepath))]) ->
  Deployer.encode_file fs filepath = Ok (content, is_binary) ->
  utf8_encode content = Ok payload ->
  let manifest :=
    manifest_dict filepath repo prefix description is_binary
                  (Hashlib.hexdigest (Hashlib.update Hashlib.sha256 bs))
                  (Z.of_nat (length bs))
                  (utcnow (Deployer.clock self) ++ u "Z") in
  let result :=
    prepared_dict
      repo (prefix ++ name filepath)
      (curl_head (Deployer.github_token self) (Deployer.github_api self)
                 (Deployer.github_user self)
                 repo (prefix ++ name filepath)
                 (commit_message (name filepath) description)
       ++ content_field (b64encode payload) ++ curl_tail)
      manifest in
  Console.deploy_file fs utcnow isprintable stdout_ok stdout_error
                      filepath self
  = (Console.Returned result,
     advance self
             [log_entry filepath manifest result
                        (utcnow (S (Deployer.clock self)) ++ u "Z")] 2).
Proof.
  intros Hn Arepo Aprefix Hr Hroute Henc Hp manifest result.
  unfold Console.deploy_file.
  rewrite bindIO_print.
  change ([LF; Console.PACKAGE] ++ u " Processing: " ++ name filepath)
    with (processing_line filepath).
  rewrite processing_line_writable, Hn.
  rewrite bindIO_eval, Hroute. set (route := VDict _).
  assert (subscript route (u "repo") = Ok (VStr repo)) as R1 by reflexivity.
  assert (subscript route (u "path") = Ok (VStr prefix)) as R2 by reflexivity.
  rewrite bindIO_eval, R1, bindIO_eval, R2. cbn [str_of].
  rewrite bindIO_print.
  replace (writable stdout_ok _) with true.
  2:{ symmetry. rewrite !writable_app, (stdout_text _ Arepo),
        (stdout_text _ Aprefix).
      rewrite !stdout_text by reflexivity. reflexivity. }
  rewrite bindIO_eval, Henc. cbn beta iota.
  rewrite bindIO_print.
  replace (writable stdout_ok _) with true.
  2:{ symmetry. rewrite !writable_app.
      rewrite !stdout_text by (destruct is_binary; reflexivity).
      reflexivity. }
  rewrite bindIO_method. unfold route.
  rewrite (@create_manifest_explicit fs utcnow self filepath repo prefix
             description content is_binary bs Hr).
  fold manifest.
  assert (bind (subscript manifest (u "checksum")) as_str
          = Ok (Hashlib.hexdigest (Hashlib.update Hashlib.sha256 bs)))
    as M1 by reflexivity.
  rewrite bindIO_eval, M1.
  rewrite bindIO_print.
  replace (writable stdout_ok _) with true.
  2:{ symmetry. rewrite !writable_app.
      rewrite (writable_firstn stdout_ok 8)
        by apply stdout_ascii, hexdigest_ascii.
      rewrite !stdout_text by reflexivity. reflexivity. }
  rewrite bindIO_method. unfold manifest at 1.
  rewrite (@push_to_github_explicit (ticked self) filepath repo prefix
             description is_binary _ _ _ content payload Hp).
  cbn zeta. fold manifest.
  change (Deployer.github_token (ticked self))
    with (Deployer.github_token self).
  change (Deployer.github_api (ticked self)) with (Deployer.github_api self).
  change (Deployer.github_user (ticked self))
    with (Deployer.github_user self).
  fold result.
  assert (bind (subscript result (u "status")) as_str = Ok (u "prepared"))
    as S1 by reflexivity.
  rewrite bindIO_eval, S1.
  rewrite bindIO_print.
  replace (writable stdout_ok _) with true
    by (symmetry; apply stdout_text; reflexivity).
  reflexivity.
Qed.


Hypothesis stdout_printable :
  forall c, isprintable c = true -> stdout_ok c = true.

Lemma hexn_ascii (digits : nat) (c : N) :
  Forall (fun x => x < 128) (Console.hexn digits c).
Proof.
  unfold Console.hexn. apply Forall_map, Forall_forall. intros i _.
  apply hexchar_ascii, N.mod_upper_bound. discriminate.
Qed.

Lemma repr_char_writable (quote c : N) :
  quote < 128 ->
  writable stdout_ok (Console.repr_char isprintable quote c) = true.
Proof.
  intros Hq. unfold Console.repr_char.
  assert (forall x, x < 128 -> stdout_ok x = true) as A
      by (intros x Hx; apply stdout_scalar, scalar_spec; lia).
  assert (forall kind digits,
             kind < 128 ->
             writable stdout_ok
                      (BSLASH :: [kind] ++ Console.hexn digits c) = true)
    as Hesc.
  { intros kind digits Hk. apply (@writable_ascii stdout_ok stdout_scalar).
    constructor; [reflexivity|]. constructor; [exact Hk|apply hexn_ascii]. }
  destruct ((c =? quote) || (c =? BSLASH)) eqn:E1.
  { unfold writable. cbn [forallb]. rewrite (A BSLASH) by reflexivity.
    apply orb_true_iff in E1. destruct E1 as [E|E]; apply N.eqb_eq in E;
      subst c; rewrite A; try reflexivity; try exact Hq. }
  destruct (c =? 9); [reflexivity || (apply stdout_text; try assumption;
                                     reflexivity)|].
  destruct (c =? 10); [apply stdout_text; try assumption; reflexivity|].
  destruct (c =? 13); [apply stdout_text; try assumption; reflexivity|].
  destruct ((c <? 32) || (c =? 127));
    [apply (Hesc 120 2%nat); reflexivity|].
  destruct (N.ltb_spec c 127);
    [unfold writable; cbn [forallb]; rewrite A by lia; reflexivity|].
  destruct (isprintable c) eqn:P;
    [unfold writable; cbn [forallb]; rewrite (@stdout_printable c P);
     reflexivity|].
  destruct (c <=? 255); [apply (Hesc 120 2%nat); reflexivity|].
  destruct (c <=? 65535); [apply (Hesc 117 4%nat); reflexivity|].
  apply (Hesc 85 8%nat). reflexivity.
Qed.

Lemma repr_chars_writable (quote : N) (s : pystr) :
  quote < 128 ->
  writable stdout_ok (flat_map (Console.repr_char isprintable quote) s)
  = true.
Proof.
  intros Hq. induction s as [|c s IH]; [reflexivity|].
  cbn [flat_map]. rewrite writable_app, IH, andb_true_r.
  apply repr_char_writable, Hq.
Qed.

(** [repr] of any text can be printed: what standard output might not
    write is escaped. *)
Lemma repr_writable (s : pystr) :
  writable stdout_ok (Console.repr isprintable s) = true.
Proof.
  unfold Console.repr.
  set (quote := if existsb (N.eqb Console.SQUOTE) s
                    && negb (existsb (N.eqb DQUOTE) s)
                 then DQUOTE else Console.SQUOTE).
  assert (quote < 128) as Hq
      by (unfold quote;
          destruct (existsb (N.eqb Console.SQUOTE) s
                    && negb (existsb (N.eqb DQUOTE) s)); reflexivity).
  assert (stdout_ok quote = true) as Oq
      by (apply stdout_scalar, scalar_spec; lia).
  rewrite !writable_app, (repr_chars_writable s Hq).
  unfold writable. cbn [forallb]. rewrite Oq. reflexivity.
Qed.

Lemma read_regular_file (filepath : Path) :
  is_file fs filepath = true ->
  (exists bs, read_bytes fs filepath = Ok bs) \/
  read_bytes fs filepath = Raise (PermissionError (str filepath)).
Proof.
  intros H. destruct (@is_file_inv fs filepath H) as (r & d & E).
  unfold read_bytes. rewrite E. destruct r; eauto.
Qed.

Lemma failed_line_writable (filepath : Path) (message : pystr) :
  writable stdout_ok (failed_line filepath message ++ [LF])
  = writable stdout_ok (name filepath) && writable stdout_ok message.
Proof.
  unfold failed_line. rewrite !writable_app.
  rewrite (@stdout_text [Console.CROSS_MARK])
    by reflexivity.
  rewrite (@stdout_text (u " Failed to deploy "))
    by reflexivity.
  rewrite (@stdout_text (u ": ")) by reflexivity.
  rewrite (@stdout_text [LF]) by reflexivity.
  cbn [andb]. rewrite andb_true_r. reflexivity.
Qed.

(** The loop of [deploy_all] over regular files: it goes on to the first
    file whose name cannot be printed, and raises there. *)
Lemma deploy_each_io (files : list Path) :
  Forall (fun f => is_file fs f = true) files ->
  forall (results : list value) (self : Deployer.deployer),
  exists rs entries ticks,
    ConsoleProps.run_log isprintable fs (before_unwritable stdout_ok files) rs entries /\
    Console.deploy_each fs utcnow isprintable stdout_ok stdout_error
                        files results self
    = (match first_unwritable stdout_ok files with
       | None => Console.Returned (results ++ rs)
       | Some f =>
           Console.Raised
             UnicodeEncodeError
             (stdout_error
                (failed_line f (stdout_error (processing_line f))))
       end,
       advance self entries ticks).
Proof.
  induction 1 as [|f files Hf _ IH]; intros results self.
  - exists [], [], 0%nat. cbn. rewrite app_nil_r, advance_nil.
    split; [constructor|reflexivity].
  - cbn [Console.deploy_each before_unwritable]. unfold first_unwritable.
    cbn [find]. fold (first_unwritable stdout_ok files).
    rewrite bindIO_run. unfold Console.try_except.
    destruct (writable stdout_ok (name f)) eqn:Hn; cbn [negb].
    + destruct (@read_regular_file f Hf) as [(bs & Hr)|Hr].
      * destruct (route_file_fields_ascii f)
          as (repo & prefix & descr & Hroute & Arepo & Aprefix).
        destruct (@encode_file_readable fs f bs Hr)
          as (content & b & Henc & Hc).
        destruct (utf8_encode_ok Hc) as (payload & Hp).
        rewrite (@deploy_file_explicit_io
                   self f repo prefix descr
                   content b bs payload Hn Arepo Aprefix Hr Hroute Henc Hp).
        cbv zeta.
        match goal with
        | |- context [advance self [?entry] 2] =>
            match entry with
            | log_entry _ _ ?res _ =>
                destruct (IH (results ++ [res]) (advance self [entry] 2))
                  as (rs & entries & ticks & Hrun & E);
                exists (res :: rs), (entry :: entries), (ticks + 2)%nat
            end
        end.
        split; [eapply ConsoleProps.run_prepared; eassumption|].
        rewrite E, <- app_assoc, advance_advance. reflexivity.
      * rewrite (@deploy_file_unreadable_io f _ self Hn Hr).
        rewrite bindIO_print.
        change ([Console.CROSS_MARK] ++ u " Failed to deploy " ++ name f
                ++ u ": " ++ ?m) with (failed_line f m).
        rewrite failed_line_writable, Hn. cbn [Console.str_exc andb].
        rewrite writable_app, repr_writable.
        rewrite (@stdout_text (u "[Errno 13] Permission denied: ")) by reflexivity.
        cbn [andb]. unfold Console.ret at 1.
        destruct (IH (results ++
                        [Console.failed_result
                           (u "[Errno 13] Permission denied: "
                            ++ Console.repr isprintable (str f)) f]) self)
          as (rs & entries & ticks & Hrun & E).
        exists (Console.failed_result
                  (u "[Errno 13] Permission denied: "
                   ++ Console.repr isprintable (str f)) f :: rs),
          entries, ticks.
        split; [apply ConsoleProps.run_failed; assumption|].
        rewrite E, <- app_assoc. reflexivity.
    + exists [], [], 0%nat. split; [constructor|].
      rewrite (@deploy_file_unwritable f self Hn).
      rewrite bindIO_print.
      change ([Console.CROSS_MARK] ++ u " Failed to deploy " ++ name f
              ++ u ": " ++ ?m) with (failed_line f m).
      rewrite failed_line_writable, Hn, advance_nil. reflexivity.
Qed.


Lemma scan_regular (self : Deployer.deployer) :
  Forall (fun f => is_file fs f = true) (Deployer.scan_outputs fs self).
Proof.
  unfold Deployer.scan_outputs.
  destruct (negb (exists_ fs (Deployer.outputs_dir self))); [constructor|].
  apply Forall_forall. intros f Hin. apply filter_In in Hin.
  destruct Hin as [_ H]. apply andb_true_iff in H. tauto.
Qed.

Lemma deploy_all_io (self : Deployer.deployer) :
  (exists_ fs (Deployer.outputs_dir self) = false ->
   writable stdout_ok (str (Deployer.outputs_dir self)) = true) ->
  exists rs entries ticks,
    ConsoleProps.run_log
      isprintable fs
      (before_unwritable stdout_ok (Deployer.scan_outputs fs self))
      rs entries /\
    Console.deploy_all fs utcnow isprintable stdout_ok stdout_error self
    = (match first_unwritable stdout_ok (Deployer.scan_outputs fs self) with
       | None => Console.Returned rs
       | Some f =>
           Console.Raised
             UnicodeEncodeError
             (stdout_error
                (failed_line f (stdout_error (processing_line f))))
       end,
       advance self entries ticks).
Proof.
  intros Hdir. pose proof (scan_regular self) as Hreg.
  unfold Console.deploy_all, Console.scan_outputs.
  rewrite bindIO_run, bindIO_method. unfold Deployer.self_.
  unfold Deployer.scan_outputs in *.
  destruct (exists_ fs (Deployer.outputs_dir self)) eqn:Ex; cbn [negb] in *.
  - unfold Console.ret at 1.
    set (scanned := filter _ _) in *.
    destruct scanned as [|f files] eqn:Ef.
    + rewrite bindIO_print.
      replace (writable stdout_ok _) with true
        by (symmetry; apply stdout_text; reflexivity).
      exists [], [], 0%nat. rewrite advance_nil.
      split; [constructor|reflexivity].
    + rewrite bindIO_print.
      replace (writable stdout_ok _) with true
        by (symmetry; apply stdout_text; reflexivity).
      rewrite bindIO_print.
      replace (writable stdout_ok _) with true.
      2:{ symmetry. rewrite !writable_app.
          rewrite (stdout_ascii (nat_text_ascii _)).
          rewrite !stdout_text by reflexivity. reflexivity. }
      destruct (deploy_each_io Hreg [] self)
        as (rs & entries & ticks & Hrun & E).
      exists rs, entries, ticks. split; [exact Hrun|exact E].
  - rewrite bindIO_print.
    replace (writable stdout_ok _) with true.
    2:{ symmetry. rewrite !writable_app, (Hdir eq_refl).
        rewrite !stdout_text by reflexivity. reflexivity. }
    unfold Console.ret at 1. rewrite bindIO_print.
    replace (writable stdout_ok _) with true
      by (symmetry; apply stdout_text; reflexivity).
    exists [], [], 0%nat. rewrite advance_nil.
    split; [constructor|reflexivity].
Qed.

Lemma before_unwritable_all (files : list Path) :
  first_unwritable stdout_ok files = None ->
  before_unwritable stdout_ok files = files.
Proof.
  unfold first_unwritable. induction files as [|f files IH]; [reflexivity|].
  cbn [find before_unwritable].
  destruct (writable stdout_ok (name f)); cbn [negb]; [|discriminate].
  intros H. rewrite (IH H). reflexivity.
Qed.

Lemma run_log_lengths_io (files : list Path) (rs entries : list value) :
  ConsoleProps.run_log isprintable fs files rs entries ->
  length rs = length files /\
  length entries = length (filter (readable fs) files).
Proof.
  induction 1 as [|f files rs es Hr _ [IH1 IH2]
                  |f files bs repo prefix descr content b cmd created now
                     rs es Hr _ _ _ [IH1 IH2]].
  - split; reflexivity.
  - cbn [filter length]. unfold readable at 1. rewrite Hr.
    split; congruence.
  - cbn [filter length]. unfold readable at 1. rewrite Hr.
    cbn [length]. split; congruence.
Qed.

End ConsoleFacts.

Section PlainNames.
Import ConsoleProps.

Variable isprintable : N -> bool.

Lemma repr_char_plain (c : N) :
  plain_char c = true ->
  Console.repr_char isprintable Console.SQUOTE c = [c].
Proof.
  unfold plain_char, Console.repr_char, Console.SQUOTE, BSLASH.
  rewrite !andb_true_iff, !negb_true_iff, N.leb_le, N.ltb_lt, !N.eqb_neq.
  intros [[[H1 H2] H3] H4].
  destruct (N.eqb_spec c 39); [contradiction|].
  destruct (N.eqb_spec c 92); [contradiction|]. cbn [orb].
  destruct (N.eqb_spec c 9); [lia|].
  destruct (N.eqb_spec c 10); [lia|].
  destruct (N.eqb_spec c 13); [lia|].
  destruct (N.ltb_spec c 32); [lia|].
  destruct (N.eqb_spec c 127); [lia|]. cbn [orb].
  destruct (N.ltb_spec c 127); [reflexivity|lia].
Qed.

Lemma repr_plain (s : pystr) :
  forallb plain_char s = true ->
  Console.repr isprintable s = u "'" ++ s ++ u "'".
Proof.
  intros H. unfold Console.repr.
  assert (existsb (N.eqb Console.SQUOTE) s = false) as Hq.
  { apply not_true_is_false. intros E. apply existsb_exists in E.
    destruct E as (c & Hin & Ec). apply N.eqb_eq in Ec. subst c.
    rewrite forallb_forall in H. specialize (H _ Hin). discriminate H. }
  rewrite Hq. cbn [andb]. apply f_equal. apply (f_equal (fun x => x ++ _)).
  induction s as [|c s IH]; [reflexivity|].
  cbn [forallb] in H. apply andb_true_iff in H. destruct H as [Hc Hs].
  cbn [flat_map existsb] in *. apply orb_false_iff in Hq.
  rewrite (@repr_char_plain c Hc), (IH Hs (proj2 Hq)). reflexivity.
Qed.

(** On a plain path, the text of a read error is the one [str_of_exn]
    gives, and the failed entry the one of [Deployer.failed_result]. *)
Lemma failed_result_plain (fs : node) (filepath : Path) (e : exn) :
  forallb plain_char (str filepath) = true ->
  resolve fs filepath <> Some Special ->
  read_bytes fs filepath = Raise e ->
  Console.str_exc isprintable e = str_of_exn e /\
  Console.failed_result (Console.str_exc isprintable e) filepath
  = Deployer.failed_result e filepath.
Proof.
  intros Hp Hs Hr.
  assert (Console.str_exc isprintable e = str_of_exn e) as E.
  { unfold read_bytes in Hr.
    destruct (resolve fs filepath) as [[[|] d| |]|]; try discriminate Hr;
      try (exfalso; apply Hs; reflexivity);
      injection Hr as <-; cbn [Console.str_exc str_of_exn];
      rewrite (@repr_plain (str filepath) Hp); reflexivity. }
  split; [exact E|]. unfold Console.failed_result, Deployer.failed_result.
  rewrite E. reflexivity.
Qed.

End PlainNames.

(** X4. [deploy_file], what it prints included, on a standard output that
    can write every Unicode scalar value (a UTF-8 stream), for a path that
    does not name a special file (device, socket, FIFO). If the name of
    the file holds a code point the stream cannot write (a lone surrogate,
    from a name that is not valid UTF-8), the first [print] raises
    UnicodeEncodeError and nothing else happens. Otherwise the outcome is
    decided by whether the file can be read: if the read raises (the
    process may not read the file, or the path names nothing, or a
    directory), [deploy_file] raises that same error, whose text ends in
    the [repr] of the path, and leaves the deployer as it was;
    if the file is readable, it returns the prepared result, has read the
    clock twice and has appended exactly one log entry that holds the
    manifest and the result. In both of these cases the outcome is the one
    of the pipeline taken without its prints. *)
Theorem deploy_file_outcome (fs : node) (utcnow : nat -> pystr)
        (isprintable stdout_ok : N -> bool) (stdout_error : pystr -> pystr)
        (filepath : Path) (self : Deployer.deployer) :
  (forall c, scalar c = true -> stdout_ok c = true) ->
  resolve fs filepath <> Some Special ->
  let deploy :=
    Console.deploy_file fs utcnow isprintable stdout_ok stdout_error
                        filepath self in
  if ConsoleProps.writable stdout_ok (name filepath) then
    deploy
    = Console.method isprintable (Deployer.deploy_file fs utcnow filepath)
                     self /\
    match read_bytes fs filepath with
    | Raise e =>
        deploy = (Console.Raised e (Console.str_exc isprintable e), self) /\
        (e = PermissionError (str filepath) \/
         e = FileNotFoundError (str filepath) \/
         e = IsADirectoryError (str filepath))
    | Ok bs =>
        exists repo prefix description content is_binary payload,
          Deployer.route_file filepath
          = Ok (VDict [(u "repo", VStr repo); (u "path", VStr prefix);
                       (u "description", VStr description);
                       (u "filename", VStr (name filepath))]) /\
          Deployer.encode_file fs filepath = Ok (content, is_binary) /\
          utf8_encode content = Ok payload /\
          let manifest :=
            RunProps.manifest_dict
              filepath repo prefix description is_binary
              (Hashlib.hexdigest (Hashlib.update Hashlib.sha256 bs))
              (Z.of_nat (length bs))
              (utcnow (Deployer.clock self) ++ u "Z") in
          let result :=
            RunProps.prepared_dict
              repo (prefix ++ name filepath)
              (RunProps.curl_head
                 (Deployer.github_token self) (Deployer.github_api self)
                 (Deployer.github_user self) repo (prefix ++ name filepath)
                 (RunProps.commit_message (name filepath) description)
               ++ RunProps.content_field (b64encode payload)
               ++ RunProps.curl_tail)
              manifest in
          deploy
          = (Console.Returned result,
             RunProps.advance
               self
               [RunProps.log_entry
                  filepath manifest result
                  (utcnow (S (Deployer.clock self)) ++ u "Z")] 2)
    end
  else
    deploy
    = (Console.Raised UnicodeEncodeError
                      (stdout_error (ConsoleProps.processing_line filepath)),
       self).
Proof.
  intros Hs Hspecial deploy.
  destruct (ConsoleProps.writable stdout_ok (name filepath)) eqn:Hn.
  - destruct (read_bytes fs filepath) as [bs|e] eqn:Hr.
    + destruct (@route_file_fields_ascii filepath)
        as (repo & prefix & descr & Hroute & Arepo & Aprefix).
      destruct (@encode_file_readable fs filepath bs Hr)
        as (content & b & Henc & Hc).
      destruct (utf8_encode_ok Hc) as (payload & Hp).
      pose proof (@deploy_file_explicit_io
                    fs utcnow isprintable stdout_ok stdout_error Hs self
                    filepath repo prefix descr content b bs payload
                    Hn Arepo Aprefix Hr Hroute Henc Hp) as E.
      cbv zeta in E. split.
      * unfold deploy. rewrite E. unfold Console.method.
        rewrite (@deploy_file_explicit fs utcnow self filepath repo prefix
                   descr content b bs payload Hr Hroute Henc Hp).
        reflexivity.
      * exists repo, prefix, descr, content, b, payload. auto.
    + pose proof (@deploy_file_unreadable_io
                    fs utcnow isprintable stdout_ok stdout_error Hs
                    filepath e self Hn Hr) as E.
      split; [|split; [exact E|]].
      * unfold deploy. rewrite E. unfold Console.method.
        rewrite (@deploy_file_unreadable fs utcnow filepath e self Hr).
        reflexivity.
      * unfold read_bytes in Hr.
        destruct (resolve fs filepath) as [[[|] d| |]|];
          try discriminate Hr; try (exfalso; apply Hspecial; reflexivity);
          injection Hr as <-; auto.
  - exact (@deploy_file_unwritable
             fs utcnow isprintable stdout_ok stdout_error Hs
             filepath self Hn).
Qed.

Lemma deploy_file_outcome_witness :
  let fs := Dir [([99; 97; 102; 56553] ++ u ".txt", File true [])] in
  let stdout_error (text : pystr) := u "surrogates not allowed" in
  Console.deploy_file fs (fun _ => u "2025-01-03T00:00:00")
                      (fun _ => false) scalar stdout_error
                      [[99; 97; 102; 56553] ++ u ".txt"]
                      (Deployer.new_deployer [] (u "t0ken"))
  = (Console.Raised UnicodeEncodeError (u "surrogates not allowed"),
     Deployer.new_deployer [] (u "t0ken")).
Proof.
  intros fs stdout_error.
  refine (@deploy_file_outcome
            fs (fun _ => u "2025-01-03T00:00:00") (fun _ => false) scalar
            stdout_error [[99; 97; 102; 56553] ++ u ".txt"]
            (Deployer.new_deployer [] (u "t0ken")) (fun c H => H) _).
  intros H. discriminate H.
Defined.



Section ScriptFacts.
Import ConsoleProps RunProps.

Variable fs : node.
Variable utcnow : nat -> pystr.
Variable isprintable : N -> bool.
Variable file_ok : N -> bool.
Variable file_error : pystr -> pystr.

Hypothesis file_ascii : forall c, c < 128 -> file_ok c = true.

Lemma bindIO_write (B : Type) (text : pystr)
      (k : unit -> Console.IO Console.script_state B)
      (s : Console.script_state) :
  Console.bindIO (Console.f_write file_ok file_error text) k s
  = if writable file_ok text then k tt (fst s, snd s ++ text)
    else (Console.Raised UnicodeEncodeError (file_error text), s).
Proof.
  unfold Console.bindIO, Console.f_write, writable.
  destruct (forallb file_ok text); reflexivity.
Qed.

Lemma file_text (text : pystr) :
  Forall (fun c => c < 128) text -> writable file_ok text = true.
Proof.
  intros H. apply forallb_forall. intros c Hc.
  rewrite Forall_forall in H. apply file_ascii, H, Hc.
Qed.

Lemma file_literal (text : pystr) :
  forallb (fun c => c <? 128) text = true -> writable file_ok text = true.
Proof.
  intros H. apply file_text, Forall_forall. intros c Hc.
  rewrite forallb_forall in H. apply N.ltb_lt, H, Hc.
Qed.

(** The loop of the block over the log of a run: it writes the commands of
    the prepared results up to the first one the file cannot write, and
    raises there. *)
Lemma write_commands_run (files : list Path) (rs entries : list value) :
  ConsoleProps.run_log isprintable fs files rs entries ->
  forall (self : Deployer.deployer) (written : pystr),
    Console.write_commands isprintable file_ok file_error entries
                           (self, written)
    = (match find (fun cmd => negb (writable file_ok cmd)) (commands rs) with
       | None => Console.Returned tt
       | Some cmd => Console.Raised UnicodeEncodeError (file_error cmd)
       end,
       (self,
        written ++ flat_map (fun cmd => cmd ++ [LF; LF])
                            (written_commands file_ok (commands rs)))).
Proof.
  induction 1 as [|f files rs es Hr _ IH
                  |f files bs repo prefix descr content b cmd created now
                     rs es Hr _ _ _ IH]; intros self written.
  - cbn. rewrite app_nil_r. reflexivity.
  - unfold commands. cbn [flat_map]. fold (commands rs).
    change (subscript (Console.failed_result _ f) (u "command"))
      with (Raise (A := value) (KeyError (u "command"))).
    cbn [app]. apply IH.
  - cbn [Console.write_commands].
    rewrite bindIO_eval.
    change (Deployer.log_status_is
              (u "prepared") (log_entry _ _ (prepared_dict _ _ _ _) _))
      with (Ok true).
    cbn iota. rewrite bindIO_eval.
    match goal with
    | |- context [subscript (log_entry ?a ?m ?r ?n) (u "result")] =>
        change (subscript (log_entry a m r n) (u "result")) with (Ok r)
    end.
    cbn [bind].
    match goal with
    | |- context [subscript (prepared_dict ?a ?p ?c ?m) (u "command")] =>
        change (subscript (prepared_dict a p c m) (u "command"))
          with (Ok (VStr c))
    end.
    cbn [bind as_str]. rewrite bindIO_write. cbn [fst snd].
    unfold commands. cbn [flat_map]. fold (commands rs).
    match goal with
    | |- context [subscript (prepared_dict ?a ?p ?c ?m) (u "command")] =>
        change (subscript (prepared_dict a p c m) (u "command"))
          with (Ok (VStr c))
    end.
    cbn [app find written_commands].
    destruct (writable file_ok cmd) eqn:Hc; cbn [negb].
    + rewrite bindIO_write. cbn [fst snd].
      rewrite (@file_literal [LF; LF]) by reflexivity.
      rewrite IH. cbn [flat_map]. rewrite <- !app_assoc. reflexivity.
    + cbn [flat_map]. rewrite app_nil_r. reflexivity.
Qed.

Hypothesis clock_text : forall n, writable file_ok (utcnow n) = true.

(** The block on a deployer whose log is the log of a run. *)
Lemma commands_script_run (files : list Path) (rs : list value)
      (self : Deployer.deployer) :
  ConsoleProps.run_log isprintable fs files rs
                       (Deployer.deployment_log self) ->
  Console.commands_script utcnow isprintable file_ok file_error None
                          (self, [])
  = (match find (fun cmd => negb (writable file_ok cmd)) (commands rs) with
     | None => Console.Returned tt
     | Some cmd => Console.Raised UnicodeEncodeError (file_error cmd)
     end,
     (ticked self,
      script (utcnow (Deployer.clock self) ++ u "Z")
             (written_commands file_ok (commands rs)))).
Proof.
  intros Hrun. unfold Console.commands_script.
  rewrite bindIO_write, file_literal by reflexivity.
  rewrite bindIO_write, file_literal by reflexivity.
  cbn [fst snd app].
  rewrite bindIO_run. unfold Console.on_deployer at 1, Console.method at 1.
  cbn [fst snd Deployer.timestamp]. rewrite bindIO_write.
  replace (writable file_ok _) with true.
  2:{ symmetry. rewrite !writable_app, clock_text.
      rewrite !file_literal by reflexivity. reflexivity. }
  cbn [fst snd]. rewrite bindIO_run.
  unfold Console.on_deployer at 1, Console.method at 1.
  cbn [fst snd Deployer.self_ Deployer.deployment_log].
  rewrite (write_commands_run Hrun). unfold script, script_head, ticked.
  rewrite <- !app_assoc. reflexivity.
Qed.

End ScriptFacts.

(** X13. The block of [main] that writes the commands script, after
    [deploy_all] on a new deployer whose scanned files all have a name
    standard output can write. The file of the script writes ASCII and
    the text of the clock, and signals what its encoding cannot write,
    as a file opened by [open(path, 'w')] does. When the file opens, the
    script holds the three head lines and then the curl command of each
    prepared result, in order and each followed by an empty line, up to
    the first command the file cannot write; the block raises
    UnicodeEncodeError at that command and returns when there is none.
    Nothing is written for the files that failed. When [open] raises, the
    block raises the same and writes nothing. *)
Theorem commands_script_after_run (fs : node) (utcnow : nat -> pystr)
        (isprintable stdout_ok : N -> bool) (stdout_error : pystr -> pystr)
        (file_ok : N -> bool) (file_error : pystr -> pystr)
        (outputs : Path) (token : pystr) :
  let self := Deployer.new_deployer outputs token in
  (forall c, scalar c = true -> stdout_ok c = true) ->
  (forall c, isprintable c = true -> stdout_ok c = true) ->
  (exists_ fs outputs = false ->
   ConsoleProps.writable stdout_ok (str outputs) = true) ->
  ConsoleProps.first_unwritable stdout_ok (Deployer.scan_outputs fs self)
  = None ->
  (forall c, c < 128 -> file_ok c = true) ->
  (forall n, ConsoleProps.writable file_ok (utcnow n) = true) ->
  exists results self',
    Console.deploy_all fs utcnow isprintable stdout_ok stdout_error self
    = (Console.Returned results, self') /\
    length results = length (Deployer.scan_outputs fs self) /\
    Console.commands_script utcnow isprintable file_ok file_error None
                            (self', [])
    = (match find (fun cmd => negb (ConsoleProps.writable file_ok cmd))
                  (ConsoleProps.commands results) with
       | None => Console.Returned tt
       | Some cmd => Console.Raised UnicodeEncodeError (file_error cmd)
       end,
       (RunProps.ticked self',
        ConsoleProps.script
          (utcnow (Deployer.clock self') ++ u "Z")
          (ConsoleProps.written_commands
             file_ok (ConsoleProps.commands results)))) /\
    forall e message,
      Console.commands_script utcnow isprintable file_ok file_error
                              (Some (e, message)) (self', [])
      = (Console.Raised e message, (self', [])).
Proof.
  intros self Hs Hp Hdir Hnames Hf Hclock.
  destruct (@deploy_all_io fs utcnow isprintable stdout_ok stdout_error
              Hs Hp self Hdir) as (rs & entries & ticks & Hrun & E).
  rewrite Hnames in E. rewrite (before_unwritable_all _ _ Hnames) in Hrun.
  exists rs. eexists. split; [exact E|].
  split; [exact (proj1 (run_log_lengths_io Hrun))|].
  split; [|reflexivity].
  apply (@commands_script_run fs utcnow isprintable file_ok file_error
           Hf Hclock (Deployer.scan_outputs fs self) rs).
  exact Hrun.
Qed.

Lemma commands_script_after_run_witness :
  let bad := [99; 97; 102; 56553] ++ u ".txt" in
  let fs :=
    Dir [(u "out", Dir [(u "notes.md", File true (map byte_of (u "hi")));
                        (bad, File true [])])] in
  let self := Deployer.new_deployer [u "out"] (u "t0ken") in
  let stdout_error (text : pystr) := u "surrogates not allowed" in
  let file_error (text : pystr) := u "surrogates not allowed" in
  exists results self',
    Console.deploy_all fs (fun _ => u "2025-01-03T00:00:00")
                       (fun c => (32 <=? c) && (c <? 127))
                       (fun _ => true) stdout_error self
    = (Console.Returned results, self') /\
    length results = 2%nat /\
    Console.commands_script (fun _ => u "2025-01-03T00:00:00")
                            (fun c => (32 <=? c) && (c <? 127))
                            scalar file_error None (self', [])
    = (match find (fun cmd => negb (ConsoleProps.writable scalar cmd))
                  (ConsoleProps.commands results) with
       | None => Console.Returned tt
       | Some cmd => Console.Raised UnicodeEncodeError (file_error cmd)
       end,
       (RunProps.ticked self',
        ConsoleProps.script
          (u "2025-01-03T00:00:00" ++ u "Z")
          (ConsoleProps.written_commands
             scalar (ConsoleProps.commands results)))) /\
    forall e message,
      Console.commands_script (fun _ => u "2025-01-03T00:00:00")
                              (fun c => (32 <=? c) && (c <? 127))
                              scalar file_error
                              (Some (e, message)) (self', [])
      = (Console.Raised e message, (self', [])).
Proof.
  intros bad fs self stdout_error file_error.
  refine (@commands_script_after_run
            fs (fun _ => u "2025-01-03T00:00:00")
            (fun c => (32 <=? c) && (c <? 127)) (fun _ => true)
            stdout_error scalar file_error [u "out"] (u "t0ken")
            (fun _ _ => eq_refl) (fun _ _ => eq_refl) _ eq_refl _
            (fun _ => eq_refl)).
  - intros H. discriminate H.
  - intros c H. apply scalar_spec. lia.
Defined.

(* ===================================================================== *)
(** * The verifier, its transport and its console *)
(* ===================================================================== *)

Section QueryFacts.
Import Verifier ConsoleProps QueryProps.

Variable subprocess_run
  : Queries.history -> list pystr -> Console.outcome pystr.
Variable isprintable : N -> bool.
Variable stdout_ok : N -> bool.
Variable stdout_error : pystr -> pystr.
Variable percent : Q -> pystr.

(** [verify_file_exists] makes one call and answers by what that call
    gave. *)
Lemma query_once (self : verifier) (repo path : value)
      (calls : Queries.history) :
  Queries.verify_file_exists subprocess_run stdout_ok stdout_error
                             self repo path calls
  = (match subprocess_run calls (curl_cmd self repo path) with
     | Console.Returned stdout =>
         Console.Returned (str_eqb (strip stdout) (u "200"))
     | Console.Raised e message =>
         if writable stdout_ok (warning_line message ++ [LF])
         then Console.Returned false
         else Console.Raised UnicodeEncodeError
                             (stdout_error (warning_line message))
     end,
     calls ++ [curl_cmd self repo path]).
Proof.
  unfold Queries.verify_file_exists, Console.try_except, Console.bindIO,
    Queries.run, Console.print, Console.ret, writable, warning_line.
  destruct (subprocess_run calls (curl_cmd self repo path)) as [stdout|e m];
    [reflexivity|].
  destruct (forallb stdout_ok _); reflexivity.
Qed.

Hypothesis stdout_scalar : forall c, scalar c = true -> stdout_ok c = true.

Lemma warning_line_writable (message : pystr) :
  writable stdout_ok (warning_line message ++ [LF])
  = writable stdout_ok message.
Proof.
  unfold warning_line. rewrite !writable_app.
  rewrite (@stdout_text stdout_ok stdout_scalar Console.WARNING)
    by reflexivity.
  rewrite (@stdout_text stdout_ok stdout_scalar (u "  Verification error: "))
    by reflexivity.
  rewrite (@stdout_text stdout_ok stdout_scalar [LF]) by reflexivity.
  rewrite andb_true_r. reflexivity.
Qed.

Lemma print_written (S B : Type) (text : pystr)
      (k : unit -> Console.IO S B) (s : S) :
  writable stdout_ok text = true ->
  Console.bindIO (Console.print stdout_ok stdout_error text) k s = k tt s.
Proof.
  intros H. rewrite bindIO_print, writable_app, H.
  rewrite (@stdout_text stdout_ok stdout_scalar [LF]) by reflexivity.
  reflexivity.
Qed.

Lemma literal_written (text : pystr) :
  forallb scalar text = true -> writable stdout_ok text = true.
Proof. apply stdout_text, stdout_scalar. Qed.

(** One iteration of the loop on an entry whose manifest holds three
    strings that can be written, when the transport returns. *)
Lemma verify_step_returned (self : verifier) (v f : Z) (rows : list value)
      (d m : value) (fn repo path stdout : pystr)
      (calls : Queries.history) :
  get d (u "manifest") (VDict []) = Ok m ->
  get m (u "filename") (VStr (u "unknown")) = Ok (VStr fn) ->
  get m (u "target_repo") (VStr []) = Ok (VStr repo) ->
  get m (u "target_path") (VStr []) = Ok (VStr path) ->
  writable stdout_ok fn = true ->
  writable stdout_ok repo = true ->
  writable stdout_ok path = true ->
  subprocess_run calls (curl_cmd self (VStr repo) (VStr path))
  = Console.Returned stdout ->
  Queries.verify_step subprocess_run isprintable stdout_ok stdout_error
                      self (v, f, rows) d calls
  = (Console.Returned
       (let found := str_eqb (strip stdout) (u "200") in
        let row := detail_row (VStr fn) (VStr repo) (VStr path) found in
        if found then (v + 1, f, rows ++ [row])%Z
        else (v, f + 1, rows ++ [row])%Z),
     calls ++ [curl_cmd self (VStr repo) (VStr path)]).
Proof.
  intros Hm Hfn Hrepo Hpath Wfn Wrepo Wpath Hrun.
  unfold Queries.verify_step.
  rewrite bindIO_eval, Hm, bindIO_eval, Hfn, bindIO_eval, Hrepo,
    bindIO_eval, Hpath.
  cbn [str_of].
  rewrite print_written
    by (rewrite !writable_app, Wfn; rewrite !literal_written by reflexivity;
        reflexivity).
  rewrite print_written
    by (rewrite !writable_app, Wrepo; rewrite !literal_written by reflexivity;
        reflexivity).
  rewrite print_written
    by (rewrite !writable_app, Wpath; rewrite !literal_written by reflexivity;
        reflexivity).
  rewrite bindIO_run, query_once, Hrun. cbn zeta.
  destruct (str_eqb (strip stdout) (u "200"));
    rewrite print_written by (apply literal_written; reflexivity);
    reflexivity.
Qed.

Hypothesis percent_text : forall q, writable stdout_ok (percent q) = true.

(** A log of two entries, found and then not found. *)
Lemma verify_all_found_then_missing
      (self : verifier) (calls : Queries.history) (d1 d2 m1 m2 : value)
      (f1 f2 r1 r2 p1 p2 : pystr) :
  get (log_data self) (u "deployments") (VList []) = Ok (VList [d1; d2]) ->
  get d1 (u "manifest") (VDict []) = Ok m1 ->
  get m1 (u "filename") (VStr (u "unknown")) = Ok (VStr f1) ->
  get m1 (u "target_repo") (VStr []) = Ok (VStr r1) ->
  get m1 (u "target_path") (VStr []) = Ok (VStr p1) ->
  get d2 (u "manifest") (VDict []) = Ok m2 ->
  get m2 (u "filename") (VStr (u "unknown")) = Ok (VStr f2) ->
  get m2 (u "target_repo") (VStr []) = Ok (VStr r2) ->
  get m2 (u "target_path") (VStr []) = Ok (VStr p2) ->
  writable stdout_ok (f1 ++ r1 ++ p1 ++ f2 ++ r2 ++ p2) = true ->
  subprocess_run calls (curl_cmd self (VStr r1) (VStr p1))
  = Console.Returned (http_code 200) ->
  subprocess_run (calls ++ [curl_cmd self (VStr r1) (VStr p1)])
                 (curl_cmd self (VStr r2) (VStr p2))
  = Console.Returned (http_code 404) ->
  Queries.verify_all subprocess_run isprintable stdout_ok stdout_error
                     percent self calls
  = (Console.Returned
       (VDict [(u "total", VInt 2);
               (u "verified", VInt 1);
               (u "failed", VInt 1);
               (u "success_rate", VFloat (1 # 2));
               (u "details",
                VList [detail_row (VStr f1) (VStr r1) (VStr p1) true;
                       detail_row (VStr f2) (VStr r2) (VStr p2) false])]),
     calls ++ [curl_cmd self (VStr r1) (VStr p1);
               curl_cmd self (VStr r2) (VStr p2)]).
Proof.
  intros Hd Hm1 Hf1 Hr1 Hp1 Hm2 Hf2 Hr2 Hp2 W Hrun1 Hrun2.
  rewrite !writable_app, !andb_true_iff in W.
  destruct W as (W1 & W2 & W3 & W4 & W5 & W6).
  unfold Queries.verify_all.
  rewrite print_written
    by (apply literal_written; reflexivity).
  rewrite print_written
    by (apply literal_written; reflexivity).
  rewrite bindIO_eval, Hd, bindIO_eval. cbn [len]. rewrite bindIO_eval.
  cbn [iter Queries.verify_loop].
  rewrite bindIO_run, bindIO_run.
  rewrite (@verify_step_returned self 0%Z 0%Z [] d1 m1 f1 r1 p1 _ calls
             Hm1 Hf1 Hr1 Hp1 W1 W2 W3 Hrun1).
  replace (str_eqb (strip (http_code 200)) (u "200")) with true
    by reflexivity.
  cbn zeta iota. rewrite bindIO_run.
  rewrite (@verify_step_returned self _ _ _ d2 m2 f2 r2 p2 _ _
             Hm2 Hf2 Hr2 Hp2 W4 W5 W6 Hrun2).
  replace (str_eqb (strip (http_code 404)) (u "200")) with false
    by reflexivity.
  cbn zeta iota. unfold Console.ret at 1. cbn iota beta.
  rewrite print_written
    by (apply literal_written; reflexivity).
  rewrite print_written
    by (apply literal_written; reflexivity).
  rewrite print_written
    by (apply literal_written; reflexivity).
  rewrite bindIO_eval.
  replace (truediv (0 + 1) (Z.of_nat (length [d1; d2]))) with (Ok (1 # 2)%Q)
    by reflexivity.
  rewrite print_written
    by (rewrite !writable_app, percent_text;
        rewrite !literal_written by reflexivity;
        reflexivity).
  rewrite bindIO_eval.
  replace (truediv (0 + 1) (Z.of_nat (length [d1; d2]))) with (Ok (1 # 2)%Q)
    by reflexivity.
  rewrite print_written
    by (rewrite !writable_app, percent_text;
        rewrite !literal_written by reflexivity;
        reflexivity).
  rewrite bindIO_eval. cbn.
  rewrite <- (app_assoc calls). reflexivity.
Qed.

End QueryFacts.

Section StatelessTransport.
Import Verifier ConsoleProps QueryProps.

(** A transport that answers by the command alone, and a standard output
    that can write every code point. *)
Variable answer : list pystr -> result pystr.
Variable isprintable : N -> bool.
Variable stdout_ok : N -> bool.
Variable stdout_error : pystr -> pystr.
Variable percent : Q -> pystr.

Hypothesis stdout_any : forall c, stdout_ok c = true.

Lemma print_any (S B : Type) (text : pystr)
      (k : unit -> Console.IO S B) (s : S) :
  Console.bindIO (Console.print stdout_ok stdout_error text) k s = k tt s.
Proof.
  rewrite bindIO_print.
  replace (writable stdout_ok (text ++ [LF])) with true; [reflexivity|].
  symmetry. apply forallb_forall. intros c _. apply stdout_any.
Qed.

Lemma query_stateless (self : verifier) (repo path : value)
      (calls : Queries.history) :
  Queries.verify_file_exists (Queries.stateless isprintable answer)
                             stdout_ok stdout_error self repo path calls
  = (Console.Returned (verify_file_exists answer self repo path),
     calls ++ [curl_cmd self repo path]).
Proof.
  rewrite query_once. unfold Queries.stateless, verify_file_exists.
  destruct (answer (curl_cmd self repo path)) as [stdout|e]; [reflexivity|].
  replace (writable stdout_ok _) with true; [reflexivity|].
  symmetry. apply forallb_forall. intros c _. apply stdout_any.
Qed.

Lemma verify_step_stateless (self : verifier) (acc : counters) (d : value)
      (calls : Queries.history) :
  fst (Queries.verify_step (Queries.stateless isprintable answer)
                           isprintable stdout_ok stdout_error
                           self acc d calls)
  = outcome_of isprintable (verify_step answer self acc d).
Proof.
  destruct acc as [[v f] rows].
  unfold Queries.verify_step, verify_step.
  rewrite bindIO_eval.
  destruct (get d (u "manifest") (VDict [])) as [m|e]; [|reflexivity].
  cbn [bind]. rewrite bindIO_eval.
  destruct (get m (u "filename") (VStr (u "unknown"))) as [fn|e];
    [|reflexivity].
  cbn [bind]. rewrite bindIO_eval.
  destruct (get m (u "target_repo") (VStr [])) as [repo|e]; [|reflexivity].
  cbn [bind]. rewrite bindIO_eval.
  destruct (get m (u "target_path") (VStr [])) as [path|e]; [|reflexivity].
  cbn [bind]. rewrite !print_any, bindIO_run, query_stateless.
  destruct (verify_file_exists answer self repo path);
    rewrite print_any; reflexivity.
Qed.

Lemma verify_loop_stateless (self : verifier) (ds : list value) :
  forall (acc : counters) (calls : Queries.history),
    fst (Queries.verify_loop (Queries.stateless isprintable answer)
                             isprintable stdout_ok stdout_error
                             self ds acc calls)
    = outcome_of isprintable (verify_loop answer self ds acc).
Proof.
  induction ds as [|d ds IH]; intros acc calls; [reflexivity|].
  cbn [Queries.verify_loop verify_loop]. rewrite bindIO_run.
  pose proof (verify_step_stateless self acc d calls) as Hs.
  destruct (Queries.verify_step _ _ _ _ self acc d calls)
    as [[acc'|e msg] calls'] eqn:E; cbn [fst] in Hs;
    destruct (verify_step answer self acc d) as [acc2|e2];
    cbn [outcome_of] in Hs; try discriminate Hs.
  - injection Hs as <-. cbn [bind]. apply IH.
  - cbn [bind fst outcome_of]. injection Hs as <- <-. reflexivity.
Qed.

(** With such a transport and such an output, the verification pass
    returns or raises what the pass without a history does. *)
Lemma verify_all_stateless (self : verifier) (calls : Queries.history) :
  fst (Queries.verify_all (Queries.stateless isprintable answer)
                          isprintable stdout_ok stdout_error percent
                          self calls)
  = outcome_of isprintable (verify_all answer self).
Proof.
  unfold Queries.verify_all, verify_all. rewrite !print_any, bindIO_eval.
  destruct (get (log_data self) (u "deployments") (VList [])) as [dv|e];
    [|reflexivity].
  cbn [bind]. rewrite bindIO_eval.
  destruct (len dv) as [total|e]; [|reflexivity].
  cbn [bind]. rewrite bindIO_eval.
  destruct (iter dv) as [ds|e]; [|reflexivity].
  cbn [bind]. rewrite bindIO_run.
  pose proof (verify_loop_stateless self ds (0, 0, [])%Z calls) as Hl.
  destruct (Queries.verify_loop _ _ _ _ self ds (0, 0, [])%Z calls)
    as [[acc|e msg] calls'] eqn:E; cbn [fst] in Hl;
    destruct (verify_loop answer self ds (0, 0, [])%Z) as [acc2|e2];
    cbn [outcome_of] in Hl; try discriminate Hl.
  - injection Hl as <-. cbn [bind]. destruct acc as [[v f] rows].
    rewrite !print_any, bindIO_eval.
    destruct (truediv v total) as [q1|e]; [|reflexivity].
    cbn [bind]. rewrite print_any, bindIO_eval.
    destruct (truediv f total) as [q2|e]; [|reflexivity].
    cbn [bind]. rewrite print_any, bindIO_eval.
    destruct (total >? 0)%Z; cbn [bind]; reflexivity.
  - cbn [bind fst outcome_of]. injection Hl as <- <-. reflexivity.
Qed.

End StatelessTransport.


(** C9. [verify_file_exists] asks the transport once, whatever the answer,
    and answers by what that one call gave: true exactly when the call
    returned and what it wrote is, white space aside, the text 200. Of the
    status codes curl can report only 200 is accepted; a call that raises
    (time-out, network failure) has the text of its error printed and gives
    false, not an exception; and in no case is the transport asked again,
    even when a second call would report 200. Hence, on a log of two
    entries for which the transport reports 200 and then 404, [verify_all]
    makes two calls and returns total 2, verified 1, failed 1 and a success
    rate of one half. Standard output is one that writes every Unicode
    scalar value, as a UTF-8 stream does, and the texts printed (of an
    error, of the entries of the log, of a percentage) are ones it can
    write. For a transport that answers by the command alone and an output
    that writes every code point, the verdict and the summary are those of
    the pass that keeps no history. *)
Theorem verify_exact_found
        (subprocess_run
         : Queries.history -> list pystr -> Console.outcome pystr)
        (isprintable stdout_ok : N -> bool) (stdout_error : pystr -> pystr)
        (percent : Q -> pystr) (self : Verifier.verifier) :
  (forall c, scalar c = true -> stdout_ok c = true) ->
  (forall q, ConsoleProps.writable stdout_ok (percent q) = true) ->
  (forall repo path calls,
      snd (Queries.verify_file_exists subprocess_run stdout_ok stdout_error
                                      self repo path calls)
      = calls ++ [Verifier.curl_cmd self repo path]) /\
  (forall repo path calls,
      Queries.verify_file_exists subprocess_run stdout_ok stdout_error
                                 self repo path calls
      = (Console.Returned true, calls ++ [Verifier.curl_cmd self repo path])
      <->
      exists stdout,
        subprocess_run calls (Verifier.curl_cmd self repo path)
        = Console.Returned stdout /\
        strip stdout = u "200") /\
  (forall repo path calls stdout,
      subprocess_run calls (Verifier.curl_cmd self repo path)
      = Console.Returned stdout ->
      strip stdout <> u "200" ->
      Queries.verify_file_exists subprocess_run stdout_ok stdout_error
                                 self repo path calls
      = (Console.Returned false,
         calls ++ [Verifier.curl_cmd self repo path])) /\
  (forall repo path calls e message,
      subprocess_run calls (Verifier.curl_cmd self repo path)
      = Console.Raised e message ->
      ConsoleProps.writable stdout_ok message = true ->
      Queries.verify_file_exists subprocess_run stdout_ok stdout_error
                                 self repo path calls
      = (Console.Returned false,
         calls ++ [Verifier.curl_cmd self repo path])) /\
  (forall repo path calls status,
      status < 1000 ->
      subprocess_run calls (Verifier.curl_cmd self repo path)
      = Console.Returned (http_code status) ->
      Queries.verify_file_exists subprocess_run stdout_ok stdout_error
                                 self repo path calls
      = (Console.Returned (status =? 200),
         calls ++ [Verifier.curl_cmd self repo path])) /\
  (forall repo path calls,
      ~ (exists stdout,
            subprocess_run calls (Verifier.curl_cmd self repo path)
            = Console.Returned stdout /\
            strip stdout = u "200") ->
      (forall e message,
          subprocess_run calls (Verifier.curl_cmd self repo path)
          = Console.Raised e message ->
          ConsoleProps.writable stdout_ok message = true) ->
      subprocess_run (calls ++ [Verifier.curl_cmd self repo path])
                     (Verifier.curl_cmd self repo path)
      = Console.Returned (u "200") ->
      Queries.verify_file_exists subprocess_run stdout_ok stdout_error
                                 self repo path calls
      = (Console.Returned false,
         calls ++ [Verifier.curl_cmd self repo path])) /\
  (forall calls d1 d2 m1 m2 f1 f2 r1 r2 p1 p2,
      get (Verifier.log_data self) (u "deployments") (VList [])
      = Ok (VList [d1; d2]) ->
      get d1 (u "manifest") (VDict []) = Ok m1 ->
      get m1 (u "filename") (VStr (u "unknown")) = Ok (VStr f1) ->
      get m1 (u "target_repo") (VStr []) = Ok (VStr r1) ->
      get m1 (u "target_path") (VStr []) = Ok (VStr p1) ->
      get d2 (u "manifest") (VDict []) = Ok m2 ->
      get m2 (u "filename") (VStr (u "unknown")) = Ok (VStr f2) ->
      get m2 (u "target_repo") (VStr []) = Ok (VStr r2) ->
      get m2 (u "target_path") (VStr []) = Ok (VStr p2) ->
      ConsoleProps.writable stdout_ok (f1 ++ r1 ++ p1 ++ f2 ++ r2 ++ p2)
      = true ->
      subprocess_run calls (Verifier.curl_cmd self (VStr r1) (VStr p1))
      = Console.Returned (http_code 200) ->
      subprocess_run (calls ++ [Verifier.curl_cmd self (VStr r1) (VStr p1)])
                     (Verifier.curl_cmd self (VStr r2) (VStr p2))
      = Console.Returned (http_code 404) ->
      Queries.verify_all subprocess_run isprintable stdout_ok stdout_error
                         percent self calls
      = (Console.Returned
           (VDict [(u "total", VInt 2);
                   (u "verified", VInt 1);
                   (u "failed", VInt 1);
                   (u "success_rate", VFloat (1 # 2));
                   (u "details",
                    VList [detail_row (VStr f1) (VStr r1) (VStr p1) true;
                           detail_row (VStr f2) (VStr r2) (VStr p2)
                                      false])]),
         calls ++ [Verifier.curl_cmd self (VStr r1) (VStr p1);
                   Verifier.curl_cmd self (VStr r2) (VStr p2)])) /\
  (forall (answer : list pystr -> result pystr) repo path calls,
      (forall c, stdout_ok c = true) ->
      Queries.verify_file_exists (Queries.stateless isprintable answer)
                                 stdout_ok stdout_error self repo path calls
      = (Console.Returned (Verifier.verify_file_exists answer self repo path),
         calls ++ [Verifier.curl_cmd self repo path]) /\
      fst (Queries.verify_all (Queries.stateless isprintable answer)
                              isprintable stdout_ok stdout_error percent
                              self calls)
      = QueryProps.outcome_of isprintable (Verifier.verify_all answer self) /\
      (Verifier.verify_file_exists answer self repo path = true <->
       exists stdout,
         answer (Verifier.curl_cmd self repo path) = Ok stdout /\
         strip stdout = u "200")).
Proof.
  intros Hstdout Hpercent.
  assert (Hraised : forall repo path calls e message,
             subprocess_run calls (Verifier.curl_cmd self repo path)
             = Console.Raised e message ->
             ConsoleProps.writable stdout_ok message = true ->
             Queries.verify_file_exists subprocess_run stdout_ok stdout_error
                                        self repo path calls
             = (Console.Returned false,
                calls ++ [Verifier.curl_cmd self repo path])).
  { intros repo path calls e message H W.
    rewrite query_once, H, (@warning_line_writable stdout_ok Hstdout), W.
    reflexivity. }
  split; [|split; [|split; [|split; [|split; [|split; [|split]]]]]].
  - intros repo path calls. rewrite query_once. reflexivity.
  - intros repo path calls. rewrite query_once.
    destruct (subprocess_run calls _) as [stdout|e message]; split.
    + intros H. injection H as H. apply str_eqb_eq in H. eauto.
    + intros (s & E & H). injection E as <-.
      apply str_eqb_eq in H. rewrite H. reflexivity.
    + destruct (ConsoleProps.writable stdout_ok _); discriminate.
    + intros (s & E & _). discriminate E.
  - intros repo path calls stdout H Hne. rewrite query_once, H.
    destruct (str_eqb (strip stdout) (u "200")) eqn:E; [|reflexivity].
    exfalso. apply Hne, str_eqb_eq, E.
  - exact Hraised.
  - intros repo path calls status Hs H.
    rewrite query_once, H, (http_code_200 Hs). reflexivity.
  - intros repo path calls Hne Hw _.
    destruct (subprocess_run calls (Verifier.curl_cmd self repo path))
      as [stdout|e message] eqn:E.
    + rewrite query_once, E.
      destruct (str_eqb (strip stdout) (u "200")) eqn:E2; [|reflexivity].
      exfalso. apply Hne. exists stdout. split; [reflexivity|].
      apply str_eqb_eq, E2.
    + apply (Hraised repo path calls e message E), (Hw e message).
      reflexivity.
  - intros calls d1 d2 m1 m2 f1 f2 r1 r2 p1 p2.
    apply (@verify_all_found_then_missing subprocess_run isprintable
             stdout_ok stdout_error percent Hstdout Hpercent).
  - intros answer repo path calls Hany.
    split; [apply (@query_stateless answer isprintable stdout_ok
                                      stdout_error Hany)|].
    split; [apply (@verify_all_stateless answer isprintable stdout_ok
                                           stdout_error percent Hany)|].
    unfold Verifier.verify_file_exists.
    destruct (answer _) as [stdout|e]; split.
    + intros H. apply str_eqb_eq in H. eauto.
    + intros (s & E & H). injection E as <-. apply str_eqb_eq, H.
    + discriminate.
    + intros (s & E & _). discriminate E.
Qed.

Lemma verify_exact_found_witness :
  let manifest :=
    VDict [(u "filename", VStr (u "a.md"));
           (u "target_repo", VStr (u "life-os"));
           (u "target_path", VStr (u "docs/a.md"))] in
  let entry :=
    VDict [(u "filepath", VStr (u "/mnt/user-data/outputs/a.md"));
           (u "manifest", manifest)] in
  let log :=
    VDict [(u "version", VStr (u "1.0.0"));
           (u "deployments", VList [entry; entry])] in
  let transport (calls : Queries.history) (cmd : list pystr) :=
    match calls with
    | [_] => Console.Returned (u "404")
    | _ => Console.Returned (u "200")
    end in
  let isprintable (c : N) := true in
  let stdout_error (text : pystr) := u "surrogates not allowed" in
  let percent (q : Q) := u "50.0" in
  let cmd :=
    Verifier.curl_cmd (Verifier.new_verifier log) (VStr (u "life-os"))
                      (VStr (u "docs/a.md")) in
  Queries.verify_all transport isprintable scalar stdout_error percent
                     (Verifier.new_verifier log) []
  = (Console.Returned
       (VDict [(u "total", VInt 2);
               (u "verified", VInt 1);
               (u "failed", VInt 1);
               (u "success_rate", VFloat (1 # 2));
               (u "details",
                VList [detail_row (VStr (u "a.md")) (VStr (u "life-os"))
                                  (VStr (u "docs/a.md")) true;
                       detail_row (VStr (u "a.md")) (VStr (u "life-os"))
                                  (VStr (u "docs/a.md")) false])]),
     [cmd; cmd]).
Proof.
  intros manifest entry log transport isprintable stdout_error percent cmd.
  apply (proj1 (proj2 (proj2 (proj2 (proj2 (proj2 (proj2
           (@verify_exact_found transport isprintable scalar stdout_error
              percent (Verifier.new_verifier log)
              (fun c H => H) (fun q => eq_refl))))))))
           [] entry entry manifest manifest);
    reflexivity.
Defined.
